(** * RedToBlog: the five-stage blog pipeline of [reddit_blog_app.py]

    A shallow embedding of [BaseAgent.request_api], the five agents of
    [BlogGenerator] and [BlogGenerator.run_analysis], together with the
    library functions they call ([dict.get], [dict.update], [str]/[repr],
    [json.loads], [networkx.topological_sort]).

    Conventions.
    - A Python [str] is the list of its code points.
    - A Python value is a [pyval]; a [dict] keeps its insertion order, as
      Python's does, because [repr] shows it.
    - A float is kept as the text it was read from; how Python prints it and
      whether it is zero are parameters of the development.
    - Exceptions are values of [exn]; every one of them derives from
      Python's [Exception].  Code runs in the monad [M W], which threads a
      world [W] (the requests sent so far) and may raise.
    - The standard output is taken to be a UTF-8 stream with strict error
      handling, Python's default: [print] raises [UnicodeEncodeError] on a
      text that holds a surrogate and on no other.  The one [print] that
      can change what the code returns or raises is modelled, the one of
      the raw response in the handler of [MetricAgent.process]; the others
      write text that is ASCII or escaped by [repr], or stand inside the
      [try] of [request_api], whose handler gives the same result.  What is
      written is not kept.
    - [json_loads] is the decoder within the limits of the interpreter.
      Beyond them (the recursion depth for nested values, the digits of an
      integer) Python raises [RecursionError] or [ValueError], which
      [except json.JSONDecodeError] does not catch; the decoder here never
      returns them.  The statements on what [MetricAgent.process] and a run
      raise or return therefore take the outcome of the decoder as a
      hypothesis and hold for whatever exception the decoder raises. *)

From Stdlib Require Import ZArith NArith List String Ascii Bool Lia.
From stdpp Require Import base list.
Import ListNotations.

Local Open Scope list_scope.

(** ** Strings *)

Definition str := list N.

(** A source literal (ASCII) as a Python string. *)
Definition py (s : string) : str := map N_of_ascii (list_ascii_of_string s).

Fixpoint join (sep : str) (parts : list str) : str :=
  match parts with
  | [] => []
  | [p] => p
  | p :: rest => p ++ sep ++ join sep rest
  end.

Fixpoint startswith (s prefix : str) : bool :=
  match prefix, s with
  | [], _ => true
  | p :: prefix', c :: s' => (p =? c)%N && startswith s' prefix'
  | _ :: _, [] => false
  end.

(** [needle in s] *)
Fixpoint contains (s needle : str) : bool :=
  startswith s needle ||
  match s with
  | [] => false
  | _ :: s' => contains s' needle
  end.

(** ** Values *)

#[warnings="-register-all"]
Inductive pyval :=
| PNone
| PBool (b : bool)
| PInt (z : Z)
| PFloat (lexeme : str)
| PStr (s : str)
| PList (items : list pyval)
| PDict (entries : list (str * pyval)).

Definition pydict := list (str * pyval).

(** ** Dictionaries, in insertion order *)

Fixpoint dict_lookup (d : pydict) (k : str) : option pyval :=
  match d with
  | [] => None
  | (k', v) :: d' => if decide (k' = k) then Some v else dict_lookup d' k
  end.

(** [d.get(k, dflt)] *)
Definition dict_get (d : pydict) (k : str) (dflt : pyval) : pyval :=
  match dict_lookup d k with
  | Some v => v
  | None => dflt
  end.

(** [d[k] = v]: an existing key keeps its place, a new one goes last. *)
Fixpoint dict_set (d : pydict) (k : str) (v : pyval) : pydict :=
  match d with
  | [] => [(k, v)]
  | (k', v') :: d' =>
      if decide (k' = k) then (k', v) :: d' else (k', v') :: dict_set d' k v
  end.

(** [d.update(u)] *)
Definition dict_update (d u : pydict) : pydict :=
  fold_left (fun acc kv => dict_set acc (fst kv) (snd kv)) u d.

Definition dict_keys (d : pydict) : list str := map fst d.

(** [dict(pairs)] *)
Definition dict_of_pairs (pairs : pydict) : pydict := dict_update [] pairs.

(** ** Exceptions and the monad *)

Inductive exn :=
| RequestException
| JSONDecodeError
| AttributeError
| TypeError
| KeyError
| NetworkXUnfeasible
| RuntimeError
| UnicodeEncodeError
| RecursionError
| ValueError.

(** [except Exception] *)
Definition is_Exception (e : exn) : bool := true.

(** [except json.JSONDecodeError] *)
Definition is_JSONDecodeError (e : exn) : bool :=
  match e with
  | JSONDecodeError => true
  | _ => false
  end.

Definition M (W A : Type) : Type := W -> W * (exn + A).

Definition ret {W A} (a : A) : M W A := fun w => (w, inr a).

Definition raise {W A} (e : exn) : M W A := fun w => (w, inl e).

Definition bind {W A B} (m : M W A) (k : A -> M W B) : M W B :=
  fun w =>
    match m w with
    | (w', inr a) => k a w'
    | (w', inl e) => (w', inl e)
    end.

Definition lift {W A} (r : exn + A) : M W A := fun w => (w, r).

(** A surrogate: a code point that UTF-8 does not encode. *)
Definition is_surrogate (c : N) : bool := ((55296 <=? c) && (c <=? 57343))%N.

(** [print(text)]: the text is encoded for the standard output. *)
Definition print {W} (text : str) : M W unit :=
  if existsb is_surrogate text then raise UnicodeEncodeError else ret tt.

(** [try: body  except <handles> as e: handler e] *)
Definition try_except {W A} (body : M W A) (handles : exn -> bool)
    (handler : exn -> M W A) : M W A :=
  fun w =>
    match body w with
    | (w', inl e) => if handles e then handler e w' else (w', inl e)
    | r => r
    end.

Declare Scope monad_scope.
Delimit Scope monad_scope with monad.
Notation "'do' x <- m ; k" := (bind m (fun x => k))
  (at level 10, x name, m at level 100, k at level 200) : monad_scope.
Local Open Scope monad_scope.

(** ** [bool], [repr] and [str] of a value *)

Fixpoint uint_str (d : Decimal.uint) : str :=
  match d with
  | Decimal.Nil => []
  | Decimal.D0 d' => 48%N :: uint_str d'
  | Decimal.D1 d' => 49%N :: uint_str d'
  | Decimal.D2 d' => 50%N :: uint_str d'
  | Decimal.D3 d' => 51%N :: uint_str d'
  | Decimal.D4 d' => 52%N :: uint_str d'
  | Decimal.D5 d' => 53%N :: uint_str d'
  | Decimal.D6 d' => 54%N :: uint_str d'
  | Decimal.D7 d' => 55%N :: uint_str d'
  | Decimal.D8 d' => 56%N :: uint_str d'
  | Decimal.D9 d' => 57%N :: uint_str d'
  end.

(** [repr] of an [int] *)
Definition int_repr (z : Z) : str :=
  match z with
  | Z0 => py "0"
  | Zpos p => uint_str (Pos.to_uint p)
  | Zneg p => py "-" ++ uint_str (Pos.to_uint p)
  end.

Definition hex_digit (n : N) : N :=
  if (n <? 10)%N then (48 + n)%N else (87 + n)%N.

(** The [width] low hexadecimal digits of [n], most significant first. *)
Fixpoint hex_fixed (width : nat) (n : N) : str :=
  match width with
  | O => []
  | S w => hex_fixed w (n / 16)%N ++ [hex_digit (n mod 16)%N]
  end.

Section Repr.

(** [repr] of the float read from a text, and whether it is non-zero. *)
Variable float_repr : str -> str.
Variable float_truth : str -> bool.

(** [str.isprintable] on the code points from 128 up (Unicode's table). *)
Variable unicode_printable : N -> bool.

(** [bool(v)] *)
Definition truthy (v : pyval) : bool :=
  match v with
  | PNone => false
  | PBool b => b
  | PInt z => negb (z =? 0)%Z
  | PFloat f => float_truth f
  | PStr s => match s with [] => false | _ => true end
  | PList l => match l with [] => false | _ => true end
  | PDict d => match d with [] => false | _ => true end
  end.

Definition repr_char (quote c : N) : str :=
  if ((c =? quote) || (c =? 92))%N then [92%N; c]
  else if (c =? 9)%N then py "\t"
  else if (c =? 10)%N then py "\n"
  else if (c =? 13)%N then py "\r"
  else if ((c <? 32) || (c =? 127))%N then py "\x" ++ hex_fixed 2 c
  else if (c <? 127)%N then [c]
  else if unicode_printable c then [c]
  else if (c <=? 255)%N then py "\x" ++ hex_fixed 2 c
  else if (c <=? 65535)%N then py "\u" ++ hex_fixed 4 c
  else py "\U" ++ hex_fixed 8 c.

(** [repr] of a [str]: single quotes, unless the text has one and has no
    double quote. *)
Definition str_repr (s : str) : str :=
  let quote :=
    if existsb (N.eqb 39) s && negb (existsb (N.eqb 34) s) then 34%N
    else 39%N in
  [quote] ++ flat_map (repr_char quote) s ++ [quote].

Fixpoint py_repr (v : pyval) : str :=
  match v with
  | PNone => py "None"
  | PBool true => py "True"
  | PBool false => py "False"
  | PInt z => int_repr z
  | PFloat f => float_repr f
  | PStr s => str_repr s
  | PList l => py "[" ++ join (py ", ") (map py_repr l) ++ py "]"
  | PDict d =>
      py "{" ++
      join (py ", ")
        (map (fun kv => let '(k, x) := kv in str_repr k ++ py ": " ++ py_repr x) d)
      ++ py "}"
  end.

(** [str(v)], which is what an f-string field [{v}] inserts. *)
Definition py_str (v : pyval) : str :=
  match v with
  | PStr s => s
  | _ => py_repr v
  end.

End Repr.


(** ** [json.loads]

    The decoder of Python's [json] package with its default settings
    (strict strings, the constants NaN, Infinity and -Infinity accepted).
    The text is cut into tokens, with the white space the decoder skips
    between them, and the tokens are assembled with an explicit stack.  Every
    failure of the decoder on a [str] is a [JSONDecodeError]. *)

Inductive token :=
| TLBrace
| TRBrace
| TLBracket
| TRBracket
| TColon
| TComma
| TScalar (v : pyval).

Definition is_ws (c : N) : bool :=
  ((c =? 32) || (c =? 9) || (c =? 10) || (c =? 13))%N.

Definition is_digit (c : N) : bool := ((48 <=? c) && (c <=? 57))%N.

Definition hex_value (c : N) : option N :=
  if is_digit c then Some (c - 48)%N
  else if ((65 <=? c) && (c <=? 70))%N then Some (c - 55)%N
  else if ((97 <=? c) && (c <=? 102))%N then Some (c - 87)%N
  else None.

(** The four hexadecimal digits of a [\uXXXX] escape. *)
Definition decode_uXXXX (h1 h2 h3 h4 : N) : option N :=
  match hex_value h1, hex_value h2, hex_value h3, hex_value h4 with
  | Some a, Some b, Some c, Some d => Some (((a * 16 + b) * 16 + c) * 16 + d)%N
  | _, _, _, _ => None
  end.

(** The [BACKSLASH] table of the decoder. *)
Definition backslash (esc : N) : option N :=
  if (esc =? 34)%N then Some 34%N
  else if (esc =? 92)%N then Some 92%N
  else if (esc =? 47)%N then Some 47%N
  else if (esc =? 98)%N then Some 8%N
  else if (esc =? 102)%N then Some 12%N
  else if (esc =? 110)%N then Some 10%N
  else if (esc =? 114)%N then Some 13%N
  else if (esc =? 116)%N then Some 9%N
  else None.

Definition is_high_surrogate (u : N) : bool := ((55296 <=? u) && (u <=? 56319))%N.
Definition is_low_surrogate (u : N) : bool := ((56320 <=? u) && (u <=? 57343))%N.

Definition scanned (c : N) (used : nat) (rest : option (str * nat))
  : option (str * nat) :=
  match rest with
  | Some (s, n) => Some (c :: s, (used + n)%nat)
  | None => None
  end.

(** [scanstring], from just after the opening quote: the decoded text and
    the number of characters read, closing quote included. *)
Fixpoint scanstring (s : str) : option (str * nat) :=
  match s with
  | [] => None
  | c :: rest =>
      if (c =? 34)%N then Some ([], 1%nat)
      else if (c =? 92)%N then
        match rest with
        | [] => None
        | esc :: rest1 =>
            if (esc =? 117)%N then
              match rest1 with
              | h1 :: h2 :: h3 :: h4 :: rest2 =>
                  match decode_uXXXX h1 h2 h3 h4 with
                  | None => None
                  | Some uni =>
                      match rest2 with
                      | b :: u :: g1 :: g2 :: g3 :: g4 :: rest3 =>
                          match decode_uXXXX g1 g2 g3 g4 with
                          | Some uni2 =>
                              if is_high_surrogate uni && (b =? 92)%N
                                 && (u =? 117)%N && is_low_surrogate uni2
                              then
                                scanned
                                  (65536 + (N.lor (N.shiftl (uni - 55296) 10)
                                                  (uni2 - 56320)))%N
                                  12 (scanstring rest3)
                              else scanned uni 6 (scanstring rest2)
                          | None => scanned uni 6 (scanstring rest2)
                          end
                      | _ => scanned uni 6 (scanstring rest2)
                      end
                  end
              | _ => None
              end
            else
              match backslash esc with
              | Some ch => scanned ch 2 (scanstring rest1)
              | None => None
              end
        end
      else if (c <? 32)%N then None
      else scanned c 1 (scanstring rest)
  end.

Fixpoint span_digits (s : str) : str * str :=
  match s with
  | c :: rest =>
      if is_digit c then let '(ds, tl) := span_digits rest in (c :: ds, tl)
      else ([], s)
  | [] => ([], [])
  end.

(** [int] of a run of decimal digits. *)
Definition int_of_digits (ds : str) : Z :=
  fold_left (fun acc c => (acc * 10 + Z.of_N (c - 48))%Z) ds 0%Z.

(** The integer part of [NUMBER_RE]: an optional minus sign, then a single
    zero or a non-zero digit followed by digits. *)
Definition match_integer (s : str) : option (str * str) :=
  let '(sign, body) :=
    match s with
    | c :: rest => if (c =? 45)%N then ([c], rest) else ([], s)
    | [] => ([], s)
    end in
  match body with
  | d :: rest =>
      if (d =? 48)%N then Some (sign ++ [d], rest)
      else if is_digit d then
        let '(ds, tl) := span_digits rest in Some (sign ++ d :: ds, tl)
      else None
  | [] => None
  end.

(** The optional fraction of [NUMBER_RE]: a dot and at least one digit. *)
Definition match_frac (s : str) : str * str :=
  match s with
  | c :: rest =>
      if (c =? 46)%N then
        match span_digits rest with
        | ([], _) => ([], s)
        | (ds, tl) => (c :: ds, tl)
        end
      else ([], s)
  | [] => ([], s)
  end.

(** The optional exponent of [NUMBER_RE]: e or E, an optional sign and at
    least one digit. *)
Definition match_exp (s : str) : str * str :=
  match s with
  | c :: rest =>
      if ((c =? 101) || (c =? 69))%N then
        let '(sign, body) :=
          match rest with
          | sg :: rest' =>
              if ((sg =? 45) || (sg =? 43))%N then ([sg], rest') else ([], rest)
          | [] => ([], rest)
          end in
        match span_digits body with
        | ([], _) => ([], s)
        | (ds, tl) => (c :: sign ++ ds, tl)
        end
      else ([], s)
  | [] => ([], s)
  end.

(** A number at the head of [s]: the value and the characters read. *)
Definition match_number (s : str) : option (pyval * nat) :=
  match match_integer s with
  | None => None
  | Some (integer, tl) =>
      let '(frac, tl1) := match_frac tl in
      let '(exp, _) := match_exp tl1 in
      match frac, exp with
      | [], [] =>
          let v :=
            match integer with
            | c :: ds =>
                if (c =? 45)%N then (- int_of_digits ds)%Z else int_of_digits integer
            | [] => 0%Z
            end in
          Some (PInt v, length integer)
      | _, _ =>
          Some (PFloat (integer ++ frac ++ exp),
                length (integer ++ frac ++ exp))
      end
  end.

(** The token at the head of [s] (which does not start with white space)
    and the number of characters it takes, in the order [scan_once] tries
    them. *)
Definition next_token (s : str) : option (token * nat) :=
  match s with
  | [] => None
  | c :: rest =>
      if (c =? 34)%N then
        match scanstring rest with
        | Some (k, n) => Some (TScalar (PStr k), S n)
        | None => None
        end
      else if (c =? 123)%N then Some (TLBrace, 1%nat)
      else if (c =? 125)%N then Some (TRBrace, 1%nat)
      else if (c =? 91)%N then Some (TLBracket, 1%nat)
      else if (c =? 93)%N then Some (TRBracket, 1%nat)
      else if (c =? 58)%N then Some (TColon, 1%nat)
      else if (c =? 44)%N then Some (TComma, 1%nat)
      else if startswith s (py "null") then Some (TScalar PNone, 4%nat)
      else if startswith s (py "true") then Some (TScalar (PBool true), 4%nat)
      else if startswith s (py "false") then Some (TScalar (PBool false), 5%nat)
      else
        match match_number s with
        | Some (v, n) => Some (TScalar v, n)
        | None =>
            if startswith s (py "NaN") then Some (TScalar (PFloat (py "nan")), 3%nat)
            else if startswith s (py "Infinity") then
              Some (TScalar (PFloat (py "inf")), 8%nat)
            else if startswith s (py "-Infinity") then
              Some (TScalar (PFloat (py "-inf")), 9%nat)
            else None
        end
  end.

(** The tokens of a text; [skip] characters are still part of the token
    read last. *)
Fixpoint lex (skip : nat) (s : str) : option (list token) :=
  match s with
  | [] => Some []
  | c :: rest =>
      match skip with
      | S k => lex k rest
      | O =>
          if is_ws c then lex O rest
          else
            match next_token s with
            | Some (t, n) =>
                match lex (pred n) rest with
                | Some ts => Some (t :: ts)
                | None => None
                end
            | None => None
            end
      end
  end.

(** An open container: an array with its items so far (last first), or an
    object with its pairs so far (last first) and the key being read. *)
Inductive frame :=
| FArr (items : list pyval)
| FObj (pairs : pydict) (key : str).

Inductive pmode :=
| MValue
| MArrFirst
| MArrNext
| MObjFirst
| MObjKey
| MObjColon
| MObjNext
| MDone (v : pyval).

(** A value is complete: it is the result, or goes into the open container. *)
Definition push_value (stack : list frame) (v : pyval) : list frame * pmode :=
  match stack with
  | [] => ([], MDone v)
  | FArr items :: st => (FArr (v :: items) :: st, MArrNext)
  | FObj pairs k :: st => (FObj ((k, v) :: pairs) k :: st, MObjNext)
  end.

Definition open_value (stack : list frame) (t : token)
  : option (list frame * pmode) :=
  match t with
  | TScalar v => Some (push_value stack v)
  | TLBrace => Some (FObj [] [] :: stack, MObjFirst)
  | TLBracket => Some (FArr [] :: stack, MArrFirst)
  | _ => None
  end.

Definition close_array (stack : list frame) : option (list frame * pmode) :=
  match stack with
  | FArr items :: st => Some (push_value st (PList (rev items)))
  | _ => None
  end.

Definition close_object (stack : list frame) : option (list frame * pmode) :=
  match stack with
  | FObj pairs _ :: st => Some (push_value st (PDict (dict_of_pairs (rev pairs))))
  | _ => None
  end.

Definition read_key (stack : list frame) (t : token)
  : option (list frame * pmode) :=
  match t, stack with
  | TScalar (PStr k), FObj pairs _ :: st => Some (FObj pairs k :: st, MObjColon)
  | _, _ => None
  end.

Definition parse_step (state : list frame * pmode) (t : token)
  : option (list frame * pmode) :=
  let '(stack, mode) := state in
  match mode with
  | MValue => open_value stack t
  | MArrFirst =>
      match t with
      | TRBracket => close_array stack
      | _ => open_value stack t
      end
  | MArrNext =>
      match t with
      | TComma => Some (stack, MValue)
      | TRBracket => close_array stack
      | _ => None
      end
  | MObjFirst =>
      match t with
      | TRBrace => close_object stack
      | _ => read_key stack t
      end
  | MObjKey => read_key stack t
  | MObjColon =>
      match t with
      | TColon => Some (stack, MValue)
      | _ => None
      end
  | MObjNext =>
      match t with
      | TComma => Some (stack, MObjKey)
      | TRBrace => close_object stack
      | _ => None
      end
  | MDone _ => None
  end.

Fixpoint parse_tokens (state : list frame * pmode) (ts : list token)
  : option (list frame * pmode) :=
  match ts with
  | [] => Some state
  | t :: ts' =>
      match parse_step state t with
      | Some state' => parse_tokens state' ts'
      | None => None
      end
  end.

(** [json.loads(s)] for a [str] *)
Definition json_loads (s : str) : exn + pyval :=
  match lex O s with
  | Some ts =>
      match parse_tokens ([], MValue) ts with
      | Some ([], MDone v) => inr v
      | _ => inl JSONDecodeError
      end
  | None => inl JSONDecodeError
  end.

(** [json.loads(v)]: anything but text is a [TypeError]. *)
Definition json_loads_value (v : pyval) : exn + pyval :=
  match v with
  | PStr s => json_loads s
  | _ => inl TypeError
  end.

(** ** [networkx.DiGraph] and [topological_sort]

    Nodes and edges are kept in the order they were added, which is the
    order networkx iterates them in. *)

Record DiGraph := { nodes : list str; edges : list (str * str) }.

Definition add_node (G : DiGraph) (n : str) : DiGraph :=
  if decide (n ∈ nodes G) then G
  else {| nodes := nodes G ++ [n]; edges := edges G |}.

Definition add_edge (G : DiGraph) (e : str * str) : DiGraph :=
  let G1 := add_node (add_node G (fst e)) (snd e) in
  if decide (e ∈ edges G1) then G1
  else {| nodes := nodes G1; edges := edges G1 ++ [e] |}.

(** [nx.DiGraph(edge_list)] *)
Definition DiGraph_of_edges (es : list (str * str)) : DiGraph :=
  fold_left add_edge es {| nodes := []; edges := [] |}.

(** [G.neighbors(n)]: the successors of [n]. *)
Definition neighbors (G : DiGraph) (n : str) : list str :=
  map snd (filter (fun e => fst e = n) (edges G)).

Definition in_degree (G : DiGraph) (n : str) : Z :=
  Z.of_nat (length (filter (fun e => snd e = n) (edges G))).

Fixpoint assoc_lookup {A} (d : list (str * A)) (k : str) : option A :=
  match d with
  | [] => None
  | (k', v) :: d' => if decide (k' = k) then Some v else assoc_lookup d' k
  end.

Fixpoint assoc_set {A} (d : list (str * A)) (k : str) (v : A) : list (str * A) :=
  match d with
  | [] => [(k, v)]
  | (k', v') :: d' =>
      if decide (k' = k) then (k', v) :: d' else (k', v') :: assoc_set d' k v
  end.

Definition assoc_del {A} (d : list (str * A)) (k : str) : list (str * A) :=
  filter (fun kv => fst kv ≠ k) d.

(** One pass of the inner loop of [topological_generations]: the in-degree
    of [child] drops by one, and at zero the child joins the next
    generation and leaves the map. *)
Definition visit_child (acc : exn + (list (str * Z) * list str)) (child : str)
  : exn + (list (str * Z) * list str) :=
  match acc with
  | inl e => inl e
  | inr (indegree_map, zero_indegree) =>
      match assoc_lookup indegree_map child with
      | None => inl RuntimeError
      | Some d =>
          if (d - 1 =? 0)%Z
          then inr (assoc_del indegree_map child, zero_indegree ++ [child])
          else inr (assoc_set indegree_map child (d - 1)%Z, zero_indegree)
      end
  end.

(** The [while zero_indegree] loop: the nodes yielded, and the exception
    that ends the iteration, if any.  Every round yields at least one node
    that no earlier round did, so [length (nodes G)] rounds are enough and
    the case of no round left is never reached from [topological_sort]. *)
Fixpoint generations (rounds : nat) (G : DiGraph)
    (indegree_map : list (str * Z)) (zero_indegree : list str)
  : list str * option exn :=
  match zero_indegree with
  | [] =>
      ([], match indegree_map with
           | [] => None
           | _ => Some NetworkXUnfeasible
           end)
  | _ =>
      match rounds with
      | O => ([], Some RuntimeError)
      | S rounds' =>
          match
            fold_left visit_child (flat_map (neighbors G) zero_indegree)
              (inr (indegree_map, []))
          with
          | inl e => ([], Some e)
          | inr (indegree_map', zero_indegree') =>
              let '(later, e) := generations rounds' G indegree_map' zero_indegree' in
              (zero_indegree ++ later, e)
          end
      end
  end.

(** [nx.topological_sort(G)], a generator: what it yields, then what it
    raises. *)
Definition topological_sort (G : DiGraph) : list str * option exn :=
  generations (length (nodes G)) G
    (flat_map (fun v => if (0 <? in_degree G v)%Z then [(v, in_degree G v)] else [])
       (nodes G))
    (filter (fun v => in_degree G v = 0%Z) (nodes G)).

(** ** The model endpoint *)

(** What the code reads of a [requests.Response]: the status and the result
    of [response.json()]. *)
Record Response := { status_code : Z; json : exn + pyval }.

(** The world: the prompts posted so far, oldest first. *)
Definition world := list str.

Section Pipeline.

Variable float_repr : str -> str.
Variable float_truth : str -> bool.
Variable unicode_printable : N -> bool.

(** [textwrap.dedent] *)
Variable dedent : str -> str.

(** The server behind [http://localhost:11434/api/generate]: its answer to
    a prompt, or the exception [requests.post] raises, given what was
    posted before.  The model name and the stream flag of the request are
    the same in every call. *)
Variable endpoint : world -> str -> exn + Response.

#[local] Abbreviation py_str := (py_str float_repr unicode_printable).
#[local] Abbreviation truthy := (truthy float_truth).

(** [requests.post(self.endpoint, json={...})] *)
Definition requests_post (prompt : str) : M world Response :=
  fun w => (w ++ [prompt], endpoint w prompt).

(** [json_response.get('response', json_response)]: only a [dict] has
    [get]. *)
Definition get_response (json_response : pyval) : exn + pyval :=
  match json_response with
  | PDict d => inr (dict_get d (py "response") json_response)
  | _ => inl AttributeError
  end.

(** [BaseAgent.request_api] *)
Definition request_api (prompt : str) : M world pyval :=
  try_except
    (do response <- requests_post prompt;
     if negb (status_code response =? 200)%Z then ret (PStr [])
     else
       do json_response <- lift (json response);
       lift (get_response json_response))
    is_Exception
    (fun e => ret (PStr [])).

(** [ExpandAgent.process]; its argument, which the source calls
    [content], is the state [run_analysis] passes to every agent. *)
Definition Expand_prompt (content : pydict) : str :=
  py "Expand: " ++ py_str (PDict content).

Definition ExpandAgent_process (content : pydict) : M world pydict :=
  do r <- request_api (Expand_prompt content);
  ret [(py "expanded", r)].

(** [AnalyzeAgent.process] *)
Definition Analyze_prompt (state : pydict) : str :=
  py "Analyze: " ++ py_str (dict_get state (py "expanded") (PStr [])).

Definition AnalyzeAgent_process (state : pydict) : M world pydict :=
  do r <- request_api (Analyze_prompt state);
  ret [(py "analysis", r)].

(** [MetricAgent.process] *)
Definition Metric_prompt (state : pydict) : str :=
  py "Extract Metrics: " ++ py_str (dict_get state (py "analysis") (PStr [])).

Definition MetricAgent_process (state : pydict) : M world pydict :=
  do raw_response <- request_api (Metric_prompt state);
  if negb (truthy raw_response) then ret [(py "metrics", PDict [])]
  else
    try_except
      (do metrics <- lift (json_loads_value raw_response);
       ret [(py "metrics", metrics)])
      is_JSONDecodeError
      (fun e =>
         do _ <- print (py "Raw response: " ++ py_str raw_response);
         ret [(py "metrics", PDict [])]).

(** The f-string of [FormatAgent.process], before [dedent]. *)
Definition formatting_template (blog_content : pyval) : str :=
  join [10%N]
    [ [];
      py "            Transform this raw content into a properly formatted Markdown blog post. Use these guidelines:";
      py "            - Start with a # Heading";
      py "            - Use ## and ### subheadings to organize content";
      py "            - Add bullet points for lists";
      py "            - Use **bold** for key metrics";
      py "            - Include --- for section dividers";
      py "            - Maintain original insights but improve readability";
      py "            ";
      py "            Content to format:";
      py "            " ++ py_str blog_content;
      py "            " ].

(** [FormatAgent.process] (the second definition of the class, which
    replaces the empty first one) *)
Definition Format_prompt (state : pydict) : str :=
  let blog_content := dict_get state (py "final_blog") (PStr []) in
  dedent (formatting_template blog_content).

Definition FormatAgent_process (state : pydict) : M world pydict :=
  let formatting_prompt := Format_prompt state in
  do formatted_blog <- request_api formatting_prompt;
  ret [(py "final_blog", formatted_blog)].

(** [FinalAgent.process] *)
Definition Final_prompt (state : pydict) : str :=
  py "Generate Blog: " ++ py_str (dict_get state (py "metrics") (PStr [])).

Definition FinalAgent_process (state : pydict) : M world pydict :=
  do r <- request_api (Final_prompt state);
  ret [(py "final_blog", r)].

End Pipeline.

(** ** [BlogGenerator] *)

(** An agent is its [process] method; [W] is the world the agents act on. *)
Record BlogGenerator (W : Type) := {
  agents : list (str * (pydict -> M W pydict));
  workflow : DiGraph
}.
Arguments agents {W} _.
Arguments workflow {W} _.

(** The graph of [BlogGenerator.__init__]. *)
Definition chain_workflow : DiGraph :=
  DiGraph_of_edges
    [ (py "Expand", py "Analyze");
      (py "Analyze", py "Metric");
      (py "Metric", py "Final");
      (py "Final", py "Format") ].

Section Runner.

Context {W : Type}.

(** The body of the loop: [state.update(self.agents[node].process(state))] *)
Definition run_stage (self : BlogGenerator W) (state : pydict) (node : str)
  : M W pydict :=
  match assoc_lookup (agents self) node with
  | None => raise KeyError
  | Some process =>
      do update <- process state;
      ret (dict_update state update)
  end.

Fixpoint run_stages (self : BlogGenerator W) (order : list str) (state : pydict)
  : M W pydict :=
  match order with
  | [] => ret state
  | node :: order' =>
      do state' <- run_stage self state node;
      run_stages self order' state'
  end.

(** [BlogGenerator.run_analysis] *)
Definition run_analysis (self : BlogGenerator W) (content : str) : M W pydict :=
  let '(order, stop) := topological_sort (workflow self) in
  do state <- run_stages self order [(py "raw_content", PStr content)];
  match stop with
  | None => ret state
  | Some e => raise e
  end.

(** The same generator with every agent writing its name to a call log
    when it is invoked. *)
Definition recording (self : BlogGenerator W) : BlogGenerator (W * list str) :=
  {| agents :=
       map (fun entry =>
              (fst entry,
               fun state (wl : W * list str) =>
                 let '(w', r) := snd entry state (fst wl) in
                 ((w', snd wl ++ [fst entry]), r)))
         (agents self);
     workflow := workflow self |}.

End Runner.

Section Generator.

Variable float_repr : str -> str.
Variable float_truth : str -> bool.
Variable unicode_printable : N -> bool.
Variable dedent : str -> str.
Variable endpoint : world -> str -> exn + Response.

(** [BlogGenerator.__init__] *)
Definition BlogGenerator_init : BlogGenerator world :=
  {| agents :=
       [ (py "Expand", ExpandAgent_process float_repr unicode_printable endpoint);
         (py "Analyze", AnalyzeAgent_process float_repr unicode_printable endpoint);
         (py "Metric",
          MetricAgent_process float_repr float_truth unicode_printable endpoint);
         (py "Final", FinalAgent_process float_repr unicode_printable endpoint);
         (py "Format",
          FormatAgent_process float_repr unicode_printable dedent endpoint) ];
     workflow := chain_workflow |}.

End Generator.

(** ** Vocabulary of the statements *)

(** The order the stages are meant to run in. *)
Definition stage_chain : list str :=
  [py "Expand"; py "Analyze"; py "Metric"; py "Final"; py "Format"].

(** Some occurrence of [u] in [l] comes before some occurrence of [v]. *)
Fixpoint precedes (l : list str) (u v : str) : bool :=
  match l with
  | [] => false
  | x :: l' => (bool_decide (x = u) && bool_decide (v ∈ l')) || precedes l' u v
  end.

(** [l] lists every node of [G] once and every edge goes forward in it. *)
Definition is_topological_order (G : DiGraph) (l : list str) : Prop :=
  l ≡ₚ nodes G ∧ forallb (fun e => precedes l (fst e) (snd e)) (edges G) = true.

(** Reading the response field of the answer raises: [response.json()]
    does, or [get] on what it returned. *)
Definition reading_raises (response : Response) : Prop :=
  match json response with
  | inl _ => True
  | inr payload => ∃ e, get_response payload = inl e
  end.

(** The request fails: [requests.post] raised, or the status is outside
    200..299, or reading the answer raised. *)
Definition request_fails (outcome : exn + Response) : Prop :=
  match outcome with
  | inl _ => True
  | inr response =>
      ¬ (200 ≤ status_code response ≤ 299)%Z ∨ reading_raises response
  end.

(** ** Endpoints and parameters for the concrete runs *)

Module Sample.

(** Stand-ins for the parameters on floats and on Unicode's table.  No run
    below meets a float or a code point from 128 up, so they are never
    consulted. *)
Definition float_repr (lexeme : str) : str := lexeme.

Definition float_truth (lexeme : str) : bool :=
  existsb (fun c => (49 <=? c) && (c <=? 57))%N lexeme.

Definition unicode_printable (c : N) : bool := false.

(** [s.split('\n')] *)
Fixpoint split_lines (s : str) : list str :=
  match s with
  | [] => [[]]
  | c :: s' =>
      match split_lines s' with
      | l :: ls => if (c =? 10)%N then [] :: l :: ls else (c :: l) :: ls
      | [] => [[c]]
      end
  end.

Definition is_blank (c : N) : bool := ((c =? 32) || (c =? 9))%N.

Fixpoint leading_blanks (line : str) : str :=
  match line with
  | c :: line' => if is_blank c then c :: leading_blanks line' else []
  | [] => []
  end.

Fixpoint common_prefix (a b : str) : str :=
  match a, b with
  | x :: a', y :: b' => if (x =? y)%N then x :: common_prefix a' b' else []
  | _, _ => []
  end.

(** [textwrap.dedent] as CPython has it up to 3.13: lines of blanks are
    emptied, and the longest run of blanks that starts every other line is
    removed from them. *)
Definition dedent (text : str) : str :=
  let lines :=
    map (fun line => if forallb is_blank line then [] else line) (split_lines text) in
  let indents :=
    flat_map (fun line => match line with [] => [] | _ => [leading_blanks line] end)
      lines in
  let margin :=
    match indents with
    | [] => []
    | indent :: rest => fold_left common_prefix rest indent
    end in
  join [10%N]
    (map (fun line => if startswith line margin then drop (length margin) line else line)
       lines).

(** The server is down: every request raises. *)
Definition down : world -> str -> exn + Response :=
  fun _ _ => inl RequestException.

(** Every answer is [status] with the JSON [payload]. *)
Definition answers (status : Z) (payload : pyval) : world -> str -> exn + Response :=
  fun _ _ => inr {| status_code := status; json := inr payload |}.

(** Every answer is 200 with the text [text] in the response field. *)
Definition says (text : str) : world -> str -> exn + Response :=
  answers 200 (PDict [(py "response", PStr text)]).

(** The stub that echoes its prompt. *)
Definition echo : world -> str -> exn + Response :=
  fun _ prompt =>
    inr {| status_code := 200;
           json := inr (PDict [(py "response", PStr (py "ECHO:" ++ prompt))]) |}.

Definition generator (endpoint : world -> str -> exn + Response)
  : BlogGenerator world :=
  BlogGenerator_init float_repr float_truth unicode_printable dedent endpoint.

(** The text [{"engagement": 42}]. *)
Definition engagement_text : str :=
  py "{" ++ [34%N] ++ py "engagement" ++ [34%N] ++ py ": 42}".

(** The text of two posts, on two lines. *)
Definition two_posts : str := py "Post A" ++ [10%N] ++ py "Post B".

End Sample.

(** The state of a run after each stage, given what the stages wrote. *)

Definition state_after0 (content : str) : pydict :=
  [(py "raw_content", PStr content)].

Definition state_after1 (content : str) (expanded : pyval) : pydict :=
  state_after0 content ++ [(py "expanded", expanded)].

Definition state_after2 (content : str) (expanded analysis : pyval) : pydict :=
  state_after1 content expanded ++ [(py "analysis", analysis)].

Definition state_after3 (content : str) (expanded analysis metrics : pyval)
  : pydict :=
  state_after2 content expanded analysis ++ [(py "metrics", metrics)].

Definition state_after4 (content : str)
    (expanded analysis metrics final_blog : pyval) : pydict :=
  state_after3 content expanded analysis metrics ++ [(py "final_blog", final_blog)].

(** Why [MetricAgent.process] raises [e] on the value [raw] that the model
    call returned: the value is truthy and is not text, and [json.loads]
    raises [TypeError]; or it is a text on which the decoder raises [e], an
    exception other than the [JSONDecodeError] the stage catches; or it is a
    text with a surrogate that the decoder refuses, and printing it in the
    handler raises [UnicodeEncodeError]. *)
Definition Metric_raises (float_truth : str -> bool) (raw : pyval) (e : exn)
  : Prop :=
  (e = TypeError ∧ truthy float_truth raw = true ∧ ∀ s, raw ≠ PStr s) ∨
  (∃ s, raw = PStr s ∧ s ≠ [] ∧ json_loads s = inl e ∧ e ≠ JSONDecodeError) ∨
  (e = UnicodeEncodeError ∧
   ∃ s, raw = PStr s ∧ json_loads s = inl JSONDecodeError ∧
        existsb is_surrogate s = true).

(** ** [RedditManager]

    What the code reads of the account behind [reddit.user.me()]: the
    submissions and the comments of the user, newest first, as the [new]
    listings give them.  The client works when it is asked for the user and
    again while each listing is iterated, and can fail at any of these
    steps; its failure is an exception of its own kind, which
    [fetch_content] does not catch. *)

Record Submission := { title : str; selftext : str }.

Record Comment := { body : str }.

Record Redditor := {
  submissions : list Submission;
  comments : list Comment
}.

Inductive reddit_error :=
| PrawException.

(** [listing.new(limit=limit)]: the [limit] newest items. *)
Definition new {A} (listing : list A) (limit : nat) : list A := take limit listing.

(** [RedditManager.fetch_content].  [account] is the outcome of what the
    client does in lines 49 and 50: the user with both listings read, or
    the exception raised by [self.reddit.user.me()] or by a listing while
    it is iterated; whichever step raises, nothing of [fetch_content] is
    left but the exception. *)
Definition fetch_content (account : reddit_error + Redditor) (limit : nat)
  : reddit_error + str :=
  match account with
  | inl e => inl e
  | inr user =>
      let submissions :=
        map (fun post => title post ++ [10%N] ++ selftext post)
          (new (submissions user) limit) in
      let comments := map (fun comment => body comment) (new (comments user) limit) in
      inr (join [10%N; 10%N] (submissions ++ comments))
  end.

(** ** [json.dumps]

    The encoder of Python's [json] package with its default settings:
    ASCII output, [", "] between items and [": "] after a key.  The text of a
    float is a parameter. *)

(** One character of [encode_basestring_ascii]. *)
Definition encode_char (c : N) : str :=
  if (c =? 34)%N then py "\" ++ [34%N]
  else if (c =? 92)%N then py "\\"
  else if (c =? 10)%N then py "\n"
  else if (c =? 13)%N then py "\r"
  else if (c =? 9)%N then py "\t"
  else if (c =? 8)%N then py "\b"
  else if (c =? 12)%N then py "\f"
  else if ((32 <=? c) && (c <=? 126))%N then [c]
  else if (c <? 65536)%N then py "\u" ++ hex_fixed 4 c
  else
    let n := (c - 65536)%N in
    let s1 := N.lor 55296 (N.land (N.shiftr n 10) 1023) in
    let s2 := N.lor 56320 (N.land n 1023) in
    py "\u" ++ hex_fixed 4 s1 ++ py "\u" ++ hex_fixed 4 s2.

(** [encode_basestring_ascii] *)
Definition encode_basestring_ascii (s : str) : str :=
  [34%N] ++ flat_map encode_char s ++ [34%N].

Section Dumps.

(** The text [json.dumps] writes for the float read from a text. *)
Variable float_json : str -> str.

(** [json.dumps(v)] *)
Fixpoint json_dumps (v : pyval) : str :=
  match v with
  | PNone => py "null"
  | PBool true => py "true"
  | PBool false => py "false"
  | PInt z => int_repr z
  | PFloat f => float_json f
  | PStr s => encode_basestring_ascii s
  | PList l => py "[" ++ join (py ", ") (map json_dumps l) ++ py "]"
  | PDict d =>
      py "{" ++
      join (py ", ")
        (map (fun kv => let '(k, x) := kv in
                        encode_basestring_ascii k ++ py ": " ++ json_dumps x) d)
      ++ py "}"
  end.

End Dumps.

(** ** The database

    The file [metrics.db] as the code uses it: the table [results] is not
    there yet, or it is there with its rows and its [AUTOINCREMENT] counter.
    The file is written by this program only.  A cell of a [TEXT] column is
    [NULL] or a text.  The bound of 64 bits on row ids is not modelled. *)

Definition cell := option str.

Record Row := {
  row_id : Z;
  row_timestamp : cell;
  row_metrics : cell;
  row_final_blog : cell;
  row_status : cell
}.

Record Table := { sqlite_seq : Z; rows : list Row }.

Definition database := option Table.

Inductive db_error :=
| OperationalError
| ProgrammingError
| OverflowError
| UnicodeEncodeError'
| PandasDatabaseError.

(** What a cell gives when it is read back: [None] or a [str]. *)
Definition cell_value (c : cell) : pyval :=
  match c with
  | None => PNone
  | Some text => PStr text
  end.

(** [ORDER BY id DESC] *)
Fixpoint insert_desc (r : Row) (sorted : list Row) : list Row :=
  match sorted with
  | [] => [r]
  | r' :: rest =>
      if (row_id r' <? row_id r)%Z then r :: sorted else r' :: insert_desc r rest
  end.

Definition order_by_id_desc (l : list Row) : list Row := foldr insert_desc [] l.

(** The id [AUTOINCREMENT] gives the next row: one more than the largest id
    the table has ever had. *)
Definition next_id (t : Table) : Z :=
  (fold_left Z.max (map row_id (rows t)) (sqlite_seq t) + 1)%Z.

(** [init_db]: [CREATE TABLE IF NOT EXISTS] *)
Definition init_db (db : database) : database :=
  match db with
  | None => Some {| sqlite_seq := 0; rows := [] |}
  | Some t => Some t
  end.

(** [fetch_history]: the rows of the data frame, in its order; without the
    table, pandas raises. *)
Definition fetch_history (db : database) : db_error + list Row :=
  match db with
  | None => inl PandasDatabaseError
  | Some t => inr (order_by_id_desc (rows t))
  end.

Section Store.

(** The text [json.dumps] writes for a float, and what SQLite keeps of a
    float bound to a [TEXT] column. *)
Variable float_json : str -> str.
Variable float_text : str -> cell.

(** A Python value bound to a parameter of a [TEXT] column: what is stored,
    or the exception [execute] raises. *)
Definition bind_text (v : pyval) : db_error + cell :=
  match v with
  | PNone => inr None
  | PBool b => inr (Some (if b then py "1" else py "0"))
  | PInt z =>
      if ((- 2 ^ 63 <=? z) && (z <? 2 ^ 63))%Z then inr (Some (int_repr z))
      else inl OverflowError
  | PFloat f => inr (float_text f)
  | PStr s => if existsb is_surrogate s then inl UnicodeEncodeError' else inr (Some s)
  | PList _ => inl ProgrammingError
  | PDict _ => inl ProgrammingError
  end.

(** [save_to_db]; [now] is the formatted reading of the clock.  The
    statement is prepared first, then the four parameters are bound in
    order; when any of this raises, nothing is written. *)
Definition save_to_db (now : str) (metrics final_blog status : pyval)
    (db : database) : database * (db_error + unit) :=
  match db with
  | None => (db, inl OperationalError)
  | Some t =>
      match bind_text (PStr now) with
      | inl e => (db, inl e)
      | inr c_timestamp =>
          match bind_text (PStr (json_dumps float_json metrics)) with
          | inl e => (db, inl e)
          | inr c_metrics =>
              match bind_text final_blog with
              | inl e => (db, inl e)
              | inr c_final_blog =>
                  match bind_text status with
                  | inl e => (db, inl e)
                  | inr c_status =>
                      (Some {| sqlite_seq := next_id t;
                               rows :=
                                 rows t ++
                                 [{| row_id := next_id t;
                                     row_timestamp := c_timestamp;
                                     row_metrics := c_metrics;
                                     row_final_blog := c_final_blog;
                                     row_status := c_status |}] |},
                       inr tt)
                  end
              end
          end
      end
  end.

(** The default of the [status] parameter. *)
Definition complete : pyval := PStr (py "complete").

End Store.

(** [json.loads(row['metrics'])], as the History tab does for each row. *)
Definition history_metrics (r : Row) : exn + pyval :=
  json_loads_value (cell_value (row_metrics r)).

(** ** The Start Analysis button

    Lines 157 to 163 of [main]: the content is fetched, the pipeline runs and
    its result is saved; the display that follows is not modelled.  A run
    ends with the results, or with the exception of the step that raised.
    The [print] of line 161 writes the [repr] of the results, which escapes
    every surrogate. *)

Inductive failure :=
| RedditFailed (e : reddit_error)
| PipelineFailed (e : exn)
| StoreFailed (e : db_error).

Section Main.

Variable float_json : str -> str.
Variable float_text : str -> cell.

Definition start_analysis (account : reddit_error + Redditor) (post_limit : nat)
    (now : str) (blog_generator : BlogGenerator world) (w : world) (db : database)
  : world * database * (failure + pydict) :=
  match fetch_content account post_limit with
  | inl e => (w, db, inl (RedditFailed e))
  | inr content =>
      match run_analysis blog_generator content w with
      | (w', inl e) => (w', db, inl (PipelineFailed e))
      | (w', inr results) =>
          match dict_lookup results (py "metrics") with
          | None => (w', db, inl (PipelineFailed KeyError))
          | Some metrics =>
              match dict_lookup results (py "final_blog") with
              | None => (w', db, inl (PipelineFailed KeyError))
              | Some final_blog =>
                  match save_to_db float_json float_text now metrics final_blog
                          complete db with
                  | (db', inl e) => (w', db', inl (StoreFailed e))
                  | (db', inr _) => (w', db', inr results)
                  end
              end
          end
      end
  end.

End Main.

(** ** Values that [json.dumps] and [json.loads] carry unchanged *)

(** A code point that is a character: in range and not a surrogate. *)
Definition scalar (c : N) : bool :=
  ((c <? 55296) || ((57344 <=? c) && (c <=? 1114111)))%N.

(** A value with no float, whose texts and keys hold characters only, and
    whose dictionaries have each key once (as every Python [dict] has). *)
Fixpoint plain (v : pyval) : bool :=
  match v with
  | PNone => true
  | PBool _ => true
  | PInt _ => true
  | PFloat _ => false
  | PStr s => forallb scalar s
  | PList l => forallb plain l
  | PDict d =>
      forallb (fun kv => let '(k, x) := kv in forallb scalar k && plain x) d
      && bool_decide (NoDup (map fst d))
  end.

Fixpoint join_tokens (sep : token) (parts : list (list token)) : list token :=
  match parts with
  | [] => []
  | [p] => p
  | p :: rest => p ++ sep :: join_tokens sep rest
  end.

(** The tokens of the text [json.dumps] writes. *)
Fixpoint tokens_of (v : pyval) : list token :=
  match v with
  | PList l => TLBracket :: join_tokens TComma (map tokens_of l) ++ [TRBracket]
  | PDict d =>
      TLBrace ::
      join_tokens TComma
        (map (fun kv => let '(k, x) := kv in
                        TScalar (PStr k) :: TColon :: tokens_of x) d)
      ++ [TRBrace]
  | _ => [TScalar v]
  end.

(** What follows a value in the text [json.dumps] writes: nothing, a comma
    or a closing bracket. *)
Definition closes (rest : str) : bool :=
  match rest with
  | [] => true
  | c :: _ => ((c =? 44) || (c =? 93) || (c =? 125))%N
  end.

(** ** Vocabulary of the proofs about [json] *)

Section PyvalInduction.

Variable P : pyval → Prop.
Hypothesis HNone : P PNone.
Hypothesis HBool : ∀ b, P (PBool b).
Hypothesis HInt : ∀ z, P (PInt z).
Hypothesis HFloat : ∀ f, P (PFloat f).
Hypothesis HStr : ∀ s, P (PStr s).
Hypothesis HList : ∀ l, Forall P l → P (PList l).
Hypothesis HDict : ∀ d, Forall (fun kv => P (snd kv)) d → P (PDict d).

(** Induction on a value, with the property at hand for the items of a
    list and for the values of a dictionary. *)
Fixpoint pyval_nested_ind (v : pyval) : P v :=
  match v with
  | PNone => HNone
  | PBool b => HBool b
  | PInt z => HInt z
  | PFloat f => HFloat f
  | PStr s => HStr s
  | PList l =>
      HList l
        ((fix items (l : list pyval) : Forall P l :=
            match l with
            | [] => @List.Forall_nil _ P
            | x :: l' => @List.Forall_cons _ P x l' (pyval_nested_ind x) (items l')
            end) l)
  | PDict d =>
      HDict d
        ((fix members (d : list (str * pyval)) : Forall (fun kv => P (snd kv)) d :=
            match d with
            | [] => @List.Forall_nil _ (fun kv => P (snd kv))
            | (k, x) :: d' =>
                @List.Forall_cons _ (fun kv => P (snd kv)) (k, x) d'
                  (pyval_nested_ind x) (members d')
            end) d)
  end.

End PyvalInduction.

(** What is to be shown of a value: its text, followed by what may follow
    a value, is read as its tokens. *)
Definition lexes (float_json : str -> str) (v : pyval) : Prop :=
  plain v = true →
  ∀ rest ts,
    closes rest = true → lex 0 rest = Some ts →
    lex 0 (json_dumps float_json v ++ rest) = Some (tokens_of v ++ ts).

Definition parses (v : pyval) : Prop :=
  plain v = true →
  ∀ stack ts mode,
    mode = MValue ∨ mode = MArrFirst →
    parse_tokens (stack, mode) (tokens_of v ++ ts) =
    parse_tokens (push_value stack v) ts.

Definition is_ascii (c : N) : bool := (c <? 128)%N.

(** The tables the program builds: from no table, by [init_db] and by
    [save_to_db]. *)
Inductive built (float_json : str -> str) (float_text : str -> cell)
  : database → Prop :=
| built_nothing : built float_json float_text None
| built_init db :
    built float_json float_text db → built float_json float_text (init_db db)
| built_save now metrics final_blog status db :
    built float_json float_text db →
    built float_json float_text
      (fst (save_to_db float_json float_text now metrics final_blog status db)).


(** ** More values for the concrete runs *)

Module Demo.

(** Stand-ins for the parameters on floats; no run below meets a float. *)
Definition float_json (lexeme : str) : str :=
  if forallb is_ascii lexeme then lexeme else py "NaN".

Definition float_text (lexeme : str) : cell := Some lexeme.

(** A reading of the clock. *)
Definition now : str := py "2025-01-01 10:00:00".

Definition first_post : Submission :=
  {| title := py "First post"; selftext := py "Hello there" |}.

Definition second_post : Submission :=
  {| title := py "Second post"; selftext := [] |}.

Definition reply : Comment := {| body := py "Thanks!" |}.

Definition user : Redditor :=
  {| submissions := [second_post; first_post]; comments := [reply] |}.

(** A server whose first four answers carry a text and whose later answers
    are an object with no response field. *)
Definition text_then_object : world -> str -> exn + Response :=
  fun w prompt =>
    if (length w <? 4)%nat then Sample.says (py "some text") w prompt
    else Sample.answers 200 (PDict [(py "error", PStr (py "overloaded"))]) w prompt.

(** Metrics with a nested list, an accent and a character beyond the first
    plane. *)
Definition metrics : pyval :=
  PDict [ (py "engagement", PInt 42);
          (py "tags", PList [PStr [233%N; 128512%N]; PNone; PBool true; PInt (-7)]) ].

(** The database after [init_db] and two saves. *)
Definition two_saves : database :=
  fst (save_to_db float_json float_text now (PDict []) (PStr (py "second")) complete
         (fst (save_to_db float_json float_text now metrics (PStr (py "first"))
                 complete (init_db None)))).

End Demo.

(** * Properties *)

(** ** Dictionaries *)

Lemma dict_set_keys (d : pydict) (k : str) (v : pyval) (k' : str) :
  k' ∈ dict_keys (dict_set d k v) ↔ k' ∈ dict_keys d ∨ k' = k.
Proof.
  unfold dict_keys.
  induction d as [|[k0 v0] d IH]; simpl.
  - rewrite list_elem_of_singleton, elem_of_nil. tauto.
  - destruct (decide (k0 = k)) as [->|Hne]; simpl.
    + rewrite !elem_of_cons. tauto.
    + rewrite !elem_of_cons, IH. tauto.
Qed.

Lemma dict_update_keys (u d : pydict) (k : str) :
  k ∈ dict_keys (dict_update d u) ↔ k ∈ dict_keys d ∨ k ∈ dict_keys u.
Proof.
  unfold dict_update.
  revert d; induction u as [|[k0 v0] u IH]; intros d; simpl.
  - change (dict_keys []) with (@nil str). rewrite elem_of_nil. tauto.
  - rewrite IH, dict_set_keys.
    change (dict_keys ((k0, v0) :: u)) with (k0 :: dict_keys u).
    rewrite elem_of_cons. tauto.
Qed.

Lemma dict_lookup_set (d : pydict) (k : str) (v : pyval) (k' : str) :
  dict_lookup (dict_set d k v) k' =
  if decide (k = k') then Some v else dict_lookup d k'.
Proof.
  induction d as [|[k0 v0] d IH]; simpl.
  - destruct (decide (k = k')); reflexivity.
  - destruct (decide (k0 = k)) as [->|Hne]; simpl.
    + destruct (decide (k = k')); reflexivity.
    + destruct (decide (k0 = k')) as [->|Hne'].
      * destruct (decide (k = k')); [congruence | reflexivity].
      * exact IH.
Qed.

Lemma dict_update_untouched (u d : pydict) (k : str) :
  k ∉ dict_keys u → dict_lookup (dict_update d u) k = dict_lookup d k.
Proof.
  unfold dict_update.
  revert d; induction u as [|[k0 v0] u IH]; intros d Hk; simpl; [reflexivity|].
  unfold dict_keys in Hk; simpl in Hk.
  apply not_elem_of_cons in Hk as [Hne Hk].
  rewrite IH by exact Hk.
  rewrite dict_lookup_set.
  destruct (decide (k0 = k)); [congruence | reflexivity].
Qed.

Lemma dict_lookup_keys (d : pydict) (k : str) :
  k ∈ dict_keys d ↔ ∃ v, dict_lookup d k = Some v.
Proof.
  unfold dict_keys.
  induction d as [|[k0 v0] d IH]; simpl.
  - rewrite elem_of_nil. split; [tauto | intros [v Hv]; discriminate].
  - rewrite elem_of_cons.
    destruct (decide (k0 = k)) as [->|Hne].
    + split; [eauto | tauto].
    + rewrite IH. split; [intros [Heq|H]; [congruence | exact H] | tauto].
Qed.

(** ** The decoder *)

Lemma json_loads_nonempty (s : str) (v : pyval) : json_loads s = inr v → s ≠ [].
Proof. intros H ->. discriminate H. Qed.

(** ** The graph *)

Lemma topological_sort_chain : topological_sort chain_workflow = (stage_chain, None).
Proof. vm_compute. reflexivity. Qed.

Lemma chain_workflow_nodes : nodes chain_workflow = stage_chain.
Proof. vm_compute. reflexivity. Qed.

(** ** The monad *)

Lemma bind_returns {W A B} (m : M W A) (k : A -> M W B) (w w' : W) (a : A) :
  m w = (w', inr a) → bind m k w = k a w'.
Proof. intros H. unfold bind. rewrite H. reflexivity. Qed.

Lemma bind_raises {W A B} (m : M W A) (k : A -> M W B) (w w' : W) (e : exn) :
  m w = (w', inl e) → bind m k w = (w', inl e).
Proof. intros H. unfold bind. rewrite H. reflexivity. Qed.

(** ** [request_api] *)

Section RequestApi.

Variable endpoint : world -> str -> exn + Response.

(** [request_api] posts once and returns a value, whatever the server does. *)
Lemma request_api_returns (prompt : str) (w : world) :
  ∃ v, request_api endpoint prompt w = (w ++ [prompt], inr v).
Proof.
  unfold request_api, try_except, bind, requests_post, lift, ret.
  destruct (endpoint w prompt) as [e|response]; simpl; [eauto|].
  destruct (status_code response =? 200)%Z; simpl; [|eauto].
  destruct (json response) as [e|payload]; simpl; [eauto|].
  destruct (get_response payload); simpl; eauto.
Qed.

Lemma request_api_value (prompt : str) (w : world) (v : pyval) :
  snd (request_api endpoint prompt w) = inr v →
  request_api endpoint prompt w = (w ++ [prompt], inr v).
Proof.
  destruct (request_api_returns prompt w) as [v' Hv'].
  rewrite Hv'. simpl. intros [= ->]. reflexivity.
Qed.

Lemma bind_request_api {B} (k : pyval -> M world B) (prompt : str) (w : world)
    (v : pyval) :
  snd (request_api endpoint prompt w) = inr v →
  bind (request_api endpoint prompt) k w = k v (w ++ [prompt]).
Proof. intros H. apply bind_returns, request_api_value, H. Qed.

(** C3.  When the request fails -- [requests.post] raises, the status is not
    2xx, or reading the answer raises -- [request_api] returns the empty
    string: nothing is raised to the caller. *)
Theorem request_api_fails_soft (prompt : str) (w : world) :
  request_fails (endpoint w prompt) →
  request_api endpoint prompt w = (w ++ [prompt], inr (PStr [])).
Proof.
  unfold request_fails, request_api, try_except, bind, requests_post, lift, ret.
  destruct (endpoint w prompt) as [e|response]; simpl; [reflexivity|].
  intros Hfail.
  destruct (status_code response =? 200)%Z eqn:Hstatus; simpl; [|reflexivity].
  apply Z.eqb_eq in Hstatus.
  destruct Hfail as [Hnot2xx|Hraises]; [lia|].
  unfold reading_raises in Hraises.
  destruct (json response) as [e|payload]; simpl; [reflexivity|].
  destruct Hraises as [e ->]. reflexivity.
Qed.

(** An answer 200 whose JSON is an object: the response field, or the
    object itself when it has none. *)
Lemma request_api_200_object (prompt : str) (w : world) (response : Response)
    (d : pydict) :
  endpoint w prompt = inr response →
  status_code response = 200%Z →
  json response = inr (PDict d) →
  request_api endpoint prompt w =
  (w ++ [prompt], inr (dict_get d (py "response") (PDict d))).
Proof.
  intros Hresp Hstatus Hjson.
  unfold request_api, try_except, bind, requests_post, lift, ret.
  rewrite Hresp, Hstatus, Hjson. reflexivity.
Qed.

(** C7, amended.  For an answer with status 200 whose JSON payload is an
    object: without a response field, [request_api] returns the whole
    payload object; with one, it returns the value of that field. *)
Theorem request_api_payload (prompt : str) (w : world) (response : Response)
    (d : pydict) :
  endpoint w prompt = inr response →
  status_code response = 200%Z →
  json response = inr (PDict d) →
  (dict_lookup d (py "response") = None →
   request_api endpoint prompt w = (w ++ [prompt], inr (PDict d))) ∧
  (∀ v, dict_lookup d (py "response") = Some v →
        request_api endpoint prompt w = (w ++ [prompt], inr v)).
Proof.
  intros Hresp Hstatus Hjson.
  rewrite (request_api_200_object prompt w response d Hresp Hstatus Hjson).
  unfold dict_get.
  split; [intros -> | intros v ->]; reflexivity.
Qed.

End RequestApi.

(** ** The agents *)

Section Agents.

Variable float_repr : str -> str.
Variable float_truth : str -> bool.
Variable unicode_printable : N -> bool.
Variable dedent : str -> str.
Variable endpoint : world -> str -> exn + Response.

#[local] Abbreviation api := (request_api endpoint).
#[local] Abbreviation Expand_prompt' := (Expand_prompt float_repr unicode_printable).
#[local] Abbreviation Analyze_prompt' := (Analyze_prompt float_repr unicode_printable).
#[local] Abbreviation Metric_prompt' := (Metric_prompt float_repr unicode_printable).
#[local] Abbreviation Final_prompt' := (Final_prompt float_repr unicode_printable).
#[local] Abbreviation Format_prompt' :=
  (Format_prompt float_repr unicode_printable dedent).
#[local] Abbreviation MetricAgent_process' :=
  (MetricAgent_process float_repr float_truth unicode_printable endpoint).
#[local] Abbreviation generator :=
  (BlogGenerator_init float_repr float_truth unicode_printable dedent endpoint).

Lemma ExpandAgent_process_eq (content : pydict) (w : world) (v : pyval) :
  snd (api (Expand_prompt' content) w) = inr v →
  ExpandAgent_process float_repr unicode_printable endpoint content w =
  (w ++ [Expand_prompt' content], inr [(py "expanded", v)]).
Proof.
  intros H. unfold ExpandAgent_process.
  rewrite (bind_request_api _ _ _ _ _ H). reflexivity.
Qed.

Lemma AnalyzeAgent_process_eq (state : pydict) (w : world) (v : pyval) :
  snd (api (Analyze_prompt' state) w) = inr v →
  AnalyzeAgent_process float_repr unicode_printable endpoint state w =
  (w ++ [Analyze_prompt' state], inr [(py "analysis", v)]).
Proof.
  intros H. unfold AnalyzeAgent_process.
  rewrite (bind_request_api _ _ _ _ _ H). reflexivity.
Qed.

Lemma FinalAgent_process_eq (state : pydict) (w : world) (v : pyval) :
  snd (api (Final_prompt' state) w) = inr v →
  FinalAgent_process float_repr unicode_printable endpoint state w =
  (w ++ [Final_prompt' state], inr [(py "final_blog", v)]).
Proof.
  intros H. unfold FinalAgent_process.
  rewrite (bind_request_api _ _ _ _ _ H). reflexivity.
Qed.

Lemma FormatAgent_process_eq (state : pydict) (w : world) (v : pyval) :
  snd (api (Format_prompt' state) w) = inr v →
  FormatAgent_process float_repr unicode_printable dedent endpoint state w =
  (w ++ [Format_prompt' state], inr [(py "final_blog", v)]).
Proof.
  intros H. unfold FormatAgent_process.
  rewrite (bind_request_api _ _ _ _ _ H). reflexivity.
Qed.

(** What [MetricAgent.process] does with the value [request_api] returned. *)
(** A text before which ASCII is written prints when it has no surrogate. *)
Lemma print_raw_response {W} (text : str) (w : W) :
  print (py "Raw response: " ++ text) w =
  (w, if existsb is_surrogate text then inl UnicodeEncodeError else inr tt).
Proof.
  unfold print. rewrite existsb_app. simpl.
  destruct (existsb is_surrogate text); reflexivity.
Qed.

Lemma MetricAgent_process_eq (state : pydict) (w : world) (raw : pyval) :
  snd (api (Metric_prompt' state) w) = inr raw →
  MetricAgent_process' state w =
  (w ++ [Metric_prompt' state],
   if negb (truthy float_truth raw) then inr [(py "metrics", PDict [])]
   else
     match json_loads_value raw with
     | inr metrics => inr [(py "metrics", metrics)]
     | inl e =>
         if is_JSONDecodeError e then
           if existsb is_surrogate (py_str float_repr unicode_printable raw)
           then inl UnicodeEncodeError
           else inr [(py "metrics", PDict [])]
         else inl e
     end).
Proof.
  intros H. unfold MetricAgent_process.
  rewrite (bind_request_api _ _ _ _ _ H).
  destruct (negb (truthy float_truth raw)); [reflexivity|].
  unfold try_except, bind, lift, ret.
  destruct (json_loads_value raw) as [e|metrics]; [|reflexivity].
  destruct (is_JSONDecodeError e); [|reflexivity].
  rewrite print_raw_response.
  destruct (existsb is_surrogate (py_str float_repr unicode_printable raw));
    reflexivity.
Qed.

(** When the model output is the empty string, or a text without surrogates
    that the decoder refuses with [JSONDecodeError], [MetricAgent.process]
    returns an empty metrics mapping and does not raise. *)
Lemma MetricAgent_process_degrades_aux (state : pydict) (w : world) (raw : str) :
  snd (api (Metric_prompt' state) w) = inr (PStr raw) →
  raw = [] ∨
  (json_loads raw = inl JSONDecodeError ∧ existsb is_surrogate raw = false) →
  MetricAgent_process' state w =
  (w ++ [Metric_prompt' state], inr [(py "metrics", PDict [])]).
Proof.
  intros H Hraw. rewrite (MetricAgent_process_eq _ _ _ H).
  destruct Hraw as [->|[Hloads Hprint]]; [reflexivity|].
  destruct raw as [|c raw]; [reflexivity|].
  cbn [truthy negb json_loads_value py_str]. rewrite Hloads, Hprint. reflexivity.
Qed.

(** C10.  When the model output parses, [MetricAgent.process] stores the
    parsed value as it is, mapping or not: the texts [42] and [[1, 2]] parse
    to an integer and a list, and these become the metrics field. *)
Theorem MetricAgent_process_keeps_parsed (state : pydict) (w : world) (raw : str)
    (v : pyval) :
  snd (api (Metric_prompt' state) w) = inr (PStr raw) →
  json_loads raw = inr v →
  MetricAgent_process' state w = (w ++ [Metric_prompt' state], inr [(py "metrics", v)])
  ∧ json_loads (py "42") = inr (PInt 42)
  ∧ json_loads (py "[1, 2]") = inr (PList [PInt 1; PInt 2]).
Proof.
  intros H Hv. rewrite (MetricAgent_process_eq _ _ _ H).
  repeat split.
  destruct raw as [|c raw]; [discriminate Hv|].
  simpl. rewrite Hv. reflexivity.
Qed.

End Agents.

(** ** The runner *)

Section RunnerFacts.

Context {W : Type}.
Implicit Types (self : BlogGenerator W) (state : pydict) (w : W).

Lemma run_stage_returns self state node process w w' update :
  assoc_lookup (agents self) node = Some process →
  process state w = (w', inr update) →
  run_stage self state node w = (w', inr (dict_update state update)).
Proof.
  intros Hagent Hprocess. unfold run_stage. rewrite Hagent.
  rewrite (bind_returns _ _ _ _ _ Hprocess). reflexivity.
Qed.

Lemma run_stage_raises self state node process w w' e :
  assoc_lookup (agents self) node = Some process →
  process state w = (w', inl e) →
  run_stage self state node w = (w', inl e).
Proof.
  intros Hagent Hprocess. unfold run_stage. rewrite Hagent.
  apply bind_raises, Hprocess.
Qed.

(** A stage that returns has merged one update into the state. *)
Lemma run_stage_merges self state node w w' state' :
  run_stage self state node w = (w', inr state') →
  ∃ update, state' = dict_update state update.
Proof.
  unfold run_stage.
  destruct (assoc_lookup (agents self) node) as [process|]; [|discriminate].
  unfold bind, ret.
  destruct (process state w) as [w1 [e|update]]; [discriminate|].
  intros [= _ <-]. eauto.
Qed.

(** With the graph of [__init__], [run_analysis] runs the five stages in
    the order of [stage_chain]. *)
Lemma run_analysis_stages self content w :
  workflow self = chain_workflow →
  run_analysis self content w =
  run_stages self stage_chain [(py "raw_content", PStr content)] w.
Proof.
  intros Hflow. unfold run_analysis.
  rewrite Hflow, topological_sort_chain.
  unfold bind, ret.
  destruct (run_stages self stage_chain _ w) as [w' [e|state]]; reflexivity.
Qed.

(** C8.  A run of stages that returns has merged one partial update per
    stage into the state it started from, and did nothing else to it; each
    merge keeps every key that was there, so the keys of the state before a
    stage are keys of the state after it, and the keys of the first state
    are keys of the last. *)
Theorem state_keys_grow self order state w w' state' :
  run_stages self order state w = (w', inr state') →
  ∃ updates,
    length updates = length order ∧
    state' = fold_left dict_update updates state ∧
    (∀ n, dict_keys (fold_left dict_update (take n updates) state)
          ⊆ dict_keys (fold_left dict_update (take (S n) updates) state)) ∧
    dict_keys state ⊆ dict_keys state'.
Proof.
  revert state w.
  induction order as [|node order IH]; intros state w Hrun; simpl in Hrun.
  - injection Hrun as _ <-. exists []. repeat split; try reflexivity.
    intros n. rewrite !take_nil. reflexivity.
  - unfold bind in Hrun.
    destruct (run_stage self state node w) as [w1 [e|state1]] eqn:Hstage;
      [discriminate|].
    destruct (run_stage_merges _ _ _ _ _ _ Hstage) as [update ->].
    destruct (IH _ _ Hrun) as (updates & Hlen & -> & Hstep & Hall).
    assert (Hmerge : dict_keys state ⊆ dict_keys (dict_update state update)).
    { intros k Hk. apply dict_update_keys. left. exact Hk. }
    exists (update :: updates). repeat split.
    + simpl. rewrite Hlen. reflexivity.
    + intros [|n]; simpl.
      * exact Hmerge.
      * apply Hstep.
    + etransitivity; [exact Hmerge | exact Hall].
Qed.

Lemma assoc_lookup_recording self node :
  assoc_lookup (agents (recording self)) node =
  option_map
    (fun process state (wl : W * list str) =>
       let '(w', r) := process state (fst wl) in ((w', snd wl ++ [node]), r))
    (assoc_lookup (agents self) node).
Proof.
  unfold recording; simpl.
  induction (agents self) as [|[name process] rest IH]; simpl; [reflexivity|].
  destruct (decide (name = node)) as [->|Hne]; [reflexivity | exact IH].
Qed.

(** Recording changes neither the world nor the result of a run of stages,
    and the calls it logs are the stages in order, up to the one that raised. *)
Lemma run_stages_recording self order state w log :
  ∃ called,
    run_stages (recording self) order state (w, log) =
      ((fst (run_stages self order state w), log ++ called),
       snd (run_stages self order state w)) ∧
    called `prefix_of` order ∧
    (∀ state', snd (run_stages self order state w) = inr state' → called = order).
Proof.
  revert state w log.
  induction order as [|node order IH]; intros state w log; simpl.
  - exists []. rewrite app_nil_r.
    split; [reflexivity|]. split; [reflexivity|]. reflexivity.
  - unfold bind, run_stage. rewrite assoc_lookup_recording.
    destruct (assoc_lookup (agents self) node) as [process|]; simpl.
    + unfold bind, ret; simpl.
      destruct (process state w) as [w1 [e|update]]; simpl.
      * exists [node].
        split; [reflexivity|]. split; [exists order; reflexivity|].
        intros state' Hret. discriminate Hret.
      * destruct (IH (dict_update state update) w1 (log ++ [node]))
          as (called & Heq & Hprefix & Hall).
        exists (node :: called). rewrite Heq, <- app_assoc. simpl.
        split; [reflexivity|]. split; [apply prefix_cons, Hprefix|].
        intros state' Hret. f_equal. eapply Hall, Hret.
    + exists []. rewrite app_nil_r.
      split; [reflexivity|]. split; [apply prefix_nil|].
      intros state' Hret. discriminate Hret.
Qed.

(** When no agent's result depends on the world, no run's result does. *)
Lemma run_stages_deterministic self :
  (∀ node process, assoc_lookup (agents self) node = Some process →
     ∀ state w1 w2, snd (process state w1) = snd (process state w2)) →
  ∀ order state w1 w2,
    snd (run_stages self order state w1) = snd (run_stages self order state w2).
Proof.
  intros Hagents order.
  induction order as [|node order IH]; intros state w1 w2; simpl; [reflexivity|].
  unfold bind, run_stage.
  destruct (assoc_lookup (agents self) node) as [process|] eqn:Hagent;
    [|reflexivity].
  pose proof (Hagents node process Hagent state w1 w2) as Hsame.
  unfold bind, ret.
  destruct (process state w1) as [w1' [e1|u1]], (process state w2) as [w2' [e2|u2]];
    simpl in Hsame; try discriminate Hsame.
  - exact Hsame.
  - injection Hsame as ->. apply IH.
Qed.

End RunnerFacts.

(** Of the 120 arrangements of the five stages, only [stage_chain] has
    every edge going forward. *)
Lemma chain_permutations_checked :
  Forall
    (fun l =>
       forallb (fun e => precedes l (fst e) (snd e)) (edges chain_workflow) = true →
       l = stage_chain)
    (permutations stage_chain).
Proof. apply (bool_decide_eq_true_1 _). vm_compute. reflexivity. Qed.

(** The chain graph has one topological order. *)
Lemma chain_order_unique (l : list str) :
  is_topological_order chain_workflow l ↔ l = stage_chain.
Proof.
  split.
  - intros [Hperm Hedges].
    rewrite chain_workflow_nodes in Hperm. symmetry in Hperm.
    apply permutations_Permutation in Hperm.
    exact (proj1 (Forall_forall _ _) chain_permutations_checked l Hperm Hedges).
  - intros ->. split; [rewrite chain_workflow_nodes; reflexivity|].
    vm_compute. reflexivity.
Qed.

(** C4.  With the graph of [__init__]: [topological_sort] yields Expand,
    Analyze, Metric, Final, Format; that is the only topological order of
    the graph; and the calls recorded during a run are these stages in this
    order -- all of them when the run returns, the ones up to the raising
    stage otherwise.  Recording does not change the run. *)
Theorem stages_run_in_chain_order {W} (self : BlogGenerator W) (content : str)
    (w : W) :
  workflow self = chain_workflow →
  topological_sort (workflow self) = (stage_chain, None) ∧
  (∀ l, is_topological_order (workflow self) l ↔ l = stage_chain) ∧
  ∃ called,
    run_analysis (recording self) content (w, []) =
      ((fst (run_analysis self content w), called),
       snd (run_analysis self content w)) ∧
    called `prefix_of` stage_chain ∧
    (∀ state, snd (run_analysis self content w) = inr state → called = stage_chain).
Proof.
  intros Hflow. rewrite Hflow.
  split; [exact topological_sort_chain|].
  split; [exact chain_order_unique|].
  rewrite (run_analysis_stages (recording self) content (w, []) Hflow).
  rewrite (run_analysis_stages self content w Hflow).
  destruct (run_stages_recording self stage_chain
              [(py "raw_content", PStr content)] w [])
    as (called & Heq & Hprefix & Hall).
  exists called. rewrite Heq. auto.
Qed.

(** ** Runs of the generator of [__init__] *)

Lemma merge_expanded (content expanded : pyval) :
  dict_update [(py "raw_content", content)] [(py "expanded", expanded)] =
  [(py "raw_content", content); (py "expanded", expanded)].
Proof. reflexivity. Qed.

Lemma merge_analysis (content expanded analysis : pyval) :
  dict_update [(py "raw_content", content); (py "expanded", expanded)]
    [(py "analysis", analysis)] =
  [(py "raw_content", content); (py "expanded", expanded);
   (py "analysis", analysis)].
Proof. reflexivity. Qed.

Lemma merge_metrics (content expanded analysis metrics : pyval) :
  dict_update
    [(py "raw_content", content); (py "expanded", expanded);
     (py "analysis", analysis)]
    [(py "metrics", metrics)] =
  [(py "raw_content", content); (py "expanded", expanded);
   (py "analysis", analysis); (py "metrics", metrics)].
Proof. reflexivity. Qed.

Lemma merge_draft (content expanded analysis metrics draft : pyval) :
  dict_update
    [(py "raw_content", content); (py "expanded", expanded);
     (py "analysis", analysis); (py "metrics", metrics)]
    [(py "final_blog", draft)] =
  [(py "raw_content", content); (py "expanded", expanded);
   (py "analysis", analysis); (py "metrics", metrics); (py "final_blog", draft)].
Proof. reflexivity. Qed.

Lemma merge_final_blog (content expanded analysis metrics draft final_blog : pyval) :
  dict_update
    [(py "raw_content", content); (py "expanded", expanded);
     (py "analysis", analysis); (py "metrics", metrics); (py "final_blog", draft)]
    [(py "final_blog", final_blog)] =
  [(py "raw_content", content); (py "expanded", expanded);
   (py "analysis", analysis); (py "metrics", metrics);
   (py "final_blog", final_blog)].
Proof. reflexivity. Qed.

(** One stage of the run returns: [agent_eq] is the equation of its agent
    and [Hv] gives what [request_api] returned to it. *)
Ltac stage_returns agent_eq Hv :=
  erewrite bind_returns;
  [| eapply run_stage_returns; [reflexivity | apply agent_eq; apply Hv]].

Ltac merge_updates :=
  rewrite ?merge_expanded, ?merge_analysis, ?merge_metrics, ?merge_draft,
    ?merge_final_blog.

Section GeneratorFacts.

Variable float_repr : str -> str.
Variable float_truth : str -> bool.
Variable unicode_printable : N -> bool.
Variable dedent : str -> str.
Variable endpoint : world -> str -> exn + Response.

#[local] Abbreviation api' := (request_api endpoint).
#[local] Abbreviation generator' :=
  (BlogGenerator_init float_repr float_truth unicode_printable dedent endpoint).

(** C5.  When every model call returns the empty string, the run returns,
    and in its state every stage's field is empty: the metrics are the empty
    mapping and the final blog is the empty string. *)
Theorem run_analysis_silent_model (content : str) (w : world) :
  (∀ prompt w', snd (api' prompt w') = inr (PStr [])) →
  ∃ w' state,
    run_analysis generator' content w = (w', inr state) ∧
    state =
      [(py "raw_content", PStr content); (py "expanded", PStr []);
       (py "analysis", PStr []); (py "metrics", PDict []);
       (py "final_blog", PStr [])] ∧
    dict_lookup state (py "metrics") = Some (PDict []) ∧
    dict_lookup state (py "final_blog") = Some (PStr []).
Proof.
  intros Hsilent.
  rewrite run_analysis_stages by reflexivity.
  unfold stage_chain; cbn [run_stages].
  stage_returns ExpandAgent_process_eq Hsilent. merge_updates.
  stage_returns AnalyzeAgent_process_eq Hsilent. merge_updates.
  erewrite bind_returns;
    [| eapply run_stage_returns;
       [reflexivity
       | rewrite (MetricAgent_process_eq _ _ _ _ _ _ _ (Hsilent _ _)); reflexivity]].
  merge_updates.
  stage_returns FinalAgent_process_eq Hsilent. merge_updates.
  stage_returns FormatAgent_process_eq Hsilent. merge_updates.
  eexists _, _. split; [reflexivity|]. split; [reflexivity|].
  split; reflexivity.
Qed.

(** A run either returns a state with the five fields, in the order they
    were written, or raises: the stages before the Metric stage never
    raise. *)
Lemma run_analysis_cases (content : str) (w : world) :
  ∃ w',
    (∃ e, run_analysis generator' content w = (w', inl e)) ∨
    ∃ expanded analysis metrics final_blog,
      run_analysis generator' content w =
      (w', inr [(py "raw_content", PStr content); (py "expanded", expanded);
                (py "analysis", analysis); (py "metrics", metrics);
                (py "final_blog", final_blog)]).
Proof.
  rewrite run_analysis_stages by reflexivity.
  unfold stage_chain; cbn [run_stages].
  destruct (request_api_returns endpoint
              (Expand_prompt float_repr unicode_printable
                 [(py "raw_content", PStr content)]) w) as [v1 H1].
  apply (f_equal snd) in H1; simpl in H1.
  stage_returns ExpandAgent_process_eq H1. merge_updates.
  match goal with |- context [bind (run_stage _ ?s (py "Analyze")) _ ?w1] =>
    destruct (request_api_returns endpoint
                (Analyze_prompt float_repr unicode_printable s) w1) as [v2 H2]
  end.
  apply (f_equal snd) in H2; simpl in H2.
  stage_returns AnalyzeAgent_process_eq H2. merge_updates.
  match goal with |- context [bind (run_stage _ ?s (py "Metric")) _ ?w2] =>
    destruct (request_api_returns endpoint
                (Metric_prompt float_repr unicode_printable s) w2) as [v3 H3];
    pose proof (MetricAgent_process_eq float_repr float_truth unicode_printable
                  endpoint s w2 v3) as Hmetric
  end.
  apply (f_equal snd) in H3; simpl in H3. specialize (Hmetric H3).
  match type of Hmetric with _ = (_, ?r) =>
    assert (Hcases :
      (∃ metrics, r = inr [(py "metrics", metrics)]) ∨ (∃ e, r = inl e))
  end.
  { destruct (negb (truthy float_truth v3)); [left; eauto|].
    destruct (json_loads_value v3) as [e|metrics]; [|left; eauto].
    destruct (is_JSONDecodeError e); [|right; eauto].
    destruct (existsb is_surrogate (py_str float_repr unicode_printable v3));
      [right; eauto | left; eauto]. }
  destruct Hcases as [[metrics Hret]|[e Hraise]].
  - rewrite Hret in Hmetric.
    erewrite bind_returns;
      [| eapply run_stage_returns; [reflexivity | exact Hmetric]].
    merge_updates.
    match goal with |- context [bind (run_stage _ ?s (py "Final")) _ ?w3] =>
      destruct (request_api_returns endpoint
                  (Final_prompt float_repr unicode_printable s) w3) as [v4 H4]
    end.
    apply (f_equal snd) in H4; simpl in H4.
    stage_returns FinalAgent_process_eq H4. merge_updates.
    match goal with |- context [bind (run_stage _ ?s (py "Format")) _ ?w4] =>
      destruct (request_api_returns endpoint
                  (Format_prompt float_repr unicode_printable dedent s) w4)
        as [v5 H5]
    end.
    apply (f_equal snd) in H5; simpl in H5.
    stage_returns FormatAgent_process_eq H5. merge_updates.
    eexists. right. eexists _, _, _, _. reflexivity.
  - rewrite Hraise in Hmetric.
    erewrite bind_raises;
      [| eapply run_stage_raises; [reflexivity | exact Hmetric]].
    eexists. left. eexists. reflexivity.
Qed.

(** The prompt of the Expand stage in a run: the [repr] of the whole state,
    not the text of its [raw_content] field. *)
Lemma Expand_prompt_in_run (content : str) :
  Expand_prompt float_repr unicode_printable [(py "raw_content", PStr content)] =
  py "Expand: {'raw_content': " ++ str_repr unicode_printable content ++ py "}".
Proof. reflexivity. Qed.

(** *** No state across invocations *)

Hypothesis endpoint_deterministic :
  ∀ (w1 w2 : world) (prompt : str), endpoint w1 prompt = endpoint w2 prompt.

Lemma request_api_deterministic (prompt : str) (w1 w2 : world) :
  snd (api' prompt w1) = snd (api' prompt w2).
Proof using endpoint_deterministic.
  unfold request_api, try_except, bind, requests_post, lift, ret.
  rewrite (endpoint_deterministic w1 w2 prompt).
  destruct (endpoint w2 prompt) as [e|response]; simpl; [reflexivity|].
  destruct (status_code response =? 200)%Z; simpl; [|reflexivity].
  destruct (json response) as [e|payload]; simpl; [reflexivity|].
  destruct (get_response payload); reflexivity.
Qed.

Lemma bind_api_deterministic {B} (k : pyval -> M world B) (prompt : str)
    (w1 w2 : world) :
  (∀ v wa wb, snd (k v wa) = snd (k v wb)) →
  snd (bind (api' prompt) k w1) = snd (bind (api' prompt) k w2).
Proof using endpoint_deterministic.
  intros Hk.
  destruct (request_api_returns endpoint prompt w1) as [v1 H1].
  destruct (request_api_returns endpoint prompt w2) as [v2 H2].
  pose proof (request_api_deterministic prompt w1 w2) as Hv.
  rewrite H1, H2 in Hv. simpl in Hv. injection Hv as ->.
  rewrite (bind_returns _ _ _ _ _ H1), (bind_returns _ _ _ _ _ H2).
  apply Hk.
Qed.

Lemma agents_deterministic (node : str) (process : pydict -> M world pydict) :
  assoc_lookup (agents generator') node = Some process →
  ∀ state w1 w2, snd (process state w1) = snd (process state w2).
Proof using endpoint_deterministic.
  simpl. intros Hagent state w1 w2.
  repeat case_decide; simplify_eq;
    apply bind_api_deterministic; intros v wa wb; try reflexivity.
  destruct (negb (truthy float_truth v)); [reflexivity|].
  unfold try_except, bind, lift, ret.
  destruct (json_loads_value v) as [e|metrics]; [|reflexivity].
  destruct (is_JSONDecodeError e); [|reflexivity].
  rewrite !print_raw_response.
  destruct (existsb is_surrogate (py_str float_repr unicode_printable v));
    reflexivity.
Qed.

(** C9.  [run_analysis] starts from a state built from its input alone and
    keeps nothing between calls: with a model whose answer depends on the
    prompt only, the result of a call is the same whatever was requested
    before it. *)
Theorem run_analysis_stateless (content : str) (w1 w2 : world) :
  snd (run_analysis generator' content w1) =
  snd (run_analysis generator' content w2).
Proof using endpoint_deterministic.
  rewrite !run_analysis_stages by reflexivity.
  apply run_stages_deterministic. exact agents_deterministic.
Qed.

End GeneratorFacts.

(** ** Runs on concrete endpoints *)

(** C1.  The run does not always return: when the server answers 200 with a
    JSON object that has no response field, [request_api] hands that object
    to the caller, the Metric stage passes it to [json.loads], and the
    [TypeError] this raises is not the exception the stage catches.  For
    every input text the run then raises and returns no state. *)
Theorem run_analysis_raises_on_payload_without_response
    (float_repr : str -> str) (float_truth : str -> bool)
    (unicode_printable : N -> bool) (dedent : str -> str)
    (content : str) (w : world) :
  snd (run_analysis
         (BlogGenerator_init float_repr float_truth unicode_printable dedent
            (Sample.answers 200 (PDict [(py "error", PStr (py "model not found"))])))
         content w)
  = inl TypeError.
Proof. vm_compute. reflexivity. Qed.

(** C2.  [MetricAgent.process] does not always degrade to empty metrics:
    when the model output is the text of the one surrogate U+D800, the
    decoder refuses it, the handler prints the raw response and this raises
    [UnicodeEncodeError], which leaves [process] and the run.  For every
    state, world and input text the stage and the run then raise. *)
Theorem MetricAgent_process_raises_on_lone_surrogate
    (float_repr : str -> str) (float_truth : str -> bool)
    (unicode_printable : N -> bool) (dedent : str -> str)
    (state : pydict) (content : str) (w : world) :
  json_loads [55296%N] = inl JSONDecodeError ∧
  MetricAgent_process float_repr float_truth unicode_printable
    (Sample.says [55296%N]) state w
  = (w ++ [Metric_prompt float_repr unicode_printable state],
     inl UnicodeEncodeError) ∧
  snd (run_analysis
         (BlogGenerator_init float_repr float_truth unicode_printable dedent
            (Sample.says [55296%N]))
         content w)
  = inl UnicodeEncodeError.
Proof.
  split; [reflexivity|]. split.
  - rewrite (MetricAgent_process_eq float_repr float_truth unicode_printable
               (Sample.says [55296%N]) state w (PStr [55296%N]) eq_refl).
    reflexivity.
  - vm_compute. reflexivity.
Qed.

(** C6.  With the echoing stub and the text of two posts, the Expand stage
    sends the [repr] of the state dictionary: the expanded field does not
    contain the raw content, whose line break has become a backslash and an
    n.  The Analyze stage does send the expanded text. *)
Theorem echo_run_expanded_is_state_repr :
  ∃ w state,
    run_analysis (Sample.generator Sample.echo) Sample.two_posts [] = (w, inr state) ∧
    dict_lookup state (py "expanded") =
      Some (PStr (py "ECHO:Expand: {'raw_content': 'Post A\nPost B'}")) ∧
    contains (py "ECHO:Expand: {'raw_content': 'Post A\nPost B'}") Sample.two_posts
      = false ∧
    dict_lookup state (py "analysis") =
      Some (PStr (py "ECHO:Analyze: ECHO:Expand: {'raw_content': 'Post A\nPost B'}")).
Proof.
  eexists _, _. split; [vm_compute; reflexivity|].
  split; [reflexivity|]. split; reflexivity.
Qed.

(** C7, as stated, fails twice: an answer 201 whose object has no response
    field gives the empty string, not the object; and so does an answer 200
    whose JSON is a list, which has no response field either. *)
Lemma request_api_2xx_payload_dropped :
  (200 ≤ 201 ≤ 299)%Z ∧
  dict_lookup [(py "done", PBool true)] (py "response") = None ∧
  snd (request_api (Sample.answers 201 (PDict [(py "done", PBool true)]))
         (py "hi") [])
    ≠ inr (PDict [(py "done", PBool true)]) ∧
  snd (request_api (Sample.answers 200 (PList [PInt 1])) (py "hi") [])
    ≠ inr (PList [PInt 1]).
Proof.
  split; [lia|]. split; [reflexivity|].
  split; vm_compute; discriminate.
Qed.

(** ** The theorems at concrete inputs *)

Lemma request_api_fails_soft_witness :
  request_fails (Sample.answers 404 (PDict [(py "error", PStr (py "not found"))])
                   [] (py "hi")) ∧
  request_api (Sample.answers 404 (PDict [(py "error", PStr (py "not found"))]))
    (py "hi") []
    = ([py "hi"], inr (PStr [])) ∧
  request_fails (Sample.down [] (py "hi")) ∧
  request_api Sample.down (py "hi") [] = ([py "hi"], inr (PStr [])).
Proof.
  assert (Hfails :
    request_fails (Sample.answers 404 (PDict [(py "error", PStr (py "not found"))])
                     [] (py "hi"))).
  { left. simpl. lia. }
  assert (Hdown : request_fails (Sample.down [] (py "hi"))).
  { exact I. }
  split; [exact Hfails|].
  split; [exact (request_api_fails_soft _ (py "hi") [] Hfails)|].
  split; [exact Hdown|].
  exact (request_api_fails_soft _ (py "hi") [] Hdown).
Defined.

Lemma stages_run_in_chain_order_witness :
  workflow (Sample.generator Sample.down) = chain_workflow ∧
  snd (fst (run_analysis (recording (Sample.generator Sample.down))
              (py "Post A") ([], [])))
    = stage_chain.
Proof.
  split; [reflexivity|].
  destruct (stages_run_in_chain_order (Sample.generator Sample.down)
              (py "Post A") [] eq_refl)
    as (_ & _ & called & Heq & _ & Hall).
  etransitivity; [exact (f_equal (fun r => snd (fst r)) Heq)|].
  cbv beta; cbn [fst snd].
  eapply Hall. vm_compute. reflexivity.
Defined.

Lemma run_analysis_silent_model_witness :
  (∀ prompt w', snd (request_api Sample.down prompt w') = inr (PStr [])) ∧
  ∃ w' state,
    run_analysis (Sample.generator Sample.down) (py "Post A") [] = (w', inr state) ∧
    dict_lookup state (py "metrics") = Some (PDict []) ∧
    dict_lookup state (py "final_blog") = Some (PStr []).
Proof.
  assert (Hsilent :
    ∀ prompt w', snd (request_api Sample.down prompt w') = inr (PStr [])).
  { intros prompt w'. reflexivity. }
  split; [exact Hsilent|].
  destruct (run_analysis_silent_model Sample.float_repr Sample.float_truth
              Sample.unicode_printable Sample.dedent Sample.down (py "Post A") []
              Hsilent)
    as (w' & state & Hrun & _ & Hmetrics & Hblog).
  exists w', state. auto.
Defined.

Lemma request_api_payload_witness :
  request_api (Sample.answers 200 (PDict [(py "done", PBool true)])) (py "hi") []
    = ([py "hi"], inr (PDict [(py "done", PBool true)])) ∧
  request_api (Sample.says (py "hello")) (py "hi") []
    = ([py "hi"], inr (PStr (py "hello"))).
Proof.
  split.
  - apply (proj1 (request_api_payload
             (Sample.answers 200 (PDict [(py "done", PBool true)])) (py "hi") []
             {| status_code := 200; json := inr (PDict [(py "done", PBool true)]) |}
             [(py "done", PBool true)] eq_refl eq_refl eq_refl)).
    reflexivity.
  - apply (proj2 (request_api_payload (Sample.says (py "hello")) (py "hi") []
             {| status_code := 200;
                json := inr (PDict [(py "response", PStr (py "hello"))]) |}
             [(py "response", PStr (py "hello"))] eq_refl eq_refl eq_refl)).
    reflexivity.
Defined.

Lemma state_keys_grow_witness :
  ∃ w' state',
    run_stages (Sample.generator Sample.down) stage_chain
      [(py "raw_content", PStr (py "Post A"))] [] = (w', inr state') ∧
    dict_keys [(py "raw_content", PStr (py "Post A"))] ⊆ dict_keys state'.
Proof.
  destruct (run_stages (Sample.generator Sample.down) stage_chain
              [(py "raw_content", PStr (py "Post A"))] [])
    as [w' [e|state']] eqn:Hrun.
  - exfalso. vm_compute in Hrun. discriminate Hrun.
  - exists w', state'. split; [reflexivity|].
    destruct (state_keys_grow _ _ _ _ _ _ Hrun) as (updates & _ & _ & _ & Hkeys).
    exact Hkeys.
Defined.

Lemma run_analysis_stateless_witness :
  (∀ (w1 w2 : world) (prompt : str), Sample.echo w1 prompt = Sample.echo w2 prompt) ∧
  snd (run_analysis (Sample.generator Sample.echo) Sample.two_posts [])
    = snd (run_analysis (Sample.generator Sample.echo) Sample.two_posts
             [py "Expand: an earlier request"]).
Proof.
  assert (Hdet :
    ∀ (w1 w2 : world) (prompt : str), Sample.echo w1 prompt = Sample.echo w2 prompt).
  { intros w1 w2 prompt. reflexivity. }
  split; [exact Hdet|].
  exact (run_analysis_stateless Sample.float_repr Sample.float_truth
           Sample.unicode_printable Sample.dedent Sample.echo Hdet
           Sample.two_posts [] [py "Expand: an earlier request"]).
Defined.

Lemma MetricAgent_process_keeps_parsed_witness :
  snd (request_api (Sample.says (py "42"))
         (Metric_prompt Sample.float_repr Sample.unicode_printable []) [])
    = inr (PStr (py "42")) ∧
  json_loads (py "42") = inr (PInt 42) ∧
  MetricAgent_process Sample.float_repr Sample.float_truth
    Sample.unicode_printable (Sample.says (py "42")) [] []
    = ([py "Extract Metrics: "], inr [(py "metrics", PInt 42)]).
Proof.
  split; [reflexivity|]. split; [reflexivity|].
  apply (MetricAgent_process_keeps_parsed Sample.float_repr Sample.float_truth
           Sample.unicode_printable (Sample.says (py "42")) [] [] (py "42")
           (PInt 42) eq_refl eq_refl).
Defined.

(** ** More on [request_api] and the agents *)

Section PipelineMore.

Variable float_repr : str -> str.
Variable float_truth : str -> bool.
Variable unicode_printable : N -> bool.
Variable dedent : str -> str.
Variable endpoint : world -> str -> exn + Response.

#[local] Abbreviation api2 := (request_api endpoint).
#[local] Abbreviation Expand_prompt2 := (Expand_prompt float_repr unicode_printable).
#[local] Abbreviation Analyze_prompt2 := (Analyze_prompt float_repr unicode_printable).
#[local] Abbreviation Metric_prompt2 := (Metric_prompt float_repr unicode_printable).
#[local] Abbreviation Final_prompt2 := (Final_prompt float_repr unicode_printable).
#[local] Abbreviation Format_prompt2 :=
  (Format_prompt float_repr unicode_printable dedent).
#[local] Abbreviation ExpandAgent_process2 :=
  (ExpandAgent_process float_repr unicode_printable endpoint).
#[local] Abbreviation AnalyzeAgent_process2 :=
  (AnalyzeAgent_process float_repr unicode_printable endpoint).
#[local] Abbreviation MetricAgent_process2 :=
  (MetricAgent_process float_repr float_truth unicode_printable endpoint).
#[local] Abbreviation FinalAgent_process2 :=
  (FinalAgent_process float_repr unicode_printable endpoint).
#[local] Abbreviation FormatAgent_process2 :=
  (FormatAgent_process float_repr unicode_printable dedent endpoint).
#[local] Abbreviation generator2 :=
  (BlogGenerator_init float_repr float_truth unicode_printable dedent endpoint).

(** X1.  Whatever the server does, [request_api] posts exactly one request,
    the prompt, and returns a value: it never raises. *)
Theorem request_api_never_raises (prompt : str) (w : world) :
  ∃ v, request_api endpoint prompt w = (w ++ [prompt], inr v).
Proof. exact (request_api_returns endpoint prompt w). Qed.

(** X2.  [request_api] returns something other than the empty string only
    for an answer with status 200 whose JSON is an object; what it returns
    is then the response field of the object, or the object itself. *)
Theorem request_api_nonempty_inv (prompt : str) (w : world) (v : pyval) :
  snd (request_api endpoint prompt w) = inr v →
  v ≠ PStr [] →
  ∃ response d,
    endpoint w prompt = inr response ∧
    status_code response = 200%Z ∧
    json response = inr (PDict d) ∧
    v = dict_get d (py "response") (PDict d).
Proof.
  unfold request_api, try_except, bind, requests_post, lift, ret.
  destruct (endpoint w prompt) as [e|response]; simpl;
    [intros [= <-] Hne; congruence|].
  destruct (status_code response =? 200)%Z eqn:Hstatus; simpl;
    [|intros [= <-] Hne; congruence].
  apply Z.eqb_eq in Hstatus.
  destruct (json response) as [e|payload] eqn:Hjson; simpl;
    [intros [= <-] Hne; congruence|].
  destruct payload; simpl; try (intros [= <-] Hne; congruence).
  intros [= <-] _. eauto 6.
Qed.

(** What the Metric stage writes is a single metrics field. *)
Lemma MetricAgent_process_update (state : pydict) (w w' : world) (update : pydict) :
  MetricAgent_process2 state w = (w', inr update) →
  ∃ metrics, update = [(py "metrics", metrics)].
Proof.
  destruct (request_api_returns endpoint (Metric_prompt2 state) w) as [raw Hraw].
  apply (f_equal snd) in Hraw; simpl in Hraw.
  rewrite (MetricAgent_process_eq _ _ _ _ _ _ _ Hraw).
  destruct (negb (truthy float_truth raw)); [intros [= _ <-]; eauto|].
  destruct (json_loads_value raw) as [e|metrics]; [|intros [= _ <-]; eauto].
  destruct (is_JSONDecodeError e); [|discriminate].
  destruct (existsb is_surrogate (py_str float_repr unicode_printable raw));
    [discriminate | intros [= _ <-]; eauto].
Qed.

Lemma is_JSONDecodeError_true (e : exn) :
  is_JSONDecodeError e = true ↔ e = JSONDecodeError.
Proof. destruct e; simpl; split; congruence. Qed.

Lemma MetricAgent_process_raises_aux (state : pydict) (w : world)
    (raw : pyval) (e : exn) :
  snd (api2 (Metric_prompt2 state) w) = inr raw →
  snd (MetricAgent_process2 state w) = inl e →
  Metric_raises float_truth raw e.
Proof.
  intros Hraw. rewrite (MetricAgent_process_eq _ _ _ _ _ _ _ Hraw). simpl.
  destruct (truthy float_truth raw) eqn:Htruthy; simpl; [|discriminate].
  destruct raw as [| b | z | f | s | l | d]; simpl;
    try (intros [= <-]; left; repeat split; congruence).
  destruct (json_loads s) as [e'|metrics] eqn:Hloads; [|discriminate].
  destruct (is_JSONDecodeError e') eqn:He'.
  - apply is_JSONDecodeError_true in He' as ->.
    destruct (existsb is_surrogate s) eqn:Hs; [|discriminate].
    intros [= <-]. right. right. split; [reflexivity|]. eauto.
  - intros [= <-]. right. left. exists s.
    repeat split; try assumption.
    + intros ->. discriminate Htruthy.
    + intros ->. discriminate He'.
Qed.

Lemma MetricAgent_process_nontext (state : pydict) (w : world) (raw : pyval) :
  snd (api2 (Metric_prompt2 state) w) = inr raw →
  truthy float_truth raw = true →
  (∀ s, raw ≠ PStr s) →
  snd (MetricAgent_process2 state w) = inl TypeError.
Proof.
  intros Hraw Htruthy Hnontext.
  rewrite (MetricAgent_process_eq _ _ _ _ _ _ _ Hraw), Htruthy. simpl.
  destruct raw as [| b | z | f | s | l | d]; try reflexivity.
  destruct (Hnontext s eq_refl).
Qed.

(** X3.  When [MetricAgent.process] raises, it is for one of three reasons:
    [request_api] returned a truthy value that is not text and the
    exception is [TypeError]; or the decoder raised, on the text returned,
    an exception other than [JSONDecodeError], which is the exception
    raised; or the text has a surrogate, the decoder refused it and the
    exception is the [UnicodeEncodeError] of printing it.  And a truthy
    value that is not text always makes it raise [TypeError]. *)
Theorem MetricAgent_process_raises_inv (state : pydict) (w : world) (raw : pyval)
    (e : exn) :
  snd (api2 (Metric_prompt2 state) w) = inr raw →
  (snd (MetricAgent_process2 state w) = inl e → Metric_raises float_truth raw e) ∧
  (truthy float_truth raw = true → (∀ s, raw ≠ PStr s) →
   snd (MetricAgent_process2 state w) = inl TypeError).
Proof.
  intros Hraw. split.
  - exact (MetricAgent_process_raises_aux state w raw e Hraw).
  - exact (MetricAgent_process_nontext state w raw Hraw).
Qed.

(** X26.  When the model output is the empty string, or a text without
    surrogates that the decoder refuses with [JSONDecodeError],
    [MetricAgent.process] returns an empty metrics mapping after its one
    request and does not raise. *)
Theorem MetricAgent_process_degrades_printable (state : pydict) (w : world)
    (raw : str) :
  snd (api2 (Metric_prompt2 state) w) = inr (PStr raw) →
  raw = [] ∨
  (json_loads raw = inl JSONDecodeError ∧ existsb is_surrogate raw = false) →
  MetricAgent_process2 state w =
  (w ++ [Metric_prompt2 state], inr [(py "metrics", PDict [])]).
Proof.
  exact (MetricAgent_process_degrades_aux float_repr float_truth unicode_printable
           endpoint state w raw).
Qed.

(** X4.  A falsy value of any type -- [None], [False], zero, the empty
    string, list or dictionary -- makes [MetricAgent.process] return empty
    metrics, [json.loads] not being called. *)
Theorem MetricAgent_process_falsy (state : pydict) (w : world) (raw : pyval) :
  snd (api2 (Metric_prompt2 state) w) = inr raw →
  truthy float_truth raw = false →
  MetricAgent_process2 state w =
  (w ++ [Metric_prompt2 state], inr [(py "metrics", PDict [])]).
Proof.
  intros Hraw Hfalsy.
  rewrite (MetricAgent_process_eq _ _ _ _ _ _ _ Hraw), Hfalsy. reflexivity.
Qed.

(** X5.  The Expand, Analyze, Final and Format agents never raise: for every
    state and every server each posts one prompt and returns an update of
    one field, the one it is meant to write. *)
Theorem text_agents_never_raise (state : pydict) (w : world) :
  (∃ v, ExpandAgent_process2 state w =
        (w ++ [Expand_prompt2 state], inr [(py "expanded", v)])) ∧
  (∃ v, AnalyzeAgent_process2 state w =
        (w ++ [Analyze_prompt2 state], inr [(py "analysis", v)])) ∧
  (∃ v, FinalAgent_process2 state w =
        (w ++ [Final_prompt2 state], inr [(py "final_blog", v)])) ∧
  (∃ v, FormatAgent_process2 state w =
        (w ++ [Format_prompt2 state], inr [(py "final_blog", v)])).
Proof.
  repeat split.
  - destruct (request_api_returns endpoint (Expand_prompt2 state) w) as [v Hv].
    exists v. apply ExpandAgent_process_eq. rewrite Hv. reflexivity.
  - destruct (request_api_returns endpoint (Analyze_prompt2 state) w) as [v Hv].
    exists v. apply AnalyzeAgent_process_eq. rewrite Hv. reflexivity.
  - destruct (request_api_returns endpoint (Final_prompt2 state) w) as [v Hv].
    exists v. apply FinalAgent_process_eq. rewrite Hv. reflexivity.
  - destruct (request_api_returns endpoint (Format_prompt2 state) w) as [v Hv].
    exists v. apply FormatAgent_process_eq. rewrite Hv. reflexivity.
Qed.

Lemma MetricAgent_process_world (state : pydict) (w : world) :
  fst (MetricAgent_process2 state w) = w ++ [Metric_prompt2 state].
Proof.
  destruct (request_api_returns endpoint (Metric_prompt2 state) w) as [raw Hraw].
  apply (f_equal snd) in Hraw; simpl in Hraw.
  rewrite (MetricAgent_process_eq _ _ _ _ _ _ _ Hraw). reflexivity.
Qed.

Lemma MetricAgent_process_result (state : pydict) (w : world)
    (r : exn + pydict) :
  snd (MetricAgent_process2 state w) = r →
  MetricAgent_process2 state w = (w ++ [Metric_prompt2 state], r).
Proof.
  intros <-. rewrite <- MetricAgent_process_world. apply surjective_pairing.
Qed.

(** ** The course of a run *)

(** The run in full, given what each stage obtained. *)
Lemma run_analysis_course (content : str) (w : world)
    (expanded analysis metrics draft final_blog : pyval) :
  let s0 := state_after0 content in
  let s1 := state_after1 content expanded in
  let s2 := state_after2 content expanded analysis in
  let s3 := state_after3 content expanded analysis metrics in
  let s4 := state_after4 content expanded analysis metrics draft in
  let w1 := w ++ [Expand_prompt2 s0] in
  let w2 := w1 ++ [Analyze_prompt2 s1] in
  let w3 := w2 ++ [Metric_prompt2 s2] in
  let w4 := w3 ++ [Final_prompt2 s3] in
  snd (api2 (Expand_prompt2 s0) w) = inr expanded →
  snd (api2 (Analyze_prompt2 s1) w1) = inr analysis →
  snd (MetricAgent_process2 s2 w2) = inr [(py "metrics", metrics)] →
  snd (api2 (Final_prompt2 s3) w3) = inr draft →
  snd (api2 (Format_prompt2 s4) w4) = inr final_blog →
  run_analysis generator2 content w =
  (w4 ++ [Format_prompt2 s4],
   inr (state_after4 content expanded analysis metrics final_blog)).
Proof.
  intros s0 s1 s2 s3 s4 w1 w2 w3 w4 H1 H2 H3 H4 H5.
  rewrite run_analysis_stages by reflexivity.
  unfold stage_chain; cbn [run_stages].
  stage_returns ExpandAgent_process_eq H1.
  change (dict_update [(py "raw_content", PStr content)] [(py "expanded", expanded)])
    with s1.
  stage_returns AnalyzeAgent_process_eq H2.
  change (dict_update s1 [(py "analysis", analysis)]) with s2.
  erewrite bind_returns;
    [| eapply run_stage_returns;
       [reflexivity
       | apply MetricAgent_process_result; exact H3]].
  change (dict_update s2 [(py "metrics", metrics)]) with s3.
  stage_returns FinalAgent_process_eq H4.
  change (dict_update s3 [(py "final_blog", draft)]) with s4.
  stage_returns FormatAgent_process_eq H5.
  reflexivity.
Qed.

(** The run when the Metric stage raises. *)
Lemma run_analysis_course_raises (content : str) (w : world)
    (expanded analysis : pyval) (e : exn) :
  let s0 := state_after0 content in
  let s1 := state_after1 content expanded in
  let s2 := state_after2 content expanded analysis in
  let w1 := w ++ [Expand_prompt2 s0] in
  let w2 := w1 ++ [Analyze_prompt2 s1] in
  snd (api2 (Expand_prompt2 s0) w) = inr expanded →
  snd (api2 (Analyze_prompt2 s1) w1) = inr analysis →
  snd (MetricAgent_process2 s2 w2) = inl e →
  run_analysis generator2 content w = (w2 ++ [Metric_prompt2 s2], inl e).
Proof.
  intros s0 s1 s2 w1 w2 H1 H2 H3.
  rewrite run_analysis_stages by reflexivity.
  unfold stage_chain; cbn [run_stages].
  stage_returns ExpandAgent_process_eq H1.
  change (dict_update [(py "raw_content", PStr content)] [(py "expanded", expanded)])
    with s1.
  stage_returns AnalyzeAgent_process_eq H2.
  change (dict_update s1 [(py "analysis", analysis)]) with s2.
  erewrite bind_raises;
    [| eapply run_stage_raises;
       [reflexivity
       | apply MetricAgent_process_result; exact H3]].
  reflexivity.
Qed.

Lemma run_analysis_returns_inv_aux (content : str) (w w' : world)
    (state : pydict) :
  run_analysis generator2 content w = (w', inr state) →
  ∃ expanded analysis metrics draft final_blog,
    let s0 := state_after0 content in
    let s1 := state_after1 content expanded in
    let s2 := state_after2 content expanded analysis in
    let s3 := state_after3 content expanded analysis metrics in
    let s4 := state_after4 content expanded analysis metrics draft in
    let w1 := w ++ [Expand_prompt2 s0] in
    let w2 := w1 ++ [Analyze_prompt2 s1] in
    let w3 := w2 ++ [Metric_prompt2 s2] in
    let w4 := w3 ++ [Final_prompt2 s3] in
    state = state_after4 content expanded analysis metrics final_blog ∧
    dict_keys state =
      [py "raw_content"; py "expanded"; py "analysis"; py "metrics";
       py "final_blog"] ∧
    w' = w4 ++ [Format_prompt2 s4] ∧
    snd (api2 (Expand_prompt2 s0) w) = inr expanded ∧
    snd (api2 (Analyze_prompt2 s1) w1) = inr analysis ∧
    snd (MetricAgent_process2 s2 w2) = inr [(py "metrics", metrics)] ∧
    snd (api2 (Final_prompt2 s3) w3) = inr draft ∧
    snd (api2 (Format_prompt2 s4) w4) = inr final_blog.
Proof.
  intros Hrun.
  destruct (request_api_returns endpoint (Expand_prompt2 (state_after0 content)) w)
    as [expanded H1].
  apply (f_equal snd) in H1; simpl in H1.
  destruct (request_api_returns endpoint
              (Analyze_prompt2 (state_after1 content expanded))
              (w ++ [Expand_prompt2 (state_after0 content)]))
    as [analysis H2].
  apply (f_equal snd) in H2; simpl in H2.
  destruct (MetricAgent_process2 (state_after2 content expanded analysis)
              ((w ++ [Expand_prompt2 (state_after0 content)])
               ++ [Analyze_prompt2 (state_after1 content expanded)]))
    as [w3 [e|update]] eqn:H3.
  - apply (f_equal snd) in H3; simpl in H3.
    rewrite (run_analysis_course_raises content w expanded analysis e H1 H2 H3)
      in Hrun.
    discriminate Hrun.
  - destruct (MetricAgent_process_update _ _ _ _ H3) as [metrics ->].
    apply (f_equal snd) in H3; simpl in H3.
    match type of H3 with snd (_ _ ?w2) = _ =>
      destruct (request_api_returns endpoint
                  (Final_prompt2 (state_after3 content expanded analysis metrics))
                  (w2 ++ [Metric_prompt2 (state_after2 content expanded analysis)]))
        as [draft H4];
      apply (f_equal snd) in H4; simpl in H4;
      destruct (request_api_returns endpoint
                  (Format_prompt2
                     (state_after4 content expanded analysis metrics draft))
                  ((w2 ++ [Metric_prompt2 (state_after2 content expanded analysis)])
                   ++ [Final_prompt2
                         (state_after3 content expanded analysis metrics)]))
        as [final_blog H5];
      apply (f_equal snd) in H5; simpl in H5
    end.
    rewrite (run_analysis_course content w expanded analysis metrics draft
               final_blog H1 H2 H3 H4 H5) in Hrun.
    injection Hrun as <- <-.
    exists expanded, analysis, metrics, draft, final_blog.
    cbv zeta. repeat split; assumption.
Qed.

(** X6.  A run that returns has posted exactly five prompts, one per stage
    in the order Expand, Analyze, Metric, Final, Format, each built from the
    state the stages before it left; its state holds exactly the fields
    raw_content, expanded, analysis, metrics and final_blog, in this order;
    and final_blog is the answer to the Format prompt, which was built on
    the draft of the Final stage -- the draft itself is not kept. *)
Theorem run_analysis_returns_inv (content : str) (w w' : world) (state : pydict) :
  run_analysis generator2 content w = (w', inr state) →
  ∃ expanded analysis metrics draft final_blog,
    let s0 := state_after0 content in
    let s1 := state_after1 content expanded in
    let s2 := state_after2 content expanded analysis in
    let s3 := state_after3 content expanded analysis metrics in
    let s4 := state_after4 content expanded analysis metrics draft in
    let w1 := w ++ [Expand_prompt2 s0] in
    let w2 := w1 ++ [Analyze_prompt2 s1] in
    let w3 := w2 ++ [Metric_prompt2 s2] in
    let w4 := w3 ++ [Final_prompt2 s3] in
    state = state_after4 content expanded analysis metrics final_blog ∧
    dict_keys state =
      [py "raw_content"; py "expanded"; py "analysis"; py "metrics";
       py "final_blog"] ∧
    w' = w4 ++ [Format_prompt2 s4] ∧
    snd (api2 (Expand_prompt2 s0) w) = inr expanded ∧
    snd (api2 (Analyze_prompt2 s1) w1) = inr analysis ∧
    snd (MetricAgent_process2 s2 w2) = inr [(py "metrics", metrics)] ∧
    snd (api2 (Final_prompt2 s3) w3) = inr draft ∧
    snd (api2 (Format_prompt2 s4) w4) = inr final_blog.
Proof. exact (run_analysis_returns_inv_aux content w w' state). Qed.

Lemma run_analysis_raises_inv_aux (content : str) (w w' : world) (e : exn) :
  run_analysis generator2 content w = (w', inl e) →
  ∃ expanded analysis raw,
    let s0 := state_after0 content in
    let s1 := state_after1 content expanded in
    let s2 := state_after2 content expanded analysis in
    let w1 := w ++ [Expand_prompt2 s0] in
    let w2 := w1 ++ [Analyze_prompt2 s1] in
    w' = w2 ++ [Metric_prompt2 s2] ∧
    snd (api2 (Expand_prompt2 s0) w) = inr expanded ∧
    snd (api2 (Analyze_prompt2 s1) w1) = inr analysis ∧
    snd (api2 (Metric_prompt2 s2) w2) = inr raw ∧
    snd (MetricAgent_process2 s2 w2) = inl e ∧
    Metric_raises float_truth raw e.
Proof.
  intros Hrun.
  destruct (request_api_returns endpoint (Expand_prompt2 (state_after0 content)) w)
    as [expanded H1].
  apply (f_equal snd) in H1; simpl in H1.
  destruct (request_api_returns endpoint
              (Analyze_prompt2 (state_after1 content expanded))
              (w ++ [Expand_prompt2 (state_after0 content)]))
    as [analysis H2].
  apply (f_equal snd) in H2; simpl in H2.
  destruct (request_api_returns endpoint
              (Metric_prompt2 (state_after2 content expanded analysis))
              ((w ++ [Expand_prompt2 (state_after0 content)])
               ++ [Analyze_prompt2 (state_after1 content expanded)]))
    as [raw H3].
  apply (f_equal snd) in H3; simpl in H3.
  exists expanded, analysis, raw. cbv zeta.
  destruct (snd (MetricAgent_process2 (state_after2 content expanded analysis)
              ((w ++ [Expand_prompt2 (state_after0 content)])
               ++ [Analyze_prompt2 (state_after1 content expanded)])))
    as [e0|update] eqn:Hmetric.
  - rewrite (run_analysis_course_raises content w expanded analysis e0 H1 H2 Hmetric)
      in Hrun.
    injection Hrun as <- <-.
    repeat split; try assumption; try reflexivity.
    exact (MetricAgent_process_raises_aux _ _ _ _ H3 Hmetric).
  - exfalso.
    destruct (MetricAgent_process2 (state_after2 content expanded analysis)
                ((w ++ [Expand_prompt2 (state_after0 content)])
                 ++ [Analyze_prompt2 (state_after1 content expanded)]))
      as [w3 r] eqn:Hfull.
    simpl in Hmetric. subst r.
    destruct (MetricAgent_process_update _ _ _ _ Hfull) as [metrics ->].
    apply (f_equal snd) in Hfull; simpl in Hfull.
    match type of Hfull with snd (_ _ ?w2) = _ =>
      destruct (request_api_returns endpoint
                  (Final_prompt2 (state_after3 content expanded analysis metrics))
                  (w2 ++ [Metric_prompt2 (state_after2 content expanded analysis)]))
        as [draft H4];
      apply (f_equal snd) in H4; simpl in H4;
      destruct (request_api_returns endpoint
                  (Format_prompt2
                     (state_after4 content expanded analysis metrics draft))
                  ((w2 ++ [Metric_prompt2 (state_after2 content expanded analysis)])
                   ++ [Final_prompt2
                         (state_after3 content expanded analysis metrics)]))
        as [final_blog H5];
      apply (f_equal snd) in H5; simpl in H5
    end.
    rewrite (run_analysis_course content w expanded analysis metrics draft
               final_blog H1 H2 Hfull H4 H5) in Hrun.
    discriminate Hrun.
Qed.

(** X7.  A run raises only in the Metric stage: it has then posted the
    prompts of the Expand, Analyze and Metric stages and nothing after them,
    and the exception is the one [MetricAgent.process] raised on the value
    its model call returned -- [TypeError] on a truthy value that is not
    text, the decoder's own exception when it is not [JSONDecodeError], or
    the [UnicodeEncodeError] of printing a refused text with a surrogate. *)
Theorem run_analysis_raises_inv (content : str) (w w' : world) (e : exn) :
  run_analysis generator2 content w = (w', inl e) →
  ∃ expanded analysis raw,
    let s0 := state_after0 content in
    let s1 := state_after1 content expanded in
    let s2 := state_after2 content expanded analysis in
    let w1 := w ++ [Expand_prompt2 s0] in
    let w2 := w1 ++ [Analyze_prompt2 s1] in
    w' = w2 ++ [Metric_prompt2 s2] ∧
    snd (api2 (Expand_prompt2 s0) w) = inr expanded ∧
    snd (api2 (Analyze_prompt2 s1) w1) = inr analysis ∧
    snd (api2 (Metric_prompt2 s2) w2) = inr raw ∧
    snd (MetricAgent_process2 s2 w2) = inl e ∧
    Metric_raises float_truth raw e.
Proof. exact (run_analysis_raises_inv_aux content w w' e). Qed.

(** X8.  When the model call returns, for every prompt, a text that is
    empty, or that the decoder reads, or that the decoder refuses with
    [JSONDecodeError] and that has no surrogate, the run returns: it raises
    nothing. *)
Theorem run_analysis_returns_on_text (content : str) (w : world) :
  (∀ prompt w0, ∃ s,
     snd (api2 prompt w0) = inr (PStr s) ∧
     (s = [] ∨ (∃ v, json_loads s = inr v) ∨
      (json_loads s = inl JSONDecodeError ∧ existsb is_surrogate s = false))) →
  ∃ w' state, run_analysis generator2 content w = (w', inr state).
Proof.
  intros Htext.
  destruct (run_analysis generator2 content w) as [w' [e|state]] eqn:Hrun;
    [|eauto].
  exfalso.
  destruct (run_analysis_raises_inv_aux content w w' e Hrun)
    as (expanded & analysis & raw & _ & _ & _ & Hraw & _ & Hwhy).
  destruct (Htext (Metric_prompt2 (state_after2 content expanded analysis))
              ((w ++ [Expand_prompt2 (state_after0 content)])
               ++ [Analyze_prompt2 (state_after1 content expanded)]))
    as (s & Hs & Hcases).
  rewrite Hs in Hraw. injection Hraw as <-.
  destruct Hwhy as [(_ & _ & Hnontext)|[(s' & [= <-] & Hne & Hloads & He)
                                        |(_ & s' & [= <-] & Hloads & Hsurrogate)]].
  - exact (Hnontext s eq_refl).
  - destruct Hcases as [->|[[v Hv]|[Hrefused _]]]; congruence.
  - destruct Hcases as [->|[[v Hv]|[_ Hprints]]]; [discriminate | congruence..].
Qed.

End PipelineMore.

(** ** [RedditManager.fetch_content] *)

Lemma startswith_app (p s : str) : startswith (p ++ s) p = true.
Proof.
  induction p as [|c p IH]; simpl; [destruct s; reflexivity|].
  rewrite N.eqb_refl, IH. reflexivity.
Qed.

Lemma contains_unfold (s needle : str) :
  contains s needle =
  startswith s needle || match s with [] => false | _ :: s' => contains s' needle end.
Proof. destruct s; reflexivity. Qed.

Lemma contains_infix (a x b : str) : contains (a ++ x ++ b) x = true.
Proof.
  induction a as [|c a IH].
  - rewrite contains_unfold. cbn [app]. rewrite startswith_app. reflexivity.
  - rewrite contains_unfold. cbn [app]. rewrite IH. apply orb_true_r.
Qed.

(** A part of a joined text lies in it, between what precedes and what
    follows. *)
Lemma join_infix (sep : str) (parts : list str) (x : str) :
  x ∈ parts → ∃ a b, join sep parts = a ++ x ++ b.
Proof.
  induction parts as [|p parts IH]; intros Hx; [by apply elem_of_nil in Hx|].
  apply elem_of_cons in Hx as [->|Hx].
  - destruct parts as [|q parts]; simpl.
    + exists [], []. rewrite app_nil_r. reflexivity.
    + exists [], (sep ++ join sep (q :: parts)). reflexivity.
  - destruct (IH Hx) as (a & b & Heq).
    destruct parts as [|q parts]; [by apply elem_of_nil in Hx|].
    exists (p ++ sep ++ a), b.
    change (join sep (p :: q :: parts)) with (p ++ sep ++ join sep (q :: parts)).
    rewrite Heq, <- !app_assoc. reflexivity.
Qed.

Lemma join_app (sep : str) (l1 l2 : list str) :
  join sep (l1 ++ l2) =
  match l1, l2 with
  | [], _ => join sep l2
  | _, [] => join sep l1
  | _, _ => join sep l1 ++ sep ++ join sep l2
  end.
Proof.
  induction l1 as [|p l1 IH]; [reflexivity|].
  destruct l2 as [|q l2]; [rewrite app_nil_r; reflexivity|].
  destruct l1 as [|p' l1]; [reflexivity|].
  change (join sep ((p :: p' :: l1) ++ q :: l2))
    with (p ++ sep ++ join sep ((p' :: l1) ++ q :: l2)).
  rewrite IH.
  change (join sep (p :: p' :: l1)) with (p ++ sep ++ join sep (p' :: l1)).
  rewrite <- !app_assoc. reflexivity.
Qed.

(** X9.  Every submission among the [limit] newest has its title, a line
    break and its text in the content, in one piece, and every comment among
    the [limit] newest has its body there. *)
Theorem fetch_content_contains (user : Redditor) (limit : nat) (content : str) :
  fetch_content (inr user) limit = inr content →
  (∀ post, post ∈ new (submissions user) limit →
     contains content (title post ++ [10%N] ++ selftext post) = true ∧
     contains content (title post) = true ∧
     contains content (selftext post) = true) ∧
  (∀ comment, comment ∈ new (comments user) limit →
     contains content (body comment) = true).
Proof.
  intros Hcontent.
  set (parts :=
         map (fun post => title post ++ [10%N] ++ selftext post)
           (new (submissions user) limit)
         ++ map (fun comment => body comment) (new (comments user) limit)).
  assert (content = join [10%N; 10%N] parts) as ->.
  { unfold fetch_content in Hcontent. injection Hcontent as <-. reflexivity. }
  clear Hcontent.
  split.
  - intros post Hpost.
    destruct (join_infix [10%N; 10%N] parts
                (title post ++ [10%N] ++ selftext post))
      as (a & b & Heq).
    { apply elem_of_app. left.
      apply (list_elem_of_fmap_2 (fun post => title post ++ [10%N] ++ selftext post)).
      exact Hpost. }
    rewrite Heq. repeat split.
    + apply contains_infix.
    + rewrite <- (app_assoc (title post)). apply contains_infix.
    + replace (a ++ (title post ++ [10%N] ++ selftext post) ++ b)
        with ((a ++ title post ++ [10%N]) ++ selftext post ++ b)
        by (rewrite <- !app_assoc; reflexivity).
      apply contains_infix.
  - intros comment Hcomment.
    destruct (join_infix [10%N; 10%N] parts (body comment)) as (a & b & Heq).
    { apply elem_of_app. right.
      apply (list_elem_of_fmap_2 (fun comment => body comment)). exact Hcomment. }
    rewrite Heq. apply contains_infix.
Qed.

(** X10.  The content is the block of the submissions, then the block of
    the comments, with one blank line between the two blocks when neither is
    empty and nothing added when one is; with no submission and no comment,
    or with a limit of zero, it is the empty string. *)
Theorem fetch_content_blocks (user : Redditor) (limit : nat) :
  let posts :=
    join [10%N; 10%N]
      (map (fun post => title post ++ [10%N] ++ selftext post)
         (new (submissions user) limit)) in
  let replies :=
    join [10%N; 10%N] (map (fun comment => body comment) (new (comments user) limit)) in
  fetch_content (inr user) limit =
  inr (match new (submissions user) limit, new (comments user) limit with
       | [], _ => replies
       | _, [] => posts
       | _, _ => posts ++ [10%N; 10%N] ++ replies
       end)
  ∧ (submissions user = [] → comments user = [] →
     fetch_content (inr user) limit = inr [])
  ∧ fetch_content (inr user) 0 = inr [].
Proof.
  cbv zeta. split; [|split].
  - unfold fetch_content; cbv zeta. rewrite join_app.
    destruct (new (submissions user) limit), (new (comments user) limit);
      reflexivity.
  - intros Hs Hc. simpl. rewrite Hs, Hc. unfold new. rewrite !take_nil. reflexivity.
  - reflexivity.
Qed.

(** ** The database *)

Lemma fold_left_max_le (l : list Z) (a : Z) : (a ≤ fold_left Z.max l a)%Z.
Proof.
  revert a; induction l as [|x l IH]; intros a; simpl; [lia|].
  specialize (IH (Z.max a x)). lia.
Qed.

Lemma fold_left_max_ge (l : list Z) (a x : Z) :
  x ∈ l → (x ≤ fold_left Z.max l a)%Z.
Proof.
  revert a; induction l as [|y l IH]; intros a Hx; [by apply elem_of_nil in Hx|].
  simpl. apply elem_of_cons in Hx as [->|Hx].
  - pose proof (fold_left_max_le l (Z.max a y)). lia.
  - apply IH, Hx.
Qed.

(** The next id is above every id of the table. *)
Lemma next_id_above (t : Table) (r : Row) : r ∈ rows t → (row_id r < next_id t)%Z.
Proof.
  intros Hr. unfold next_id.
  assert (row_id r ≤ fold_left Z.max (map row_id (rows t)) (sqlite_seq t))%Z.
  { apply fold_left_max_ge. apply (list_elem_of_fmap_2 row_id), Hr. }
  lia.
Qed.

Lemma insert_desc_below (r top : Row) (l : list Row) :
  (row_id r < row_id top)%Z → insert_desc r (top :: l) = top :: insert_desc r l.
Proof.
  intros Hlt. simpl.
  destruct (row_id top <? row_id r)%Z eqn:Hcmp; [|reflexivity].
  apply Z.ltb_lt in Hcmp. lia.
Qed.

(** A row above all the others comes first in the order of the history. *)
Lemma order_by_id_desc_newest (l : list Row) (top : Row) :
  (∀ r, r ∈ l → (row_id r < row_id top)%Z) →
  order_by_id_desc (l ++ [top]) = top :: order_by_id_desc l.
Proof.
  intros Hbelow. unfold order_by_id_desc. rewrite foldr_app. simpl.
  induction l as [|x l IH]; simpl; [reflexivity|].
  rewrite IH.
  - apply insert_desc_below, Hbelow. left.
  - intros r Hr. apply Hbelow. right. exact Hr.
Qed.

Section StoreFacts.

Variable float_json : str -> str.
Variable float_text : str -> cell.

#[local] Abbreviation bind_text' := (bind_text float_text).
#[local] Abbreviation save_to_db' := (save_to_db float_json float_text).

(** What a successful [save_to_db] has done. *)
Lemma save_to_db_returns_inv (now : str) (metrics final_blog status : pyval)
    (db db' : database) :
  save_to_db' now metrics final_blog status db = (db', inr tt) →
  ∃ t c_timestamp c_metrics c_final_blog c_status,
    db = Some t ∧
    bind_text' (PStr now) = inr c_timestamp ∧
    bind_text' (PStr (json_dumps float_json metrics)) = inr c_metrics ∧
    bind_text' final_blog = inr c_final_blog ∧
    bind_text' status = inr c_status ∧
    db' = Some {| sqlite_seq := next_id t;
                  rows :=
                    rows t ++
                    [{| row_id := next_id t;
                        row_timestamp := c_timestamp;
                        row_metrics := c_metrics;
                        row_final_blog := c_final_blog;
                        row_status := c_status |}] |}.
Proof.
  unfold save_to_db.
  destruct db as [t|]; [|discriminate].
  destruct (bind_text' (PStr now)) as [e|c1]; [discriminate|].
  destruct (bind_text' (PStr (json_dumps float_json metrics))) as [e|c2];
    [discriminate|].
  destruct (bind_text' final_blog) as [e|c3]; [discriminate|].
  destruct (bind_text' status) as [e|c4]; [discriminate|].
  intros [= <-]. exists t, c1, c2, c3, c4. repeat split; reflexivity.
Qed.

Lemma bind_text_str (s : str) (c : cell) :
  bind_text' (PStr s) = inr c → c = Some s ∧ existsb is_surrogate s = false.
Proof.
  simpl. destruct (existsb is_surrogate s); [discriminate|].
  intros [= <-]. split; reflexivity.
Qed.

(** X11.  After a [save_to_db] that returns, the history starts with the
    new record and goes on with the history as it was: the new record has an
    id above all the others, the time of the clock, the metrics as
    [json.dumps] writes them, and what SQLite keeps of the blog and of the
    status. *)
Theorem save_to_db_then_history (now : str) (metrics final_blog status : pyval)
    (db db' : database) :
  save_to_db' now metrics final_blog status db = (db', inr tt) →
  ∃ before record,
    fetch_history db = inr before ∧
    fetch_history db' = inr (record :: before) ∧
    (∀ r, r ∈ before → (row_id r < row_id record)%Z) ∧
    row_timestamp record = Some now ∧
    row_metrics record = Some (json_dumps float_json metrics) ∧
    bind_text' final_blog = inr (row_final_blog record) ∧
    bind_text' status = inr (row_status record).
Proof.
  intros Hsave.
  destruct (save_to_db_returns_inv _ _ _ _ _ _ Hsave)
    as (t & c1 & c2 & c3 & c4 & -> & H1 & H2 & H3 & H4 & ->).
  apply bind_text_str in H1 as [-> _]. apply bind_text_str in H2 as [-> _].
  eexists _, _. split; [reflexivity|]. simpl.
  assert (Hbelow : ∀ r, r ∈ rows t → (row_id r < next_id t)%Z)
    by (intros r; apply next_id_above).
  split; [rewrite order_by_id_desc_newest by exact Hbelow; reflexivity|].
  split.
  - intros r Hr. simpl. apply Hbelow.
    unfold order_by_id_desc in Hr. clear -Hr.
    induction (rows t) as [|x l IH]; simpl in Hr; [exact Hr|].
    assert (Hins : ∀ (y : Row) s, r ∈ insert_desc y s → r = y ∨ r ∈ s).
    { intros y s. induction s as [|z s IHs]; simpl.
      - intros H. apply list_elem_of_singleton in H. left. exact H.
      - destruct (row_id z <? row_id y)%Z.
        + intros H. apply elem_of_cons in H. exact H.
        + intros H. apply elem_of_cons in H as [->|H]; [right; left|].
          destruct (IHs H) as [->|Hs]; [left; reflexivity | right; right; exact Hs]. }
    destruct (Hins _ _ Hr) as [->|Hin]; [left | right; apply IH, Hin].
  - repeat split; assumption.
Qed.

(** What binding a value raises is never the [OperationalError] of a
    missing table. *)
Lemma bind_text_error (v : pyval) (e : db_error) :
  bind_text' v = inl e → e ≠ OperationalError.
Proof.
  destruct v as [|b|z|f|s|l|d]; simpl; try discriminate.
  - destruct ((- 2 ^ 63 <=? z) && (z <? 2 ^ 63))%Z; intros [= <-]; discriminate.
  - destruct (existsb is_surrogate s); intros [= <-]; discriminate.
  - intros [= <-]. discriminate.
  - intros [= <-]. discriminate.
Qed.

(** X12.  A [save_to_db] that raises has written nothing; and it raises
    [OperationalError] exactly when the table is not there, whatever the
    values to save. *)
Theorem save_to_db_raises_inv (now : str) (metrics final_blog status : pyval)
    (db db' : database) (e : db_error) :
  save_to_db' now metrics final_blog status db = (db', inl e) →
  db' = db ∧
  fetch_history db' = fetch_history db ∧
  (db = None ↔ e = OperationalError).
Proof.
  unfold save_to_db.
  destruct db as [t|]; [|intros [= <- <-]; repeat split; reflexivity].
  destruct (bind_text' (PStr now)) as [e1|c1] eqn:H1;
    [intros [= <- <-]; repeat split; try discriminate;
     intros ->; destruct (bind_text_error _ _ H1 eq_refl)|].
  destruct (bind_text' (PStr (json_dumps float_json metrics))) as [e2|c2] eqn:H2;
    [intros [= <- <-]; repeat split; try discriminate;
     intros ->; destruct (bind_text_error _ _ H2 eq_refl)|].
  destruct (bind_text' final_blog) as [e3|c3] eqn:H3;
    [intros [= <- <-]; repeat split; try discriminate;
     intros ->; destruct (bind_text_error _ _ H3 eq_refl)|].
  destruct (bind_text' status) as [e4|c4] eqn:H4;
    [intros [= <- <-]; repeat split; try discriminate;
     intros ->; destruct (bind_text_error _ _ H4 eq_refl)|].
  discriminate.
Qed.

(** X13.  With the table there and a clock text and metrics text that SQLite
    accepts, a blog that is a list or a dictionary -- what the pipeline
    leaves in [final_blog] when the last answer had no response field --
    makes [save_to_db] raise [ProgrammingError], and nothing is written. *)
Theorem save_to_db_rejects_containers (now : str) (metrics final_blog status : pyval)
    (t : Table) :
  existsb is_surrogate now = false →
  existsb is_surrogate (json_dumps float_json metrics) = false →
  (∃ l, final_blog = PList l) ∨ (∃ d, final_blog = PDict d) →
  save_to_db' now metrics final_blog status (Some t) = (Some t, inl ProgrammingError).
Proof.
  intros Hnow Hmetrics Hblog. unfold save_to_db. simpl.
  rewrite Hnow, Hmetrics.
  destruct Hblog as [[l ->]|[d ->]]; reflexivity.
Qed.

Lemma built_ids (db : database) (t : Table) :
  built float_json float_text db → db = Some t →
  sqlite_seq t = Z.of_nat (length (rows t)) ∧
  map row_id (rows t) = map Z.of_nat (seq 1 (length (rows t))).
Proof.
  intros Hbuilt. revert t.
  induction Hbuilt as [|db Hb IH|now metrics final_blog status db Hb IH]; intros t Ht.
  - discriminate Ht.
  - destruct db as [t0|]; simpl in Ht.
    + apply IH. exact Ht.
    + injection Ht as <-. simpl. split; reflexivity.
  - destruct (save_to_db' now metrics final_blog status db) as [db1 [e|[]]] eqn:Hsave;
      simpl in Ht; subst db1.
    + apply save_to_db_raises_inv in Hsave as (Heq & _). apply IH. congruence.
    + destruct (save_to_db_returns_inv _ _ _ _ _ _ Hsave)
        as (t0 & c1 & c2 & c3 & c4 & -> & _ & _ & _ & _ & Heq).
      injection Heq as ->. simpl.
      destruct (IH t0 eq_refl) as [Hseq Hids].
      assert (Hnext : next_id t0 = Z.of_nat (S (length (rows t0)))).
      { unfold next_id.
        assert (fold_left Z.max (map row_id (rows t0)) (sqlite_seq t0) = sqlite_seq t0) as ->.
        { apply Z.le_antisymm; [|apply fold_left_max_le].
          pose proof (fold_left_max_le (map row_id (rows t0)) (sqlite_seq t0)) as Hle.
          assert (Hall : ∀ x, x ∈ map row_id (rows t0) → (x ≤ sqlite_seq t0)%Z).
          { rewrite Hids, Hseq. intros x Hx.
            apply list_elem_of_fmap in Hx as (n & -> & Hn).
            apply elem_of_seq in Hn. lia. }
          clear -Hall. revert Hall. generalize (map row_id (rows t0)) (sqlite_seq t0).
          intros l. induction l as [|y l IHl]; intros a Hall; simpl; [lia|].
          assert (y ≤ a)%Z by (apply Hall; left).
          replace (Z.max a y) with a by lia.
          apply IHl. intros x Hx. apply Hall. right. exact Hx. }
        lia. }
      rewrite length_app, map_app, Hids, Hnext. simpl length.
      replace (length (rows t0) + 1)%nat with (S (length (rows t0))) by lia.
      split; [reflexivity|].
      rewrite seq_S, map_app. reflexivity.
Qed.

(** X14.  In a database built by [init_db] and [save_to_db] alone, the
    records are numbered from 1 in the order they were saved, no number
    missing, and the history lists them from the last saved to the first. *)
Theorem built_history (db : database) (t : Table) :
  built float_json float_text db → db = Some t →
  map row_id (rows t) = map Z.of_nat (seq 1 (length (rows t))) ∧
  fetch_history db = inr (rev (rows t)).
Proof.
  intros Hbuilt ->.
  destruct (built_ids _ t Hbuilt eq_refl) as [_ Hids].
  split; [exact Hids|]. simpl. f_equal.
  revert Hids. generalize 1%nat.
  induction (rows t) as [|r l IH] using rev_ind; intros start Hids; [reflexivity|].
  rewrite rev_unit.
  rewrite length_app, map_app in Hids. simpl in Hids.
  replace (length l + 1)%nat with (S (length l)) in Hids by lia.
  rewrite seq_S, map_app in Hids.
  apply app_inj_tail in Hids as [Hl Hr]. simpl in Hr.
  rewrite order_by_id_desc_newest.
  - f_equal. apply (IH start), Hl.
  - intros x Hx.
    assert (Hid : row_id x ∈ map row_id l)
      by (apply (list_elem_of_fmap_2 row_id), Hx).
    rewrite Hl in Hid.
    apply (list_elem_of_fmap Z.of_nat) in Hid as (n & -> & Hn).
    apply elem_of_seq in Hn.
    assert (row_id r = Z.of_nat (start + length l)) as -> by congruence.
    lia.
Qed.

End StoreFacts.

From Stdlib Require DecimalPos.

(** ** [json.loads] after [json.dumps] *)

(** *** Texts *)

Lemma hex_value_digit (d : N) : (d < 16)%N → hex_value (hex_digit d) = Some d.
Proof.
  intros Hd.
  destruct d as [|p]; [reflexivity|].
  do 4 (destruct p as [p|p|]; try reflexivity); lia.
Qed.

Lemma decode_hex_fixed (n : N) :
  (n < 65536)%N →
  ∃ h1 h2 h3 h4,
    hex_fixed 4 n = [h1; h2; h3; h4] ∧ decode_uXXXX h1 h2 h3 h4 = Some n.
Proof.
  intros Hn.
  eexists _, _, _, _. split; [reflexivity|].
  unfold decode_uXXXX.
  rewrite !hex_value_digit by (apply N.mod_lt; lia).
  f_equal.
  pose proof (N.div_mod n 16). pose proof (N.div_mod (n / 16) 16).
  pose proof (N.div_mod (n / 16 / 16) 16).
  assert (n / 16 / 16 / 16 < 16)%N.
  { rewrite !N.Div0.div_div. apply N.Div0.div_lt_upper_bound. lia. }
  rewrite (N.mod_small (n / 16 / 16 / 16) 16) by assumption.
  lia.
Qed.

Lemma scanstring_plain (c : N) (tl : str) :
  c ≠ 34%N → c ≠ 92%N → (32 ≤ c)%N →
  scanstring (c :: tl) = scanned c 1 (scanstring tl).
Proof.
  intros H34 H92 H32. simpl.
  destruct (N.eqb_spec c 34); [congruence|].
  destruct (N.eqb_spec c 92); [congruence|].
  destruct (N.ltb_spec c 32); [lia|]. reflexivity.
Qed.

Lemma scanstring_escape (esc ch : N) (tl : str) :
  esc ≠ 117%N → backslash esc = Some ch →
  scanstring (92%N :: esc :: tl) = scanned ch 2 (scanstring tl).
Proof.
  intros H117 Hch. simpl.
  destruct (N.eqb_spec esc 117); [congruence|].
  rewrite Hch. reflexivity.
Qed.

Lemma scanstring_u (h1 h2 h3 h4 uni : N) (tl : str) :
  decode_uXXXX h1 h2 h3 h4 = Some uni →
  is_high_surrogate uni = false →
  scanstring (92%N :: 117%N :: h1 :: h2 :: h3 :: h4 :: tl) =
  scanned uni 6 (scanstring tl).
Proof.
  intros Hdec Hhigh.
  cbn [scanstring]. simpl N.eqb. cbv iota. rewrite Hdec, Hhigh.
  destruct tl as [|b [|u [|g1 [|g2 [|g3 [|g4 tl]]]]]]; try reflexivity.
  simpl andb. destruct (decode_uXXXX g1 g2 g3 g4); reflexivity.
Qed.

Lemma scanstring_pair (h1 h2 h3 h4 g1 g2 g3 g4 u1 u2 : N) (tl : str) :
  decode_uXXXX h1 h2 h3 h4 = Some u1 →
  decode_uXXXX g1 g2 g3 g4 = Some u2 →
  is_high_surrogate u1 = true →
  is_low_surrogate u2 = true →
  scanstring
    (92%N :: 117%N :: h1 :: h2 :: h3 :: h4 ::
     92%N :: 117%N :: g1 :: g2 :: g3 :: g4 :: tl) =
  scanned (65536 + N.lor (N.shiftl (u1 - 55296) 10) (u2 - 56320))%N 12
    (scanstring tl).
Proof.
  intros Hd1 Hd2 Hhigh Hlow.
  cbn [scanstring]. simpl N.eqb. cbv iota. rewrite Hd1, Hd2, Hhigh, Hlow.
  reflexivity.
Qed.

Lemma lor_shiftl_low (a b k : N) :
  (b < 2 ^ k)%N → N.lor (N.shiftl a k) b = (N.shiftl a k + b)%N.
Proof.
  intros Hb.
  assert (Hland : N.land (N.shiftl a k) b = 0%N).
  { apply N.bits_inj_0. intros n. rewrite N.land_spec.
    destruct (N.lt_ge_cases n k) as [Hlt|Hge].
    - rewrite N.shiftl_spec_low by exact Hlt. reflexivity.
    - rewrite <- (N.mod_small b (2 ^ k)) by exact Hb.
      rewrite N.mod_pow2_bits_high by exact Hge. apply andb_false_r. }
  rewrite N.add_nocarry_lxor by exact Hland.
  symmetry. apply N.lxor_lor. exact Hland.
Qed.

(** The two halves [json.dumps] writes for a character beyond the first
    plane, and what [json.loads] makes of them. *)
Lemma surrogate_pair (c : N) :
  (65536 ≤ c ≤ 1114111)%N →
  let n := (c - 65536)%N in
  let s1 := N.lor 55296 (N.land (N.shiftr n 10) 1023) in
  let s2 := N.lor 56320 (N.land n 1023) in
  (s1 < 65536)%N ∧ (s2 < 65536)%N ∧
  is_high_surrogate s1 = true ∧ is_low_surrogate s2 = true ∧
  (65536 + N.lor (N.shiftl (s1 - 55296) 10) (s2 - 56320))%N = c.
Proof.
  intros Hc n s1 s2.
  assert (Hn : (n < 1048576)%N) by (unfold n; lia).
  assert (Hhi : N.land (N.shiftr n 10) 1023 = (n / 1024)%N).
  { change 1023%N with (N.ones 10). rewrite N.land_ones, N.shiftr_div_pow2.
    change (2 ^ 10)%N with 1024%N. apply N.mod_small.
    apply N.Div0.div_lt_upper_bound. lia. }
  assert (Hlo : N.land n 1023 = (n mod 1024)%N).
  { change 1023%N with (N.ones 10). rewrite N.land_ones. reflexivity. }
  assert (Hhi_lt : (n / 1024 < 1024)%N)
    by (apply N.Div0.div_lt_upper_bound; lia).
  assert (Hlo_lt : (n mod 1024 < 1024)%N) by (apply N.mod_lt; lia).
  assert (Hs1 : s1 = (55296 + n / 1024)%N).
  { unfold s1. rewrite Hhi. change 55296%N with (N.shiftl 54 10).
    apply lor_shiftl_low. exact Hhi_lt. }
  assert (Hs2 : s2 = (56320 + n mod 1024)%N).
  { unfold s2. rewrite Hlo. change 56320%N with (N.shiftl 55 10).
    apply lor_shiftl_low. exact Hlo_lt. }
  rewrite Hs1, Hs2.
  split; [lia|]. split; [lia|].
  split; [unfold is_high_surrogate; apply andb_true_iff; split; apply N.leb_le; lia|].
  split; [unfold is_low_surrogate; apply andb_true_iff; split; apply N.leb_le; lia|].
  replace (55296 + n / 1024 - 55296)%N with (n / 1024)%N by lia.
  replace (56320 + n mod 1024 - 56320)%N with (n mod 1024)%N by lia.
  rewrite lor_shiftl_low by exact Hlo_lt.
  rewrite N.shiftl_mul_pow2. change (2 ^ 10)%N with 1024%N.
  pose proof (N.div_mod n 1024). unfold n in *. lia.
Qed.

(** [scanstring] reads back what [encode_basestring_ascii] wrote between
    the quotes. *)
Lemma scanstring_encoded (s rest : str) :
  forallb scalar s = true →
  scanstring (flat_map encode_char s ++ 34%N :: rest) =
  Some (s, S (length (flat_map encode_char s))).
Proof.
  induction s as [|c s IH]; intros Hs; [reflexivity|].
  simpl in Hs. apply andb_true_iff in Hs as [Hc Hs].
  specialize (IH Hs).
  cbn [flat_map]. rewrite <- app_assoc, length_app.
  set (tail := flat_map encode_char s ++ 34%N :: rest) in *.
  unfold encode_char.
  destruct (N.eqb_spec c 34) as [->|H34].
  { change (scanstring (92%N :: 34%N :: tail) = Some (34%N :: s, S (2 + length (flat_map encode_char s)))).
    rewrite (scanstring_escape 34 34) by (reflexivity || discriminate).
    rewrite IH. reflexivity. }
  destruct (N.eqb_spec c 92) as [->|H92].
  { change (scanstring (92%N :: 92%N :: tail) = Some (92%N :: s, S (2 + length (flat_map encode_char s)))).
    rewrite (scanstring_escape 92 92) by (reflexivity || discriminate).
    rewrite IH. reflexivity. }
  destruct (N.eqb_spec c 10) as [->|H10].
  { change (scanstring (92%N :: 110%N :: tail) = Some (10%N :: s, S (2 + length (flat_map encode_char s)))).
    rewrite (scanstring_escape 110 10) by (reflexivity || discriminate).
    rewrite IH. reflexivity. }
  destruct (N.eqb_spec c 13) as [->|H13].
  { change (scanstring (92%N :: 114%N :: tail) = Some (13%N :: s, S (2 + length (flat_map encode_char s)))).
    rewrite (scanstring_escape 114 13) by (reflexivity || discriminate).
    rewrite IH. reflexivity. }
  destruct (N.eqb_spec c 9) as [->|H9].
  { change (scanstring (92%N :: 116%N :: tail) = Some (9%N :: s, S (2 + length (flat_map encode_char s)))).
    rewrite (scanstring_escape 116 9) by (reflexivity || discriminate).
    rewrite IH. reflexivity. }
  destruct (N.eqb_spec c 8) as [->|H8].
  { change (scanstring (92%N :: 98%N :: tail) = Some (8%N :: s, S (2 + length (flat_map encode_char s)))).
    rewrite (scanstring_escape 98 8) by (reflexivity || discriminate).
    rewrite IH. reflexivity. }
  destruct (N.eqb_spec c 12) as [->|H12].
  { change (scanstring (92%N :: 102%N :: tail) = Some (12%N :: s, S (2 + length (flat_map encode_char s)))).
    rewrite (scanstring_escape 102 12) by (reflexivity || discriminate).
    rewrite IH. reflexivity. }
  destruct ((32 <=? c)%N && (c <=? 126)%N) eqn:Hprintable.
  { apply andb_true_iff in Hprintable as [H32 _]. apply N.leb_le in H32.
    change ([c] ++ tail) with (c :: tail).
    rewrite scanstring_plain by assumption.
    rewrite IH. reflexivity. }
  destruct (N.ltb_spec c 65536) as [Hbmp|Hastral].
  - destruct (decode_hex_fixed c Hbmp) as (h1 & h2 & h3 & h4 & Hhex & Hdec).
    rewrite Hhex.
    change (scanstring (92%N :: 117%N :: h1 :: h2 :: h3 :: h4 :: tail) =
            Some (c :: s, S (6 + length (flat_map encode_char s)))).
    rewrite (scanstring_u h1 h2 h3 h4 c).
    + rewrite IH. reflexivity.
    + exact Hdec.
    + unfold scalar in Hc. unfold is_high_surrogate.
      apply andb_false_iff.
      destruct (N.ltb_spec c 55296); [left; apply N.leb_gt; lia|].
      right. apply N.leb_gt. simpl in Hc.
      apply andb_true_iff in Hc as [Hc _]. apply N.leb_le in Hc. lia.
  - assert (Hrange : (65536 ≤ c ≤ 1114111)%N).
    { split; [exact Hastral|]. unfold scalar in Hc.
      destruct (N.ltb_spec c 55296); [lia|]. simpl in Hc.
      apply andb_true_iff in Hc as [_ Hc]. apply N.leb_le in Hc. exact Hc. }
    destruct (surrogate_pair c Hrange) as (Hs1 & Hs2 & Hhigh & Hlow & Hjoin).
    cbv zeta.
    destruct (decode_hex_fixed _ Hs1) as (h1 & h2 & h3 & h4 & Hhex1 & Hdec1).
    destruct (decode_hex_fixed _ Hs2) as (g1 & g2 & g3 & g4 & Hhex2 & Hdec2).
    rewrite Hhex1, Hhex2.
    change (scanstring
              (92%N :: 117%N :: h1 :: h2 :: h3 :: h4 ::
               92%N :: 117%N :: g1 :: g2 :: g3 :: g4 :: tail) =
            Some (c :: s, S (12 + length (flat_map encode_char s)))).
    rewrite (scanstring_pair _ _ _ _ _ _ _ _ _ _ _ Hdec1 Hdec2 Hhigh Hlow).
    rewrite IH, Hjoin. reflexivity.
Qed.

(** *** Integers *)

Lemma uint_str_digits (d : Decimal.uint) : forallb is_digit (uint_str d) = true.
Proof. induction d; simpl; auto. Qed.

Lemma int_of_digits_acc (d : Decimal.uint) (acc : positive) :
  fold_left (fun a c => (a * 10 + Z.of_N (c - 48))%Z) (uint_str d) (Zpos acc) =
  Zpos (Pos.of_uint_acc d acc).
Proof.
  revert acc; induction d; intros acc; simpl; [reflexivity|..];
    rewrite <- IHd; f_equal; lia.
Qed.

Lemma int_of_digits_uint (d : Decimal.uint) :
  int_of_digits (uint_str d) = Z.of_N (Pos.of_uint d).
Proof.
  unfold int_of_digits.
  induction d; simpl; [reflexivity | exact IHd |..];
    apply (int_of_digits_acc d).
Qed.

Lemma nzhead_not_D0 (d d' : Decimal.uint) : Decimal.nzhead d ≠ Decimal.D0 d'.
Proof. induction d; simpl; try discriminate. exact IHd. Qed.

(** The decimal writing of a positive number: a digit from 1 to 9, then
    digits, whose value is the number. *)
Lemma pos_digits (p : positive) :
  ∃ d ds,
    uint_str (Pos.to_uint p) = d :: ds ∧
    is_digit d = true ∧ d ≠ 48%N ∧ d ≠ 45%N ∧
    forallb is_digit ds = true ∧
    int_of_digits (d :: ds) = Zpos p.
Proof.
  pose proof (DecimalPos.Unsigned.to_of (Pos.to_uint p)) as Hnorm.
  rewrite DecimalPos.Unsigned.of_to in Hnorm. simpl in Hnorm.
  pose proof (DecimalPos.Unsigned.to_uint_nonzero p) as Hnz.
  pose proof (DecimalPos.Unsigned.to_uint_nonnil p) as Hnn.
  pose proof (uint_str_digits (Pos.to_uint p)) as Hdigits.
  pose proof (int_of_digits_uint (Pos.to_uint p)) as Hvalue.
  rewrite DecimalPos.Unsigned.of_to in Hvalue. simpl in Hvalue.
  destruct (Pos.to_uint p) as [|u|u|u|u|u|u|u|u|u|u] eqn:Hu;
    [congruence|exfalso|..];
    try (simpl in Hdigits; simpl uint_str;
         eexists _, _; split; [reflexivity|];
         repeat split; [discriminate | discriminate | exact Hdigits | exact Hvalue]).
  unfold Decimal.unorm in Hnorm. simpl in Hnorm.
  destruct (Decimal.nzhead u) eqn:Hhead; try discriminate Hnorm.
  - injection Hnorm as ->. apply Hnz. reflexivity.
  - exact (nzhead_not_D0 _ _ Hhead).
Qed.

Lemma span_digits_app (ds rest : str) :
  forallb is_digit ds = true → closes rest = true →
  span_digits (ds ++ rest) = (ds, rest).
Proof.
  intros Hds Hrest.
  induction ds as [|d ds IH]; cbn [app span_digits].
  - destruct rest as [|c rest]; [reflexivity|].
    cbn [closes] in Hrest. cbn [span_digits].
    assert (is_digit c = false) as ->; [|reflexivity].
    unfold is_digit.
    destruct (N.eqb_spec c 44) as [->|?]; [reflexivity|].
    destruct (N.eqb_spec c 93) as [->|?]; [reflexivity|].
    destruct (N.eqb_spec c 125) as [->|?]; [reflexivity|discriminate].
  - cbn [forallb] in Hds. apply andb_true_iff in Hds as [-> Hds].
    rewrite (IH Hds). reflexivity.
Qed.

Lemma no_frac_no_exp (rest : str) :
  closes rest = true → match_frac rest = ([], rest) ∧ match_exp rest = ([], rest).
Proof.
  intros Hrest. destruct rest as [|c rest]; [split; reflexivity|].
  simpl in Hrest. unfold match_frac, match_exp.
  destruct (N.eqb_spec c 44) as [->|?]; [split; reflexivity|].
  destruct (N.eqb_spec c 93) as [->|?]; [split; reflexivity|].
  destruct (N.eqb_spec c 125) as [->|?]; [split; reflexivity|discriminate].
Qed.

Lemma match_integer_digits (d : N) (ds rest : str) :
  d ≠ 45%N → d ≠ 48%N → is_digit d = true →
  forallb is_digit ds = true → closes rest = true →
  match_integer (d :: ds ++ rest) = Some (d :: ds, rest).
Proof.
  intros H45 H48 Hd Hds Hrest.
  unfold match_integer. cbv beta iota.
  rewrite (proj2 (N.eqb_neq d 45) H45). cbv beta iota.
  rewrite (proj2 (N.eqb_neq d 48) H48), Hd.
  rewrite (span_digits_app ds rest Hds Hrest). reflexivity.
Qed.

Lemma match_integer_minus (d : N) (ds rest : str) :
  d ≠ 48%N → is_digit d = true →
  forallb is_digit ds = true → closes rest = true →
  match_integer (45%N :: d :: ds ++ rest) = Some (45%N :: d :: ds, rest).
Proof.
  intros H48 Hd Hds Hrest.
  unfold match_integer. cbv beta iota.
  change (45 =? 45)%N with true. cbv beta iota.
  rewrite (proj2 (N.eqb_neq d 48) H48), Hd.
  rewrite (span_digits_app ds rest Hds Hrest). reflexivity.
Qed.

(** [match_number] reads back the integer [json.dumps] wrote. *)
Lemma match_number_int (z : Z) (rest : str) :
  closes rest = true →
  match_number (int_repr z ++ rest) = Some (PInt z, length (int_repr z)).
Proof.
  intros Hrest.
  destruct (no_frac_no_exp rest Hrest) as [Hfrac Hexp].
  unfold match_number.
  destruct z as [|p|p].
  - change (int_repr 0 ++ rest) with (48%N :: rest).
    change (match_integer (48%N :: rest)) with (Some ([48%N], rest)).
    cbv iota beta. rewrite Hfrac, Hexp. reflexivity.
  - destruct (pos_digits p) as (d & ds & Hstr & Hd & H48 & H45 & Hds & Hval).
    unfold int_repr. rewrite Hstr.
    change ((d :: ds) ++ rest) with (d :: ds ++ rest).
    rewrite (match_integer_digits d ds rest H45 H48 Hd Hds Hrest).
    cbv iota beta. rewrite Hfrac, Hexp. cbv iota beta.
    rewrite (proj2 (N.eqb_neq d 45) H45), Hval. reflexivity.
  - destruct (pos_digits p) as (d & ds & Hstr & Hd & H48 & H45 & Hds & Hval).
    unfold int_repr. rewrite Hstr.
    change ((py "-" ++ d :: ds) ++ rest) with (45%N :: d :: ds ++ rest).
    rewrite (match_integer_minus d ds rest H48 Hd Hds Hrest).
    cbv iota beta. rewrite Hfrac, Hexp. cbv iota beta.
    change (45 =? 45)%N with true. cbv iota. rewrite Hval. reflexivity.
Qed.

(** *** Tokens *)

Lemma next_token_string (s rest : str) :
  forallb scalar s = true →
  next_token (encode_basestring_ascii s ++ rest) =
  Some (TScalar (PStr s), length (encode_basestring_ascii s)).
Proof.
  intros Hs. unfold encode_basestring_ascii.
  change (([34%N] ++ flat_map encode_char s ++ [34%N]) ++ rest)
    with (34%N :: ((flat_map encode_char s ++ [34%N]) ++ rest)).
  rewrite <- app_assoc. change ([34%N] ++ rest) with (34%N :: rest).
  unfold next_token. change (34 =? 34)%N with true. cbv iota.
  rewrite (scanstring_encoded s rest Hs).
  cbn [length app]. rewrite length_app. simpl length.
  repeat f_equal. lia.
Qed.

Lemma next_token_number (c : N) (tl : str) (v : pyval) (n : nat) :
  c = 45%N ∨ is_digit c = true →
  match_number (c :: tl) = Some (v, n) →
  next_token (c :: tl) = Some (TScalar v, n).
Proof.
  intros Hc Hnum. unfold next_token. rewrite Hnum.
  assert (Hne : ∀ k, (k <? 45)%N || (57 <? k)%N = true → (c =? k)%N = false).
  { intros k Hk. apply N.eqb_neq. intros ->.
    destruct Hc as [->|Hd]; [discriminate Hk|].
    unfold is_digit in Hd. apply andb_true_iff in Hd as [H1 H2].
    apply N.leb_le in H1. apply N.leb_le in H2.
    apply orb_true_iff in Hk as [Hk|Hk]; apply N.ltb_lt in Hk; lia. }
  rewrite !Hne by reflexivity.
  cbn [startswith py map list_ascii_of_string N_of_ascii N_of_digits].
  assert (Hne' : ∀ k, (k <? 45)%N || (57 <? k)%N = true → (k =? c)%N = false)
    by (intros k Hk; rewrite N.eqb_sym; apply Hne, Hk).
  unfold py, startswith; simpl map.
  rewrite !Hne' by reflexivity. reflexivity.
Qed.

Lemma next_token_int (z : Z) (rest : str) :
  closes rest = true →
  next_token (int_repr z ++ rest) = Some (TScalar (PInt z), length (int_repr z)).
Proof.
  intros Hrest.
  pose proof (match_number_int z rest Hrest) as Hnum.
  destruct z as [|p|p].
  - apply (next_token_number 48 rest); [right; reflexivity | exact Hnum].
  - destruct (pos_digits p) as (d & ds & Hstr & Hd & _).
    unfold int_repr in *. rewrite Hstr in *.
    apply (next_token_number d (ds ++ rest)); [right; exact Hd | exact Hnum].
  - destruct (pos_digits p) as (d & ds & Hstr & _).
    unfold int_repr in *. rewrite Hstr in *.
    apply (next_token_number 45 ((d :: ds) ++ rest)); [left; reflexivity | exact Hnum].
Qed.

Lemma lex_skip (pre rest : str) : lex (length pre) (pre ++ rest) = lex 0 rest.
Proof. induction pre as [|c pre IH]; [reflexivity | exact IH]. Qed.

(** A token at the head of a text is read, and the reading goes on after
    it. *)
Lemma lex_token (c : N) (tl rest : str) (t : token) :
  is_ws c = false →
  next_token ((c :: tl) ++ rest) = Some (t, length (c :: tl)) →
  lex 0 ((c :: tl) ++ rest) =
  match lex 0 rest with
  | Some ts => Some (t :: ts)
  | None => None
  end.
Proof.
  intros Hws Htoken.
  change (lex 0 ((c :: tl) ++ rest))
    with (if is_ws c then lex 0 (tl ++ rest)
          else match next_token ((c :: tl) ++ rest) with
               | Some (t, n) =>
                   match lex (pred n) (tl ++ rest) with
                   | Some ts => Some (t :: ts)
                   | None => None
                   end
               | None => None
               end).
  rewrite Hws, Htoken. simpl pred. rewrite lex_skip. reflexivity.
Qed.

Lemma lex_char (c : N) (rest : str) (t : token) (ts : list token) :
  is_ws c = false →
  next_token (c :: rest) = Some (t, 1%nat) →
  lex 0 rest = Some ts →
  lex 0 (c :: rest) = Some (t :: ts).
Proof.
  intros Hws Htoken Hrest.
  pose proof (lex_token c [] rest t Hws Htoken) as Hlex.
  change ([c] ++ rest) with (c :: rest) in Hlex.
  rewrite Hlex, Hrest. reflexivity.
Qed.

Lemma lex_space (rest : str) : lex 0 (32%N :: rest) = lex 0 rest.
Proof. reflexivity. Qed.

(** *** Values *)


Section RoundTrip.

Variable float_json : str -> str.

#[local] Abbreviation dumps := (json_dumps float_json).
#[local] Abbreviation lexes := (lexes float_json).

Lemma lex_text (c : N) (tl rest : str) (t : token) (ts : list token) :
  is_ws c = false →
  next_token ((c :: tl) ++ rest) = Some (t, length (c :: tl)) →
  lex 0 rest = Some ts →
  lex 0 ((c :: tl) ++ rest) = Some (t :: ts).
Proof.
  intros Hws Htoken Hrest.
  rewrite (lex_token c tl rest t Hws Htoken), Hrest. reflexivity.
Qed.

Lemma lex_int (z : Z) (rest : str) (ts : list token) :
  closes rest = true → lex 0 rest = Some ts →
  lex 0 (int_repr z ++ rest) = Some (TScalar (PInt z) :: ts).
Proof.
  intros Hcloses Hrest.
  pose proof (next_token_int z rest Hcloses) as Htoken.
  destruct z as [|p|p].
  - apply (lex_text 48 [] rest); [reflexivity | exact Htoken | exact Hrest].
  - destruct (pos_digits p) as (d & ds & Hstr & Hd & _).
    unfold int_repr in *. rewrite Hstr in *.
    apply lex_text; [|exact Htoken | exact Hrest].
    unfold is_digit in Hd. apply andb_true_iff in Hd as [H1 H2].
    apply N.leb_le in H1. unfold is_ws.
    rewrite !orb_false_iff. repeat split; apply N.eqb_neq; lia.
  - destruct (pos_digits p) as (d & ds & Hstr & _).
    unfold int_repr in *. rewrite Hstr in *.
    apply (lex_text 45 (d :: ds) rest); [reflexivity | exact Htoken | exact Hrest].
Qed.

Lemma lex_string (s rest : str) (ts : list token) :
  forallb scalar s = true → lex 0 rest = Some ts →
  lex 0 (encode_basestring_ascii s ++ rest) = Some (TScalar (PStr s) :: ts).
Proof.
  intros Hs Hrest.
  pose proof (next_token_string s rest Hs) as Htoken.
  unfold encode_basestring_ascii in *.
  change ([34%N] ++ flat_map encode_char s ++ [34%N])
    with (34%N :: (flat_map encode_char s ++ [34%N])) in *.
  apply lex_text; [reflexivity | exact Htoken | exact Hrest].
Qed.


Lemma lex_items (l : list pyval) :
  Forall lexes l → forallb plain l = true →
  ∀ rest ts,
    lex 0 rest = Some ts →
    lex 0 (join (py ", ") (map dumps l) ++ 93%N :: rest) =
    Some (join_tokens TComma (map tokens_of l) ++ TRBracket :: ts).
Proof.
  induction l as [|x l IH]; intros Hlexes Hplain rest ts Hrest.
  - apply lex_char; [reflexivity | reflexivity | exact Hrest].
  - apply Forall_cons_1 in Hlexes as [Hx Hl].
    cbn [forallb] in Hplain. apply andb_true_iff in Hplain as [Hpx Hpl].
    assert (Hclose : lex 0 (93%N :: rest) = Some (TRBracket :: ts))
      by (apply lex_char; [reflexivity | reflexivity | exact Hrest]).
    destruct l as [|y l].
    + apply (Hx Hpx); [reflexivity | exact Hclose].
    + change (join (py ", ") (map dumps (x :: y :: l)))
        with (dumps x ++ py ", " ++ join (py ", ") (map dumps (y :: l))).
      change (join_tokens TComma (map tokens_of (x :: y :: l)))
        with (tokens_of x ++ TComma :: join_tokens TComma (map tokens_of (y :: l))).
      rewrite <- !app_assoc.
      apply (Hx Hpx); [reflexivity|].
      change (py ", " ++ join (py ", ") (map dumps (y :: l)) ++ 93%N :: rest)
        with (44%N :: 32%N :: (join (py ", ") (map dumps (y :: l)) ++ 93%N :: rest)).
      apply lex_char; [reflexivity | reflexivity|].
      rewrite lex_space.
      apply (IH Hl Hpl rest ts Hrest).
Qed.

Lemma lex_members (d : list (str * pyval)) :
  Forall (fun kv => lexes (snd kv)) d →
  forallb (fun kv => let '(k, x) := kv in forallb scalar k && plain x) d = true →
  ∀ rest ts,
    lex 0 rest = Some ts →
    lex 0
      (join (py ", ")
         (map (fun kv => let '(k, x) := kv in
                         encode_basestring_ascii k ++ py ": " ++ dumps x) d)
       ++ 125%N :: rest) =
    Some
      (join_tokens TComma
         (map (fun kv => let '(k, x) := kv in
                         TScalar (PStr k) :: TColon :: tokens_of x) d)
       ++ TRBrace :: ts).
Proof.
  induction d as [|[k x] d IH]; intros Hlexes Hplain rest ts Hrest.
  - apply lex_char; [reflexivity | reflexivity | exact Hrest].
  - apply Forall_cons_1 in Hlexes as [Hx Hd]. simpl in Hx.
    cbn [forallb] in Hplain. apply andb_true_iff in Hplain as [Hkx Hpd].
    apply andb_true_iff in Hkx as [Hk Hpx].
    assert (Hclose : lex 0 (125%N :: rest) = Some (TRBrace :: ts))
      by (apply lex_char; [reflexivity | reflexivity | exact Hrest]).
    assert (Hmember :
      ∀ rest' ts', closes rest' = true → lex 0 rest' = Some ts' →
        lex 0 (encode_basestring_ascii k ++ py ": " ++ dumps x ++ rest') =
        Some (TScalar (PStr k) :: TColon :: tokens_of x ++ ts')).
    { intros rest' ts' Hcloses Hrest'.
      apply (lex_string k _ _ Hk).
      change (py ": " ++ dumps x ++ rest') with (58%N :: 32%N :: (dumps x ++ rest')).
      apply lex_char; [reflexivity | reflexivity|].
      rewrite lex_space. apply (Hx Hpx); assumption. }
    destruct d as [|[k' y] d].
    + cbn [map join join_tokens]. rewrite <- !app_assoc.
      apply Hmember; [reflexivity | exact Hclose].
    + set (text := fun kv : str * pyval =>
                     let '(k, x) := kv in
                     encode_basestring_ascii k ++ py ": " ++ dumps x) in *.
      set (toks := fun kv : str * pyval =>
                     let '(k, x) := kv in
                     TScalar (PStr k) :: TColon :: tokens_of x) in *.
      change (join (py ", ") (map text ((k, x) :: (k', y) :: d)))
        with ((encode_basestring_ascii k ++ py ": " ++ dumps x)
              ++ py ", " ++ join (py ", ") (map text ((k', y) :: d))).
      change (join_tokens TComma (map toks ((k, x) :: (k', y) :: d)))
        with ((TScalar (PStr k) :: TColon :: tokens_of x)
              ++ TComma :: join_tokens TComma (map toks ((k', y) :: d))).
      rewrite <- !app_assoc.
      change ((TScalar (PStr k) :: TColon :: tokens_of x) ++
              TComma :: join_tokens TComma (map toks ((k', y) :: d)) ++
              TRBrace :: ts)
        with (TScalar (PStr k) :: TColon :: tokens_of x ++
              TComma :: join_tokens TComma (map toks ((k', y) :: d)) ++
              TRBrace :: ts).
      apply Hmember; [reflexivity|].
      change (py ", " ++ join (py ", ") (map text ((k', y) :: d)) ++ 125%N :: rest)
        with (44%N :: 32%N ::
              (join (py ", ") (map text ((k', y) :: d)) ++ 125%N :: rest)).
      apply lex_char; [reflexivity | reflexivity|].
      rewrite lex_space.
      apply (IH Hd Hpd rest ts Hrest).
Qed.

Lemma lex_dumps (v : pyval) : lexes v.
Proof.
  induction v as [| b | z | f | s | l IH | d IH] using pyval_nested_ind;
    intros Hplain rest ts Hcloses Hrest.
  - apply (lex_text 110 (py "ull") rest);
      [reflexivity | destruct rest; reflexivity | exact Hrest].
  - destruct b.
    + apply (lex_text 116 (py "rue") rest);
        [reflexivity | destruct rest; reflexivity | exact Hrest].
    + apply (lex_text 102 (py "alse") rest);
        [reflexivity | destruct rest; reflexivity | exact Hrest].
  - apply lex_int; assumption.
  - discriminate Hplain.
  - apply lex_string; assumption.
  - cbn [json_dumps tokens_of]. rewrite <- !app_assoc.
    change (py "[" ++ join (py ", ") (map dumps l) ++ py "]" ++ rest)
      with (91%N :: (join (py ", ") (map dumps l) ++ 93%N :: rest)).
    change ((TLBracket :: join_tokens TComma (map tokens_of l) ++ [TRBracket]) ++ ts)
      with (TLBracket :: (join_tokens TComma (map tokens_of l) ++ [TRBracket]) ++ ts).
    rewrite <- app_assoc.
    apply lex_char; [reflexivity | reflexivity|].
    apply lex_items; assumption.
  - cbn [plain] in Hplain. apply andb_true_iff in Hplain as [Hplain _].
    cbn [json_dumps tokens_of]. rewrite <- !app_assoc.
    match goal with
    | |- lex 0 (py "{" ++ ?body ++ py "}" ++ rest) = _ =>
        change (py "{" ++ body ++ py "}" ++ rest) with (123%N :: (body ++ 125%N :: rest))
    end.
    match goal with
    | |- _ = Some ((TLBrace :: ?body ++ [TRBrace]) ++ ts) =>
        change ((TLBrace :: body ++ [TRBrace]) ++ ts)
          with (TLBrace :: (body ++ [TRBrace]) ++ ts)
    end.
    rewrite <- app_assoc.
    apply lex_char; [reflexivity | reflexivity|].
    apply lex_members; assumption.
Qed.



(** *** Parsing the tokens *)


Lemma parse_scalar (v : pyval) (stack : list frame) (ts : list token) (mode : pmode) :
  mode = MValue ∨ mode = MArrFirst →
  parse_tokens (stack, mode) (TScalar v :: ts) = parse_tokens (push_value stack v) ts.
Proof. intros [->| ->]; reflexivity. Qed.

Lemma parse_items (l : list pyval) :
  Forall parses l → forallb plain l = true →
  ∀ x acc stack ts mode,
    parses x → plain x = true →
    mode = MValue ∨ mode = MArrFirst →
    parse_tokens (FArr acc :: stack, mode)
      (join_tokens TComma (map tokens_of (x :: l)) ++ TRBracket :: ts) =
    parse_tokens (push_value stack (PList (rev acc ++ x :: l))) ts.
Proof.
  induction l as [|y l IH]; intros Hl Hpl x acc stack ts mode Hx Hpx Hmode.
  - cbn [map join_tokens].
    rewrite (Hx Hpx _ _ _ Hmode). reflexivity.
  - apply Forall_cons_1 in Hl as [Hy Hl].
    cbn [forallb] in Hpl. apply andb_true_iff in Hpl as [Hpy Hpl].
    change (join_tokens TComma (map tokens_of (x :: y :: l)))
      with (tokens_of x ++ TComma :: join_tokens TComma (map tokens_of (y :: l))).
    rewrite <- app_assoc.
    rewrite (Hx Hpx _ _ _ Hmode).
    change (parse_tokens (push_value (FArr acc :: stack) x)
              ((TComma :: join_tokens TComma (map tokens_of (y :: l)))
               ++ TRBracket :: ts))
      with (parse_tokens (FArr (x :: acc) :: stack, MValue)
              (join_tokens TComma (map tokens_of (y :: l)) ++ TRBracket :: ts)).
    rewrite (IH Hl Hpl y (x :: acc) stack ts MValue Hy Hpy (or_introl eq_refl)).
    cbn [rev]. rewrite <- app_assoc. reflexivity.
Qed.

Lemma parse_members (d : list (str * pyval)) :
  Forall (fun kv => parses (snd kv)) d →
  forallb (fun kv => let '(k, x) := kv in forallb scalar k && plain x) d = true →
  ∀ k x pairs key stack ts mode,
    parses x → plain x = true →
    mode = MObjFirst ∨ mode = MObjKey →
    parse_tokens (FObj pairs key :: stack, mode)
      (join_tokens TComma
         (map (fun kv => let '(k, x) := kv in
                         TScalar (PStr k) :: TColon :: tokens_of x)
            ((k, x) :: d))
       ++ TRBrace :: ts) =
    parse_tokens
      (push_value stack (PDict (dict_of_pairs (rev pairs ++ (k, x) :: d)))) ts.
Proof.
  induction d as [|[k' y] d IH];
    intros Hd Hpd k x pairs key stack ts mode Hx Hpx Hmode.
  - cbn [map join_tokens].
    assert (Hkey :
      parse_tokens (FObj pairs key :: stack, mode)
        ((TScalar (PStr k) :: TColon :: tokens_of x) ++ TRBrace :: ts) =
      parse_tokens (FObj pairs k :: stack, MValue) (tokens_of x ++ TRBrace :: ts))
      by (destruct Hmode as [->| ->]; reflexivity).
    rewrite Hkey, (Hx Hpx _ _ _ (or_introl eq_refl)). reflexivity.
  - apply Forall_cons_1 in Hd as [Hy Hd]. simpl in Hy.
    cbn [forallb] in Hpd. apply andb_true_iff in Hpd as [Hky Hpd].
    apply andb_true_iff in Hky as [_ Hpy].
    set (toks := fun kv : str * pyval =>
                   let '(k, x) := kv in
                   TScalar (PStr k) :: TColon :: tokens_of x) in *.
    change (join_tokens TComma (map toks ((k, x) :: (k', y) :: d)))
      with ((TScalar (PStr k) :: TColon :: tokens_of x)
            ++ TComma :: join_tokens TComma (map toks ((k', y) :: d))).
    rewrite <- app_assoc.
    assert (Hkey :
      ∀ tl,
        parse_tokens (FObj pairs key :: stack, mode)
          ((TScalar (PStr k) :: TColon :: tokens_of x) ++ tl) =
        parse_tokens (FObj pairs k :: stack, MValue) (tokens_of x ++ tl))
      by (intros tl; destruct Hmode as [->| ->]; reflexivity).
    rewrite Hkey, (Hx Hpx _ _ _ (or_introl eq_refl)).
    change (parse_tokens (push_value (FObj pairs k :: stack) x)
              ((TComma :: join_tokens TComma (map toks ((k', y) :: d)))
               ++ TRBrace :: ts))
      with (parse_tokens (FObj ((k, x) :: pairs) k :: stack, MObjKey)
              (join_tokens TComma (map toks ((k', y) :: d)) ++ TRBrace :: ts)).
    rewrite (IH Hd Hpd k' y ((k, x) :: pairs) k stack ts MObjKey Hy Hpy
               (or_intror eq_refl)).
    cbn [rev]. rewrite <- app_assoc. reflexivity.
Qed.

Lemma dict_set_fresh (acc : pydict) (k : str) (v : pyval) :
  k ∉ dict_keys acc → dict_set acc k v = acc ++ [(k, v)].
Proof.
  unfold dict_keys.
  induction acc as [|[k0 v0] acc IH]; intros Hk; simpl; [reflexivity|].
  simpl in Hk. apply not_elem_of_cons in Hk as [Hne Hk].
  destruct (decide (k0 = k)); [congruence|].
  rewrite (IH Hk). reflexivity.
Qed.

Lemma dict_update_nodup (d acc : pydict) :
  NoDup (dict_keys (acc ++ d)) → dict_update acc d = acc ++ d.
Proof.
  unfold dict_update.
  revert acc; induction d as [|[k v] d IH]; intros acc Hnodup; simpl.
  - rewrite app_nil_r. reflexivity.
  - assert (Hfresh : k ∉ dict_keys acc).
    { unfold dict_keys in *. rewrite map_app in Hnodup. simpl in Hnodup.
      apply NoDup_app in Hnodup as (_ & Hdisjoint & _).
      intros Hin. apply (Hdisjoint k Hin). left. }
    rewrite (dict_set_fresh acc k v Hfresh).
    rewrite IH; rewrite <- app_assoc; [reflexivity | exact Hnodup].
Qed.

(** [dict] of pairs whose keys differ keeps them as they are. *)
Lemma dict_of_pairs_nodup (d : pydict) :
  NoDup (map fst d) → dict_of_pairs d = d.
Proof. intros Hnodup. apply (dict_update_nodup d []). exact Hnodup. Qed.

Lemma parse_value (v : pyval) : parses v.
Proof.
  induction v as [| b | z | f | s | l IH | d IH] using pyval_nested_ind;
    intros Hplain stack ts mode Hmode;
    try (apply parse_scalar; exact Hmode).
  - cbn [plain] in Hplain. cbn [tokens_of].
    assert (Hopen :
      ∀ tl, parse_tokens (stack, mode) ((TLBracket :: tl) ++ ts) =
            parse_tokens (FArr [] :: stack, MArrFirst) (tl ++ ts))
      by (intros tl; destruct Hmode as [->| ->]; reflexivity).
    rewrite Hopen, <- app_assoc.
    destruct l as [|x l]; [reflexivity|].
    apply Forall_cons_1 in IH as [Hx Hl].
    cbn [forallb] in Hplain. apply andb_true_iff in Hplain as [Hpx Hpl].
    apply (parse_items l Hl Hpl x [] stack ts MArrFirst Hx Hpx).
    right. reflexivity.
  - cbn [plain] in Hplain. apply andb_true_iff in Hplain as [Hplain Hnodup].
    apply bool_decide_eq_true_1 in Hnodup.
    cbn [tokens_of].
    assert (Hopen :
      ∀ tl, parse_tokens (stack, mode) ((TLBrace :: tl) ++ ts) =
            parse_tokens (FObj [] [] :: stack, MObjFirst) (tl ++ ts))
      by (intros tl; destruct Hmode as [->| ->]; reflexivity).
    rewrite Hopen, <- app_assoc.
    destruct d as [|[k x] d]; [reflexivity|].
    apply Forall_cons_1 in IH as [Hx Hd]. simpl in Hx.
    cbn [forallb] in Hplain. apply andb_true_iff in Hplain as [Hkx Hpd].
    apply andb_true_iff in Hkx as [_ Hpx].
    change ([TRBrace] ++ ts) with (TRBrace :: ts).
    rewrite (parse_members d Hd Hpd k x [] [] stack ts MObjFirst Hx Hpx
               (or_introl eq_refl)).
    cbn [rev app]. rewrite (dict_of_pairs_nodup _ Hnodup). reflexivity.
Qed.

Lemma json_loads_json_dumps (v : pyval) :
  plain v = true → json_loads (dumps v) = inr v.
Proof.
  intros Hplain. unfold json_loads.
  pose proof (lex_dumps v Hplain [] [] eq_refl eq_refl) as Hlex.
  rewrite !app_nil_r in Hlex. rewrite Hlex.
  pose proof (parse_value v Hplain [] [] MValue (or_introl eq_refl)) as Hparse.
  rewrite app_nil_r in Hparse. rewrite Hparse. reflexivity.
Qed.

(** X15.  For a value with no float, whose texts hold no surrogate and whose
    dictionaries have each key once, [json.loads] reads back from the text
    [json.dumps] writes the value it was given. *)
Theorem json_round_trip (v : pyval) :
  plain v = true → json_loads (dumps v) = inr v.
Proof. exact (json_loads_json_dumps v). Qed.

(** *** The text [json.dumps] writes is ASCII *)


Lemma hex_fixed_ascii (width : nat) (n : N) :
  forallb is_ascii (hex_fixed width n) = true.
Proof.
  revert n; induction width as [|w IH]; intros n; [reflexivity|].
  cbn [hex_fixed]. rewrite forallb_app, IH. cbn [forallb].
  rewrite andb_true_r. unfold is_ascii, hex_digit.
  pose proof (N.mod_lt n 16 ltac:(lia)).
  destruct (n mod 16 <? 10)%N; apply N.ltb_lt; lia.
Qed.

Lemma encode_char_ascii (c : N) : forallb is_ascii (encode_char c) = true.
Proof.
  unfold encode_char.
  repeat (match goal with |- context [if ?b then _ else _] => destruct b eqn:? end;
          try reflexivity).
  - cbn [forallb]. rewrite andb_true_r.
    apply andb_true_iff in Heqb6 as [_ H]. apply N.leb_le in H.
    apply N.ltb_lt. lia.
  - change (py "\u" ++ hex_fixed 4 c) with (92%N :: 117%N :: hex_fixed 4 c).
    cbn [forallb]. rewrite hex_fixed_ascii. reflexivity.
  - cbv zeta.
    match goal with
    | |- forallb is_ascii (py "\u" ++ hex_fixed 4 ?a ++ py "\u" ++ hex_fixed 4 ?b) = true =>
        change (py "\u" ++ hex_fixed 4 a ++ py "\u" ++ hex_fixed 4 b)
          with (92%N :: 117%N :: (hex_fixed 4 a ++ 92%N :: 117%N :: hex_fixed 4 b))
    end.
    cbn [forallb]. rewrite forallb_app. cbn [forallb].
    rewrite !hex_fixed_ascii. reflexivity.
Qed.

Lemma encode_basestring_ascii_ascii (s : str) :
  forallb is_ascii (encode_basestring_ascii s) = true.
Proof.
  unfold encode_basestring_ascii.
  change ([34%N] ++ flat_map encode_char s ++ [34%N])
    with (34%N :: (flat_map encode_char s ++ [34%N])).
  cbn [forallb]. rewrite forallb_app. cbn [forallb]. rewrite andb_true_r.
  induction s as [|c s IH]; [reflexivity|].
  cbn [flat_map]. rewrite forallb_app, encode_char_ascii. exact IH.
Qed.

Lemma int_repr_ascii (z : Z) : forallb is_ascii (int_repr z) = true.
Proof.
  assert (Hdigits : ∀ d, forallb is_ascii (uint_str d) = true)
    by (intros d; induction d; simpl; auto).
  destruct z; simpl; [reflexivity | apply Hdigits | apply Hdigits].
Qed.

Lemma join_ascii (sep : str) (parts : list str) :
  forallb is_ascii sep = true →
  Forall (fun p => forallb is_ascii p = true) parts →
  forallb is_ascii (join sep parts) = true.
Proof.
  intros Hsep Hparts.
  induction Hparts as [|p parts Hp Hparts IH]; [reflexivity|].
  destruct parts as [|q parts]; [exact Hp|].
  change (join sep (p :: q :: parts)) with (p ++ sep ++ join sep (q :: parts)).
  rewrite !forallb_app, Hp, Hsep, IH. reflexivity.
Qed.

(** With floats written in ASCII, as Python writes them, all of the text
    is. *)
Lemma json_dumps_ascii (v : pyval) :
  (∀ f, forallb is_ascii (float_json f) = true) →
  forallb is_ascii (dumps v) = true.
Proof.
  intros Hfloat.
  induction v as [| b | z | f | s | l IH | d IH] using pyval_nested_ind.
  - reflexivity.
  - destruct b; reflexivity.
  - apply int_repr_ascii.
  - apply Hfloat.
  - apply encode_basestring_ascii_ascii.
  - cbn [json_dumps]. rewrite !forallb_app.
    rewrite (join_ascii (py ", ")); [reflexivity | reflexivity|].
    apply Forall_fmap. exact IH.
  - cbn [json_dumps]. rewrite !forallb_app.
    rewrite (join_ascii (py ", ")); [reflexivity | reflexivity|].
    apply Forall_fmap. eapply Forall_impl; [exact IH|].
    intros [k x] Hx. cbn [snd] in Hx.
    change (forallb is_ascii (encode_basestring_ascii k ++ py ": " ++ dumps x) = true).
    rewrite !forallb_app, encode_basestring_ascii_ascii, Hx. reflexivity.
Qed.

Lemma ascii_no_surrogate (s : str) :
  forallb is_ascii s = true → existsb is_surrogate s = false.
Proof.
  induction s as [|c s IH]; [reflexivity|].
  cbn [forallb existsb]. intros H. apply andb_true_iff in H as [Hc Hs].
  rewrite (IH Hs), orb_false_r.
  unfold is_ascii in Hc. apply N.ltb_lt in Hc.
  unfold is_surrogate. apply andb_false_iff. left. apply N.leb_gt. lia.
Qed.

End RoundTrip.

(** ** Saving and reading back *)

Section SaveFacts.

Variable float_json : str -> str.
Variable float_text : str -> cell.

(** With the table there, a clock text, a blog text and a status text
    without surrogates are all [save_to_db] needs: the metrics never stand
    in the way. *)
Lemma save_to_db_text (now blog status : str) (metrics : pyval) (t : Table) :
  (∀ f, forallb is_ascii (float_json f) = true) →
  existsb is_surrogate now = false →
  existsb is_surrogate blog = false →
  existsb is_surrogate status = false →
  save_to_db float_json float_text now metrics (PStr blog) (PStr status) (Some t) =
  (Some {| sqlite_seq := next_id t;
           rows :=
             rows t ++
             [{| row_id := next_id t;
                 row_timestamp := Some now;
                 row_metrics := Some (json_dumps float_json metrics);
                 row_final_blog := Some blog;
                 row_status := Some status |}] |},
   inr tt).
Proof.
  intros Hfloat Hnow Hblog Hstatus.
  unfold save_to_db, bind_text.
  rewrite Hnow, Hblog, Hstatus.
  rewrite (ascii_no_surrogate _ (json_dumps_ascii float_json metrics Hfloat)).
  reflexivity.
Qed.

(** X16.  When floats are written in ASCII, the table is there and the
    clock text, the blog and the status are texts without surrogates,
    [save_to_db] returns, whatever the metrics are. *)
Theorem save_to_db_returns (now blog status : str) (metrics : pyval) (t : Table) :
  (∀ f, forallb is_ascii (float_json f) = true) →
  existsb is_surrogate now = false →
  existsb is_surrogate blog = false →
  existsb is_surrogate status = false →
  ∃ db',
    save_to_db float_json float_text now metrics (PStr blog) (PStr status) (Some t) =
    (db', inr tt).
Proof.
  intros Hfloat Hnow Hblog Hstatus.
  rewrite (save_to_db_text now blog status metrics t Hfloat Hnow Hblog Hstatus).
  eauto.
Qed.

Lemma saved_metrics (now : str) (metrics final_blog status : pyval)
    (db db' : database) :
  save_to_db float_json float_text now metrics final_blog status db = (db', inr tt) →
  ∃ before record,
    fetch_history db = inr before ∧
    fetch_history db' = inr (record :: before) ∧
    row_metrics record = Some (json_dumps float_json metrics) ∧
    bind_text float_text final_blog = inr (row_final_blog record) ∧
    bind_text float_text status = inr (row_status record).
Proof.
  intros Hsave.
  destruct (save_to_db_returns_inv _ _ _ _ _ _ _ _ Hsave)
    as (t & c1 & c2 & c3 & c4 & -> & H1 & H2 & H3 & H4 & ->).
  apply bind_text_str in H2 as [-> _].
  eexists _, _. split; [reflexivity|]. simpl.
  rewrite order_by_id_desc_newest by (intros r; apply next_id_above).
  split; [reflexivity|]. simpl. auto.
Qed.

(** X17.  The metrics of a record saved by [save_to_db] are read back by the
    History tab as they were given, when they have no float, no surrogate
    in their texts and each key once: the record comes first in the history
    and [json.loads] of its metrics column is the value saved. *)
Theorem saved_metrics_read_back (now : str) (metrics final_blog status : pyval)
    (db db' : database) :
  save_to_db float_json float_text now metrics final_blog status db = (db', inr tt) →
  plain metrics = true →
  ∃ before record,
    fetch_history db' = inr (record :: before) ∧
    history_metrics record = inr metrics.
Proof.
  intros Hsave Hplain.
  destruct (saved_metrics _ _ _ _ _ _ Hsave)
    as (before & record & _ & Hhistory & Hmetrics & _).
  exists before, record. split; [exact Hhistory|].
  unfold history_metrics. rewrite Hmetrics. simpl.
  apply json_loads_json_dumps. exact Hplain.
Qed.

End SaveFacts.

(** ** The Start Analysis button *)

Section MainFacts.

Variable float_repr : str -> str.
Variable float_truth : str -> bool.
Variable unicode_printable : N -> bool.
Variable dedent : str -> str.
Variable endpoint : world -> str -> exn + Response.
Variable float_json : str -> str.
Variable float_text : str -> cell.

#[local] Abbreviation generator3 :=
  (BlogGenerator_init float_repr float_truth unicode_printable dedent endpoint).
#[local] Abbreviation start_analysis3 := (start_analysis float_json float_text).

(** The results of a run that returns hold metrics and a blog. *)
Lemma results_fields (content : str) (w w' : world) (results : pydict) :
  run_analysis generator3 content w = (w', inr results) →
  ∃ metrics final_blog,
    dict_lookup results (py "metrics") = Some metrics ∧
    dict_lookup results (py "final_blog") = Some final_blog.
Proof.
  intros Hrun.
  destruct (run_analysis_returns_inv_aux _ _ _ _ _ _ _ _ _ Hrun)
    as (expanded & analysis & metrics & draft & final_blog & -> & _).
  exists metrics, final_blog. split; reflexivity.
Qed.

(** X18.  When Start Analysis ends with the results, the content was
    fetched, the run on it returned these results, and exactly one record
    was added to the history, in front: it holds the metrics of the results
    as [json.dumps] writes them, what SQLite keeps of their blog, and the
    status [complete]. *)
Theorem start_analysis_saves (account : reddit_error + Redditor) (post_limit : nat)
    (now : str) (w w' : world) (db db' : database) (results : pydict) :
  start_analysis3 account post_limit now generator3 w db = (w', db', inr results) →
  ∃ content metrics final_blog before record,
    fetch_content account post_limit = inr content ∧
    run_analysis generator3 content w = (w', inr results) ∧
    dict_lookup results (py "metrics") = Some metrics ∧
    dict_lookup results (py "final_blog") = Some final_blog ∧
    fetch_history db = inr before ∧
    fetch_history db' = inr (record :: before) ∧
    row_metrics record = Some (json_dumps float_json metrics) ∧
    bind_text float_text final_blog = inr (row_final_blog record) ∧
    row_status record = Some (py "complete").
Proof.
  unfold start_analysis.
  destruct (fetch_content account post_limit) as [e|content]; [discriminate|].
  destruct (run_analysis generator3 content w) as [w1 [e|results1]] eqn:Hrun;
    [discriminate|].
  destruct (results_fields _ _ _ _ Hrun) as (metrics & final_blog & Hm & Hb).
  rewrite Hm, Hb.
  destruct (save_to_db float_json float_text now metrics final_blog complete db)
    as [db1 [e|[]]] eqn:Hsave; [discriminate|].
  intros [= <- <- <-].
  destruct (saved_metrics _ _ _ _ _ _ _ _ Hsave)
    as (before & record & Hbefore & Hafter & Hmetrics & Hblog & Hstatus).
  exists content, metrics, final_blog, before, record.
  repeat split; try assumption.
  simpl in Hstatus. injection Hstatus as <-. reflexivity.
Qed.

(** X19.  When Start Analysis ends with an exception of the pipeline, the
    content was fetched, the run on it raised that exception after exactly
    three requests to the model, and the database is as it was:
    [save_to_db] is not reached and nothing is recorded of a run that
    failed. *)
Theorem start_analysis_pipeline_failure (account : reddit_error + Redditor)
    (post_limit : nat) (now : str) (w w' : world) (db db' : database) (e : exn) :
  start_analysis3 account post_limit now generator3 w db =
    (w', db', inl (PipelineFailed e)) →
  db' = db ∧
  ∃ content,
    fetch_content account post_limit = inr content ∧
    run_analysis generator3 content w = (w', inl e) ∧
    length w' = (length w + 3)%nat.
Proof.
  unfold start_analysis.
  destruct (fetch_content account post_limit) as [e0|content]; [discriminate|].
  destruct (run_analysis generator3 content w) as [w1 [e1|results]] eqn:Hrun.
  - intros [= <- <- <-].
    split; [reflexivity|]. exists content.
    split; [reflexivity|]. split; [exact Hrun|].
    destruct (run_analysis_raises_inv_aux _ _ _ _ _ _ _ _ _ Hrun)
      as (expanded & analysis & raw & -> & _).
    rewrite !length_app. simpl. lia.
  - destruct (results_fields _ _ _ _ Hrun) as (metrics & final_blog & Hm & Hb).
    rewrite Hm, Hb.
    destruct (save_to_db float_json float_text now metrics final_blog complete db)
      as [db1 [e1|[]]]; discriminate.
Qed.

(** X20.  With the table there and a clock text without surrogates, a model
    that returns the empty string to every call -- a server that is down --
    still gets its run recorded like any other: Start Analysis ends with the
    results and adds the record with empty metrics, an empty blog and the
    status [complete]. *)
Theorem start_analysis_silent_model (user : Redditor) (post_limit : nat)
    (now : str) (w : world) (t : Table) :
  (∀ prompt w0, snd (request_api endpoint prompt w0) = inr (PStr [])) →
  existsb is_surrogate now = false →
  ∃ w' results,
    start_analysis3 (inr user) post_limit now generator3 w (Some t) =
    (w',
     Some {| sqlite_seq := next_id t;
             rows :=
               rows t ++
               [{| row_id := next_id t;
                   row_timestamp := Some now;
                   row_metrics := Some (py "{}");
                   row_final_blog := Some [];
                   row_status := Some (py "complete") |}] |},
     inr results).
Proof.
  intros Hsilent Hnow.
  unfold start_analysis.
  destruct (fetch_content (inr user) post_limit) as [e|content] eqn:Hfetch;
    [discriminate Hfetch|].
  erewrite (run_analysis_course float_repr float_truth unicode_printable dedent
              endpoint content w (PStr []) (PStr []) (PDict []) (PStr [])
              (PStr []));
    [ | apply Hsilent | apply Hsilent
      | rewrite (MetricAgent_process_eq _ _ _ _ _ _ _ (Hsilent _ _)); reflexivity
      | apply Hsilent | apply Hsilent ].
  change (dict_lookup (state_after4 content (PStr []) (PStr []) (PDict []) (PStr []))
            (py "metrics")) with (Some (PDict [])).
  change (dict_lookup (state_after4 content (PStr []) (PStr []) (PDict []) (PStr []))
            (py "final_blog")) with (Some (PStr [])).
  cbv iota beta.
  unfold save_to_db, bind_text, complete. rewrite Hnow.
  eexists _, _. reflexivity.
Qed.

(** X21.  When the run returns results whose blog is a list or a dictionary
    -- the last answer of the model had no response field -- Start Analysis
    ends with the [ProgrammingError] of [save_to_db] and the database is as
    it was; the table is there, the clock text has no surrogate and floats
    are written in ASCII. *)
Theorem start_analysis_store_failure (user : Redditor) (post_limit : nat)
    (now content : str) (w w' : world) (t : Table) (results : pydict)
    (final_blog : pyval) :
  (∀ f, forallb is_ascii (float_json f) = true) →
  existsb is_surrogate now = false →
  fetch_content (inr user) post_limit = inr content →
  run_analysis generator3 content w = (w', inr results) →
  dict_lookup results (py "final_blog") = Some final_blog →
  (∃ l, final_blog = PList l) ∨ (∃ d, final_blog = PDict d) →
  start_analysis3 (inr user) post_limit now generator3 w (Some t) =
  (w', Some t, inl (StoreFailed ProgrammingError)).
Proof.
  intros Hfloat Hnow Hfetch Hrun Hblog Hcontainer.
  unfold start_analysis. rewrite Hfetch, Hrun.
  destruct (results_fields _ _ _ _ Hrun) as (metrics & final_blog' & Hm & Hb).
  rewrite Hm, Hblog.
  unfold save_to_db, bind_text. rewrite Hnow.
  rewrite (ascii_no_surrogate _ (json_dumps_ascii float_json metrics Hfloat)).
  destruct Hcontainer as [[l ->]|[d ->]]; reflexivity.
Qed.

End MainFacts.

(** ** The handler and the History tab together *)

Section HandlerFacts.

Variable float_repr : str -> str.
Variable float_truth : str -> bool.
Variable unicode_printable : N -> bool.
Variable dedent : str -> str.
Variable endpoint : world -> str -> exn + Response.
Variable float_json : str -> str.
Variable float_text : str -> cell.

#[local] Abbreviation generator4 :=
  (BlogGenerator_init float_repr float_truth unicode_printable dedent endpoint).
#[local] Abbreviation start_analysis4 := (start_analysis float_json float_text).

(** A [save_to_db] that raises leaves the database as it was. *)
Lemma save_to_db_raises_db (now : str) (metrics final_blog status : pyval)
    (db db' : database) (e : db_error) :
  save_to_db float_json float_text now metrics final_blog status db = (db', inl e) →
  db' = db.
Proof.
  unfold save_to_db.
  destruct db as [t|]; [|intros [= <- <-]; reflexivity].
  destruct (bind_text float_text (PStr now)) as [e1|c1];
    [intros [= <- <-]; reflexivity|].
  destruct (bind_text float_text (PStr (json_dumps float_json metrics))) as [e2|c2];
    [intros [= <- <-]; reflexivity|].
  destruct (bind_text float_text final_blog) as [e3|c3];
    [intros [= <- <-]; reflexivity|].
  destruct (bind_text float_text status) as [e4|c4];
    [intros [= <- <-]; reflexivity|].
  discriminate.
Qed.

(** X22.  What the History tab shows first after a Start Analysis that ended
    with the results is the metrics of these results: the newest record of
    the history is the one just saved, and [json.loads] of its metrics
    column gives back [results['metrics']], when that value has no float, no
    surrogate in its texts and each key once. *)
Theorem start_analysis_then_history (account : reddit_error + Redditor)
    (post_limit : nat) (now : str) (w w' : world) (db db' : database)
    (results : pydict) (metrics : pyval) :
  start_analysis4 account post_limit now generator4 w db = (w', db', inr results) →
  dict_lookup results (py "metrics") = Some metrics →
  plain metrics = true →
  ∃ record before,
    fetch_history db = inr before ∧
    fetch_history db' = inr (record :: before) ∧
    history_metrics record = inr metrics.
Proof.
  unfold start_analysis.
  destruct (fetch_content account post_limit) as [e|content]; [discriminate|].
  destruct (run_analysis generator4 content w) as [w1 [e|results1]] eqn:Hrun;
    [discriminate|].
  destruct (results_fields _ _ _ _ _ _ _ _ _ Hrun)
    as (metrics1 & final_blog & Hm & Hb).
  rewrite Hm, Hb.
  destruct (save_to_db float_json float_text now metrics1 final_blog complete db)
    as [db1 [e|[]]] eqn:Hsave; [discriminate|].
  intros [= <- <- <-] Hmetrics Hplain.
  rewrite Hm in Hmetrics. injection Hmetrics as ->.
  destruct (saved_metrics _ _ _ _ _ _ _ _ Hsave)
    as (before & record & Hbefore & Hafter & Hcell & _).
  exists record, before. split; [exact Hbefore|]. split; [exact Hafter|].
  unfold history_metrics. rewrite Hcell. simpl.
  apply json_loads_json_dumps. exact Hplain.
Qed.

(** X23.  When Start Analysis ends with an exception of the Reddit client,
    [fetch_content] raised it, no request was posted to the model and the
    database is as it was. *)
Theorem start_analysis_reddit_failure (account : reddit_error + Redditor)
    (post_limit : nat) (now : str) (w w' : world) (db db' : database)
    (e : reddit_error) :
  start_analysis4 account post_limit now generator4 w db =
    (w', db', inl (RedditFailed e)) →
  fetch_content account post_limit = inl e ∧ w' = w ∧ db' = db.
Proof.
  unfold start_analysis.
  destruct (fetch_content account post_limit) as [e0|content].
  - intros [= <- <-]. destruct e, e0. repeat split.
  - destruct (run_analysis generator4 content w) as [w1 [e1|results]] eqn:Hrun;
      [discriminate|].
    destruct (results_fields _ _ _ _ _ _ _ _ _ Hrun)
      as (metrics & final_blog & Hm & Hb).
    rewrite Hm, Hb.
    destruct (save_to_db float_json float_text now metrics final_blog complete db)
      as [db1 [e1|[]]]; discriminate.
Qed.

(** X24.  When Start Analysis ends with an exception of [save_to_db], the
    content was fetched and the run on it returned its results after five
    requests to the model, yet the database is as it was: the results of
    that run are in no record. *)
Theorem start_analysis_store_failure_inv (account : reddit_error + Redditor)
    (post_limit : nat) (now : str) (w w' : world) (db db' : database)
    (e : db_error) :
  start_analysis4 account post_limit now generator4 w db =
    (w', db', inl (StoreFailed e)) →
  db' = db ∧
  ∃ content results,
    fetch_content account post_limit = inr content ∧
    run_analysis generator4 content w = (w', inr results) ∧
    length w' = (length w + 5)%nat.
Proof.
  unfold start_analysis.
  destruct (fetch_content account post_limit) as [e0|content]; [discriminate|].
  destruct (run_analysis generator4 content w) as [w1 [e1|results]] eqn:Hrun;
    [discriminate|].
  destruct (results_fields _ _ _ _ _ _ _ _ _ Hrun)
    as (metrics & final_blog & Hm & Hb).
  rewrite Hm, Hb.
  destruct (save_to_db float_json float_text now metrics final_blog complete db)
    as [db1 [e1|[]]] eqn:Hsave; [|discriminate].
  intros [= <- <- <-].
  split; [exact (save_to_db_raises_db _ _ _ _ _ _ _ Hsave)|].
  exists content, results. split; [reflexivity|]. split; [exact Hrun|].
  destruct (run_analysis_returns_inv_aux _ _ _ _ _ _ _ _ _ Hrun)
    as (expanded & analysis & metrics' & draft & final_blog' & _ & _ & -> & _).
  rewrite !length_app. simpl. lia.
Qed.

End HandlerFacts.

(** ** [init_db] *)

(** X25.  [init_db] never loses a record and can be called again: after it
    the history can be read, it is the history there was when the table was
    already there and empty otherwise, and a second [init_db] changes
    nothing. *)
Theorem init_db_keeps_history (db : database) :
  ∃ history,
    fetch_history (init_db db) = inr history ∧
    (∀ before, fetch_history db = inr before → history = before) ∧
    (db = None → history = []) ∧
    init_db (init_db db) = init_db db.
Proof.
  destruct db as [t|]; simpl.
  - eexists. split; [reflexivity|]. split; [|split; [discriminate | reflexivity]].
    intros before [= <-]. reflexivity.
  - exists []. split; [reflexivity|]. split; [discriminate|].
    split; reflexivity.
Qed.

(** ** The further theorems at concrete inputs *)

Lemma request_api_nonempty_inv_witness :
  snd (request_api (Sample.says (py "hello")) (py "hi") []) = inr (PStr (py "hello")) ∧
  PStr (py "hello") ≠ PStr [] ∧
  ∃ response d,
    Sample.says (py "hello") [] (py "hi") = inr response ∧
    status_code response = 200%Z ∧
    json response = inr (PDict d) ∧
    PStr (py "hello") = dict_get d (py "response") (PDict d).
Proof.
  assert (H1 : snd (request_api (Sample.says (py "hello")) (py "hi") [])
               = inr (PStr (py "hello"))) by reflexivity.
  assert (H2 : PStr (py "hello") ≠ PStr []) by discriminate.
  split; [exact H1|]. split; [exact H2|].
  exact (request_api_nonempty_inv (Sample.says (py "hello")) (py "hi") []
           (PStr (py "hello")) H1 H2).
Defined.

Lemma MetricAgent_process_raises_inv_witness :
  snd (request_api (Sample.answers 200 (PDict [(py "error", PStr (py "x"))]))
         (Metric_prompt Sample.float_repr Sample.unicode_printable []) [])
    = inr (PDict [(py "error", PStr (py "x"))]) ∧
  snd (MetricAgent_process Sample.float_repr Sample.float_truth
         Sample.unicode_printable
         (Sample.answers 200 (PDict [(py "error", PStr (py "x"))])) [] [])
    = inl TypeError ∧
  Metric_raises Sample.float_truth (PDict [(py "error", PStr (py "x"))]) TypeError.
Proof.
  assert (H :
    snd (request_api (Sample.answers 200 (PDict [(py "error", PStr (py "x"))]))
           (Metric_prompt Sample.float_repr Sample.unicode_printable []) [])
    = inr (PDict [(py "error", PStr (py "x"))])) by reflexivity.
  split; [exact H|].
  destruct (MetricAgent_process_raises_inv Sample.float_repr Sample.float_truth
              Sample.unicode_printable
              (Sample.answers 200 (PDict [(py "error", PStr (py "x"))])) [] []
              (PDict [(py "error", PStr (py "x"))]) TypeError H)
    as [Hwhy Hnontext].
  assert (Hraises :
    snd (MetricAgent_process Sample.float_repr Sample.float_truth
           Sample.unicode_printable
           (Sample.answers 200 (PDict [(py "error", PStr (py "x"))])) [] [])
    = inl TypeError).
  { apply Hnontext; [reflexivity | intros s; discriminate]. }
  split; [exact Hraises | exact (Hwhy Hraises)].
Defined.

Lemma MetricAgent_process_falsy_witness :
  snd (request_api (Sample.answers 200 (PDict []))
         (Metric_prompt Sample.float_repr Sample.unicode_printable []) [])
    = inr (PDict []) ∧
  truthy Sample.float_truth (PDict []) = false ∧
  MetricAgent_process Sample.float_repr Sample.float_truth Sample.unicode_printable
    (Sample.answers 200 (PDict [])) [] []
    = ([py "Extract Metrics: "], inr [(py "metrics", PDict [])]).
Proof.
  assert (H :
    snd (request_api (Sample.answers 200 (PDict []))
           (Metric_prompt Sample.float_repr Sample.unicode_printable []) [])
    = inr (PDict [])) by reflexivity.
  split; [exact H|]. split; [reflexivity|].
  exact (MetricAgent_process_falsy Sample.float_repr Sample.float_truth
           Sample.unicode_printable (Sample.answers 200 (PDict [])) [] []
           (PDict []) H eq_refl).
Defined.

Lemma run_analysis_returns_inv_witness :
  ∃ w' state,
    run_analysis (Sample.generator Sample.echo) Sample.two_posts [] = (w', inr state) ∧
    dict_keys state =
      [py "raw_content"; py "expanded"; py "analysis"; py "metrics";
       py "final_blog"] ∧
    length w' = 5%nat.
Proof.
  destruct (run_analysis (Sample.generator Sample.echo) Sample.two_posts [])
    as [w' [e|state]] eqn:Hrun.
  - exfalso. vm_compute in Hrun. discriminate Hrun.
  - exists w', state. split; [reflexivity|].
    destruct (run_analysis_returns_inv Sample.float_repr Sample.float_truth
                Sample.unicode_printable Sample.dedent Sample.echo
                Sample.two_posts [] w' state Hrun)
      as (expanded & analysis & metrics & draft & final_blog & _ & Hkeys & -> & _).
    split; [exact Hkeys | reflexivity].
Defined.

Lemma run_analysis_raises_inv_witness :
  ∃ w' e raw,
    run_analysis (Sample.generator (Sample.says [55296%N])) Sample.two_posts []
      = (w', inl e) ∧
    length w' = 3%nat ∧
    Metric_raises Sample.float_truth raw e.
Proof.
  destruct (run_analysis (Sample.generator (Sample.says [55296%N]))
              Sample.two_posts [])
    as [w' [e|state]] eqn:Hrun.
  - destruct (run_analysis_raises_inv Sample.float_repr Sample.float_truth
                Sample.unicode_printable Sample.dedent (Sample.says [55296%N])
                Sample.two_posts [] w' e Hrun)
      as (expanded & analysis & raw & Hworld & _ & _ & _ & _ & Hwhy).
    exists w', e, raw. split; [reflexivity|].
    split; [rewrite Hworld; reflexivity | exact Hwhy].
  - exfalso. vm_compute in Hrun. discriminate Hrun.
Defined.

Lemma run_analysis_returns_on_text_witness :
  (∀ prompt w0, ∃ s,
     snd (request_api (Sample.says (py "not valid data")) prompt w0) = inr (PStr s) ∧
     (s = [] ∨ (∃ v, json_loads s = inr v) ∨
      (json_loads s = inl JSONDecodeError ∧ existsb is_surrogate s = false))) ∧
  ∃ w' state,
    run_analysis (Sample.generator (Sample.says (py "not valid data")))
      Sample.two_posts [] = (w', inr state).
Proof.
  assert (Htext :
    ∀ prompt w0, ∃ s,
      snd (request_api (Sample.says (py "not valid data")) prompt w0)
        = inr (PStr s) ∧
      (s = [] ∨ (∃ v, json_loads s = inr v) ∨
       (json_loads s = inl JSONDecodeError ∧ existsb is_surrogate s = false))).
  { intros prompt w0. exists (py "not valid data").
    split; [reflexivity|]. right. right. split; reflexivity. }
  split; [exact Htext|].
  exact (run_analysis_returns_on_text Sample.float_repr Sample.float_truth
           Sample.unicode_printable Sample.dedent
           (Sample.says (py "not valid data")) Sample.two_posts [] Htext).
Defined.

Lemma fetch_content_contains_witness :
  ∃ content,
    fetch_content (inr Demo.user) 1 = inr content ∧
    Demo.second_post ∈ new (submissions Demo.user) 1 ∧
    contains content (py "Second post") = true.
Proof.
  destruct (fetch_content (inr Demo.user) 1) as [e|content] eqn:Hfetch;
    [discriminate Hfetch|].
  exists content. split; [reflexivity|].
  assert (Hpost : Demo.second_post ∈ new (submissions Demo.user) 1) by left.
  split; [exact Hpost|].
  destruct (fetch_content_contains Demo.user 1 content Hfetch) as [Hposts _].
  destruct (Hposts Demo.second_post Hpost) as (_ & Htitle & _).
  exact Htitle.
Defined.

Lemma save_to_db_then_history_witness :
  ∃ db' record,
    save_to_db Demo.float_json Demo.float_text Demo.now Demo.metrics
      (PStr (py "# Blog")) complete (init_db None) = (db', inr tt) ∧
    fetch_history db' = inr [record] ∧
    row_timestamp record = Some Demo.now ∧
    row_status record = Some (py "complete").
Proof.
  destruct (save_to_db Demo.float_json Demo.float_text Demo.now Demo.metrics
              (PStr (py "# Blog")) complete (init_db None))
    as [db' [e|[]]] eqn:Hsave.
  - exfalso. vm_compute in Hsave. discriminate Hsave.
  - destruct (save_to_db_then_history Demo.float_json Demo.float_text Demo.now
                Demo.metrics (PStr (py "# Blog")) complete (init_db None) db' Hsave)
      as (before & record & Hbefore & Hafter & _ & Htime & _ & _ & Hstatus).
    injection Hbefore as <-.
    exists db', record. split; [reflexivity|]. split; [exact Hafter|].
    split; [exact Htime|].
    simpl in Hstatus. injection Hstatus as <-. reflexivity.
Defined.

Lemma save_to_db_raises_inv_witness :
  save_to_db Demo.float_json Demo.float_text Demo.now Demo.metrics
    (PStr (py "# Blog")) complete None = (None, inl OperationalError) ∧
  fetch_history None = fetch_history None ∧
  ((None : database) = None ↔ OperationalError = OperationalError).
Proof.
  assert (H :
    save_to_db Demo.float_json Demo.float_text Demo.now Demo.metrics
      (PStr (py "# Blog")) complete None = (None, inl OperationalError))
    by reflexivity.
  split; [exact H|].
  exact (proj2 (save_to_db_raises_inv Demo.float_json Demo.float_text
                  Demo.now Demo.metrics (PStr (py "# Blog")) complete
                  None None OperationalError H)).
Defined.

Lemma save_to_db_rejects_containers_witness :
  existsb is_surrogate Demo.now = false ∧
  existsb is_surrogate (json_dumps Demo.float_json Demo.metrics) = false ∧
  save_to_db Demo.float_json Demo.float_text Demo.now Demo.metrics
    (PDict [(py "error", PStr (py "overloaded"))]) complete
    (Some {| sqlite_seq := 0; rows := [] |})
  = (Some {| sqlite_seq := 0; rows := [] |}, inl ProgrammingError).
Proof.
  assert (H1 : existsb is_surrogate Demo.now = false) by reflexivity.
  assert (H2 : existsb is_surrogate (json_dumps Demo.float_json Demo.metrics) = false)
    by reflexivity.
  split; [exact H1|]. split; [exact H2|].
  apply (save_to_db_rejects_containers Demo.float_json Demo.float_text Demo.now
           Demo.metrics (PDict [(py "error", PStr (py "overloaded"))]) complete
           {| sqlite_seq := 0; rows := [] |} H1 H2).
  right. eexists. reflexivity.
Defined.

Lemma built_history_witness :
  built Demo.float_json Demo.float_text Demo.two_saves ∧
  ∃ t,
    Demo.two_saves = Some t ∧
    map row_id (rows t) = [1%Z; 2%Z] ∧
    fetch_history Demo.two_saves = inr (rev (rows t)).
Proof.
  assert (Hbuilt : built Demo.float_json Demo.float_text Demo.two_saves).
  { unfold Demo.two_saves. apply built_save, built_save, built_init, built_nothing. }
  split; [exact Hbuilt|].
  destruct Demo.two_saves as [t|] eqn:Hdb.
  - exists t. split; [reflexivity|].
    destruct (built_history Demo.float_json Demo.float_text (Some t) t Hbuilt eq_refl)
      as [Hids Hhistory].
    split; [|exact Hhistory].
    rewrite Hids.
    assert (Hlen : length (rows t) = 2%nat).
    { vm_compute in Hdb. injection Hdb as <-. reflexivity. }
    rewrite Hlen. reflexivity.
  - exfalso. vm_compute in Hdb. discriminate Hdb.
Defined.

Lemma json_round_trip_witness :
  plain Demo.metrics = true ∧
  json_loads (json_dumps Demo.float_json Demo.metrics) = inr Demo.metrics.
Proof.
  assert (H : plain Demo.metrics = true) by (vm_compute; reflexivity).
  split; [exact H|].
  exact (json_round_trip Demo.float_json Demo.metrics H).
Defined.

Lemma save_to_db_returns_witness :
  (∀ f : str, forallb is_ascii (Demo.float_json f) = true) ∧
  ∃ db',
    save_to_db Demo.float_json Demo.float_text Demo.now Demo.metrics
      (PStr (py "# Blog")) (PStr (py "complete"))
      (Some {| sqlite_seq := 0; rows := [] |})
    = (db', inr tt).
Proof.
  assert (Hfloat : ∀ f : str, forallb is_ascii (Demo.float_json f) = true).
  { intros f. unfold Demo.float_json.
    destruct (forallb is_ascii f) eqn:Hf; [exact Hf | reflexivity]. }
  split; [exact Hfloat|].
  exact (save_to_db_returns Demo.float_json Demo.float_text Demo.now
           (py "# Blog") (py "complete") Demo.metrics
           {| sqlite_seq := 0; rows := [] |} Hfloat eq_refl eq_refl eq_refl).
Defined.

Lemma saved_metrics_read_back_witness :
  plain Demo.metrics = true ∧
  ∃ db' before record,
    save_to_db Demo.float_json Demo.float_text Demo.now Demo.metrics
      (PStr (py "# Blog")) complete (init_db None) = (db', inr tt) ∧
    fetch_history db' = inr (record :: before) ∧
    history_metrics record = inr Demo.metrics.
Proof.
  assert (Hplain : plain Demo.metrics = true) by (vm_compute; reflexivity).
  split; [exact Hplain|].
  destruct (save_to_db Demo.float_json Demo.float_text Demo.now Demo.metrics
              (PStr (py "# Blog")) complete (init_db None))
    as [db' [e|[]]] eqn:Hsave.
  - exfalso. vm_compute in Hsave. discriminate Hsave.
  - destruct (saved_metrics_read_back Demo.float_json Demo.float_text Demo.now
                Demo.metrics (PStr (py "# Blog")) complete (init_db None) db'
                Hsave Hplain)
      as (before & record & Hhistory & Hmetrics).
    exists db', before, record. split; [reflexivity|].
    split; [exact Hhistory | exact Hmetrics].
Defined.

Lemma start_analysis_saves_witness :
  ∃ w' db' results record,
    start_analysis Demo.float_json Demo.float_text (inr Demo.user) 5 Demo.now
      (Sample.generator Sample.echo) [] (init_db None) = (w', db', inr results) ∧
    fetch_history db' = inr [record] ∧
    row_status record = Some (py "complete").
Proof.
  destruct (start_analysis Demo.float_json Demo.float_text (inr Demo.user) 5
              Demo.now (Sample.generator Sample.echo) [] (init_db None))
    as [[w' db'] [f|results]] eqn:Hstart.
  - exfalso. vm_compute in Hstart. discriminate Hstart.
  - destruct (start_analysis_saves Sample.float_repr Sample.float_truth
                Sample.unicode_printable Sample.dedent Sample.echo
                Demo.float_json Demo.float_text (inr Demo.user) 5 Demo.now
                [] w' (init_db None) db' results Hstart)
      as (content & metrics & final_blog & before & record & _ & _ & _ & _
          & Hbefore & Hafter & _ & _ & Hstatus).
    injection Hbefore as <-.
    exists w', db', results, record. split; [reflexivity|].
    split; [exact Hafter | exact Hstatus].
Defined.

Lemma start_analysis_pipeline_failure_witness :
  ∃ w' db' e,
    start_analysis Demo.float_json Demo.float_text (inr Demo.user) 5 Demo.now
      (Sample.generator (Sample.answers 200 (PDict [(py "error", PStr (py "x"))])))
      [] (init_db None) = (w', db', inl (PipelineFailed e)) ∧
    db' = init_db None ∧ length w' = 3%nat.
Proof.
  destruct (start_analysis Demo.float_json Demo.float_text (inr Demo.user) 5
              Demo.now
              (Sample.generator
                 (Sample.answers 200 (PDict [(py "error", PStr (py "x"))])))
              [] (init_db None))
    as [[w' db'] [[e|e|e]|results]] eqn:Hstart;
    try (exfalso; vm_compute in Hstart; discriminate Hstart).
  exists w', db', e. split; [reflexivity|].
  destruct (start_analysis_pipeline_failure Sample.float_repr Sample.float_truth
              Sample.unicode_printable Sample.dedent
              (Sample.answers 200 (PDict [(py "error", PStr (py "x"))]))
              Demo.float_json Demo.float_text (inr Demo.user) 5 Demo.now
              [] w' (init_db None) db' e Hstart)
    as (Hdb & content & _ & _ & Hlen).
  split; [exact Hdb | exact Hlen].
Defined.

Lemma start_analysis_silent_model_witness :
  (∀ prompt w0, snd (request_api Sample.down prompt w0) = inr (PStr [])) ∧
  existsb is_surrogate Demo.now = false ∧
  ∃ w' results,
    start_analysis Demo.float_json Demo.float_text (inr Demo.user) 5 Demo.now
      (Sample.generator Sample.down) [] (init_db None) =
    (w',
     Some {| sqlite_seq := 1;
             rows :=
               [{| row_id := 1;
                   row_timestamp := Some Demo.now;
                   row_metrics := Some (py "{}");
                   row_final_blog := Some [];
                   row_status := Some (py "complete") |}] |},
     inr results).
Proof.
  assert (Hsilent :
    ∀ prompt w0, snd (request_api Sample.down prompt w0) = inr (PStr []))
    by (intros prompt w0; reflexivity).
  assert (Hnow : existsb is_surrogate Demo.now = false) by reflexivity.
  split; [exact Hsilent|]. split; [exact Hnow|].
  exact (start_analysis_silent_model Sample.float_repr Sample.float_truth
           Sample.unicode_printable Sample.dedent Sample.down
           Demo.float_json Demo.float_text Demo.user 5 Demo.now []
           {| sqlite_seq := 0; rows := [] |} Hsilent Hnow).
Defined.

Lemma start_analysis_store_failure_witness :
  ∃ content w' results final_blog,
    fetch_content (inr Demo.user) 5 = inr content ∧
    run_analysis (Sample.generator Demo.text_then_object) content [] =
      (w', inr results) ∧
    dict_lookup results (py "final_blog") = Some (PDict final_blog) ∧
    start_analysis Demo.float_json Demo.float_text (inr Demo.user) 5 Demo.now
      (Sample.generator Demo.text_then_object) [] (init_db None) =
    (w', init_db None, inl (StoreFailed ProgrammingError)).
Proof.
  assert (Hfloat : ∀ f : str, forallb is_ascii (Demo.float_json f) = true).
  { intros f. unfold Demo.float_json.
    destruct (forallb is_ascii f) eqn:Hf; [exact Hf | reflexivity]. }
  destruct (fetch_content (inr Demo.user) 5) as [e|content] eqn:Hfetch;
    [discriminate Hfetch|].
  destruct (run_analysis (Sample.generator Demo.text_then_object) content [])
    as [w' [e|results]] eqn:Hrun.
  - exfalso. vm_compute in Hfetch. injection Hfetch as <-.
    vm_compute in Hrun. discriminate Hrun.
  - assert (Hblog :
      dict_lookup results (py "final_blog")
      = Some (PDict [(py "error", PStr (py "overloaded"))])).
    { vm_compute in Hfetch. injection Hfetch as <-.
      vm_compute in Hrun. injection Hrun as <- <-. reflexivity. }
    exists content, w', results, [(py "error", PStr (py "overloaded"))].
    split; [first [reflexivity | exact Hfetch]|].
    split; [first [reflexivity | exact Hrun]|]. split; [exact Hblog|].
    apply (start_analysis_store_failure Sample.float_repr Sample.float_truth
             Sample.unicode_printable Sample.dedent Demo.text_then_object
             Demo.float_json Demo.float_text Demo.user 5 Demo.now content
             [] w' {| sqlite_seq := 0; rows := [] |} results
             (PDict [(py "error", PStr (py "overloaded"))])
             Hfloat eq_refl Hfetch Hrun Hblog).
    right. eexists. reflexivity.
Defined.

Lemma start_analysis_then_history_witness :
  ∃ w' db' results metrics record,
    start_analysis Demo.float_json Demo.float_text (inr Demo.user) 5 Demo.now
      (Sample.generator (Sample.says Sample.engagement_text)) [] (init_db None)
      = (w', db', inr results) ∧
    dict_lookup results (py "metrics") = Some metrics ∧
    plain metrics = true ∧
    fetch_history db' = inr [record] ∧
    history_metrics record = inr metrics.
Proof.
  destruct (start_analysis Demo.float_json Demo.float_text (inr Demo.user) 5
              Demo.now (Sample.generator (Sample.says Sample.engagement_text)) []
              (init_db None))
    as [[w' db'] [f|results]] eqn:Hstart.
  - exfalso. vm_compute in Hstart. discriminate Hstart.
  - destruct (dict_lookup results (py "metrics")) as [metrics|] eqn:Hmetrics.
    + assert (Hplain : plain metrics = true).
      { vm_compute in Hstart. injection Hstart as <- <- <-.
        vm_compute in Hmetrics. injection Hmetrics as <-.
        vm_compute. reflexivity. }
      destruct (start_analysis_then_history Sample.float_repr Sample.float_truth
                  Sample.unicode_printable Sample.dedent
                  (Sample.says Sample.engagement_text)
                  Demo.float_json Demo.float_text (inr Demo.user) 5 Demo.now
                  [] w' (init_db None) db' results metrics Hstart Hmetrics Hplain)
        as (record & before & Hbefore & Hafter & Hread).
      injection Hbefore as <-.
      exists w', db', results, metrics, record.
      split; [reflexivity|]. split; [exact Hmetrics|]. split; [exact Hplain|].
      split; [exact Hafter | exact Hread].
    + exfalso. vm_compute in Hstart. injection Hstart as <- <- <-.
      vm_compute in Hmetrics. discriminate Hmetrics.
Defined.

Lemma start_analysis_reddit_failure_witness :
  start_analysis Demo.float_json Demo.float_text (inl PrawException) 5 Demo.now
    (Sample.generator Sample.echo) [py "earlier"] None
  = ([py "earlier"], None, inl (RedditFailed PrawException)) ∧
  fetch_content (inl PrawException) 5 = inl PrawException ∧
  [py "earlier"] = [py "earlier"] ∧ (None : database) = None.
Proof.
  assert (H :
    start_analysis Demo.float_json Demo.float_text (inl PrawException) 5 Demo.now
      (Sample.generator Sample.echo) [py "earlier"] None
    = ([py "earlier"], None, inl (RedditFailed PrawException))) by reflexivity.
  split; [exact H|].
  exact (start_analysis_reddit_failure Sample.float_repr Sample.float_truth
           Sample.unicode_printable Sample.dedent Sample.echo
           Demo.float_json Demo.float_text (inl PrawException) 5 Demo.now
           [py "earlier"] [py "earlier"] None None PrawException H).
Defined.

Lemma start_analysis_store_failure_inv_witness :
  ∃ w' db' e,
    start_analysis Demo.float_json Demo.float_text (inr Demo.user) 5 Demo.now
      (Sample.generator Sample.echo) [] None = (w', db', inl (StoreFailed e)) ∧
    db' = None ∧ length w' = 5%nat.
Proof.
  destruct (start_analysis Demo.float_json Demo.float_text (inr Demo.user) 5
              Demo.now (Sample.generator Sample.echo) [] None)
    as [[w' db'] [[e|e|e]|results]] eqn:Hstart;
    try (exfalso; vm_compute in Hstart; discriminate Hstart).
  exists w', db', e. split; [reflexivity|].
  destruct (start_analysis_store_failure_inv Sample.float_repr Sample.float_truth
              Sample.unicode_printable Sample.dedent Sample.echo
              Demo.float_json Demo.float_text (inr Demo.user) 5 Demo.now
              [] w' None db' e Hstart)
    as (Hdb & content & results & _ & _ & Hlen).
  split; [exact Hdb | exact Hlen].
Defined.

Lemma MetricAgent_process_degrades_printable_witness :
  snd (request_api (Sample.says (py "not valid data"))
         (Metric_prompt Sample.float_repr Sample.unicode_printable []) [])
    = inr (PStr (py "not valid data")) ∧
  json_loads (py "not valid data") = inl JSONDecodeError ∧
  existsb is_surrogate (py "not valid data") = false ∧
  MetricAgent_process Sample.float_repr Sample.float_truth
    Sample.unicode_printable (Sample.says (py "not valid data")) [] []
    = ([py "Extract Metrics: "], inr [(py "metrics", PDict [])]).
Proof.
  assert (H :
    snd (request_api (Sample.says (py "not valid data"))
           (Metric_prompt Sample.float_repr Sample.unicode_printable []) [])
    = inr (PStr (py "not valid data"))) by reflexivity.
  assert (Hloads : json_loads (py "not valid data") = inl JSONDecodeError)
    by reflexivity.
  assert (Hprints : existsb is_surrogate (py "not valid data") = false)
    by reflexivity.
  split; [exact H|]. split; [exact Hloads|]. split; [exact Hprints|].
  exact (MetricAgent_process_degrades_printable Sample.float_repr
           Sample.float_truth Sample.unicode_printable
           (Sample.says (py "not valid data")) [] [] (py "not valid data") H
           (or_intror (conj Hloads Hprints))).
Defined.
